(** * Custom GPT Schema Generator: the configuration aggregator

    A shallow embedding of [src/CustomGPTSchemaGenerator.tsx]: the editing
    state of the component (one field per [useState] hook), its mutators
    (the [add...]/[remove...] handlers and the setters the controls call),
    the derived [output] document (the body of the [useMemo] hook) and the
    two export operations ([JSON.stringify(output, null, 2)] and the
    download file name).

    JavaScript values are modelled the way the engine has them: a string is
    a sequence of UTF-16 code units, a number is an IEEE 754 binary64 value
    ([spec_float] at precision 53 and maximal exponent 1024), enumerated
    string unions are inductive types, and optional properties are
    [option]s. *)

From Stdlib Require Import List Bool Arith ZArith NArith Lia.
From Stdlib Require Import String Ascii.
From Stdlib Require Import Permutation.
From Stdlib Require Import SpecFloat.
Import ListNotations.

Local Close Scope string_scope.
Local Open Scope Z_scope.

(* ===================================================================== *)
(** * JavaScript strings *)
(* ===================================================================== *)

(** A JavaScript string is a finite sequence of 16-bit code units. *)
Definition jsstring : Type := list N.

(** Literals of the source are ASCII; [js "web"] is the string ["web"]. *)
Definition js (s : string) : jsstring :=
  map N_of_ascii (list_ascii_of_string s).

(** [ToBoolean] on a string: only the empty string is falsy. *)
Definition truthy_string (s : jsstring) : bool :=
  match s with
  | [] => false
  | _ :: _ => true
  end.

(** [a || b] on strings. *)
Definition or_string (a b : jsstring) : jsstring :=
  if truthy_string a then a else b.

(** [a === b] on strings. *)
Definition jsstring_eqb (a b : jsstring) : bool :=
  if list_eq_dec N.eq_dec a b then true else false.

(** The code units [String.prototype.trim] strips: [WhiteSpace] and
    [LineTerminator] of ECMA-262 (TAB, LF, VT, FF, CR, SP, NBSP, the
    Unicode space separators, LS, PS and ZWNBSP). All of them lie in the
    Basic Multilingual Plane, so the test is on single code units. *)
Definition isWhiteSpace (c : N) : bool :=
  ((9 <=? c) && (c <=? 13) ||
   (c =? 32) || (c =? 160) || (c =? 5760) ||
   (8192 <=? c) && (c <=? 8202) ||
   (c =? 8232) || (c =? 8233) || (c =? 8239) || (c =? 8287) ||
   (c =? 12288) || (c =? 65279))%N.

(** [s.trimStart()] and [s.trimEnd()] *)
Fixpoint trimStart (s : jsstring) : jsstring :=
  match s with
  | [] => []
  | c :: t => if isWhiteSpace c then trimStart t else s
  end.

Definition trimEnd (s : jsstring) : jsstring :=
  rev (trimStart (rev s)).

(** [s.trim()] *)
Definition trim (s : jsstring) : jsstring :=
  trimEnd (trimStart s).

(** The first and the last code unit of [s], when there is one, is no white
    space. *)
Definition no_edge_whitespace (s : jsstring) : Prop :=
  (forall c t, s = c :: t -> isWhiteSpace c = false) /\
  (forall c t, s = t ++ [c] -> isWhiteSpace c = false).

(* ===================================================================== *)
(** * Types of the source *)
(* ===================================================================== *)

Inductive BuiltInTool := web | code | retrieval | image | vision.

Inductive ActionType := openapi | json_rpc | graphql | webhook.
Inductive AuthType := auth_none | api_key | oauth2.
Inductive MemoryScope := conversation | user.
Inductive WritingTone := casual | formal | technical | friendly | playful | neutral.
Inductive EmojiUse := emoji_none | light | moderate | heavy.
Inductive ResponseLength := short | medium | long.

(** JavaScript numbers: binary64. *)
Definition number : Type := spec_float.
Definition prec : Z := 53.
Definition emax : Z := 1024.

Module Auth.
Record t := mk {
  type : AuthType;
  instructions : option jsstring
}.
End Auth.

Module CustomAction.
Record t := mk {
  name : jsstring;
  description : option jsstring;
  type : ActionType;
  specUrlOrInline : option jsstring;
  auth : option Auth.t;
  rateLimitPerMinute : option number;
  allowedDomains : option (list jsstring)
}.
End CustomAction.

Module ConversationStarter.
Record t := mk { title : jsstring; prompt : jsstring }.
End ConversationStarter.

Module PersonaStyle.
Record t := mk {
  writingTone : WritingTone;
  emojiUse : EmojiUse;
  responseLength : ResponseLength
}.
End PersonaStyle.

Module Knowledge.
Record t := mk { enabled : bool; documents : list jsstring }.
End Knowledge.

Module MemoryPolicy.
Record t := mk {
  enabled : bool;
  scope : MemoryScope;
  dataRetentionDays : number
}.
End MemoryPolicy.

Module SafetyPolicy.
Record t := mk {
  jailbreakDefense : bool;
  blockDisallowedContent : bool;
  piiRedaction : bool;
  customDisallowedPhrases : list jsstring
}.
End SafetyPolicy.

(** The object literal [output] returns: every property is present. *)
Module CustomGPTConfig.
Record t := mk {
  schemaVersion : jsstring;
  name : jsstring;
  description : jsstring;
  instructions : jsstring;
  language : jsstring;
  persona : PersonaStyle.t;
  builtInTools : list BuiltInTool;
  customActions : list CustomAction.t;
  knowledge : Knowledge.t;
  memory : MemoryPolicy.t;
  safety : SafetyPolicy.t;
  conversationStarters : list ConversationStarter.t;
  sampleQuestions : list jsstring;
  tags : list jsstring;
  createdAt : jsstring
}.
End CustomGPTConfig.

(* ===================================================================== *)
(** * The component's state: one field per [useState] hook *)
(* ===================================================================== *)

Record State := mkState {
  name : jsstring;
  description : jsstring;
  instructions : jsstring;
  language : jsstring;
  tone : WritingTone;
  emoji : EmojiUse;
  lengthPref : ResponseLength;
  toolWeb : bool;
  toolCode : bool;
  toolRetrieval : bool;
  toolImage : bool;
  toolVision : bool;
  actions : list CustomAction.t;
  actionDraft : CustomAction.t;
  knowledgeEnabled : bool;
  knowledgeDocs : list jsstring;
  docDraft : jsstring;
  memoryEnabled : bool;
  memoryScope : MemoryScope;
  retention : jsstring;
  jailbreakDefense : bool;
  blockDisallowed : bool;
  piiRedaction : bool;
  customPhrases : list jsstring;
  phraseDraft : jsstring;
  starters : list ConversationStarter.t;
  starterTitle : jsstring;
  starterPrompt : jsstring;
  sampleQs : list jsstring;
  sampleDraft : jsstring;
  tags : list jsstring;
  tagDraft : jsstring;
  copied : bool
}.

Definition setName (v : jsstring) (s : State) : State :=
  mkState v (description s) (instructions s) (language s) (tone s) (emoji s)
    (lengthPref s) (toolWeb s) (toolCode s) (toolRetrieval s) (toolImage s)
    (toolVision s) (actions s) (actionDraft s) (knowledgeEnabled s)
    (knowledgeDocs s) (docDraft s) (memoryEnabled s) (memoryScope s)
    (retention s) (jailbreakDefense s) (blockDisallowed s) (piiRedaction s)
    (customPhrases s) (phraseDraft s) (starters s) (starterTitle s)
    (starterPrompt s) (sampleQs s) (sampleDraft s) (tags s) (tagDraft s)
    (copied s).

Definition setDescription (v : jsstring) (s : State) : State :=
  mkState (name s) v (instructions s) (language s) (tone s) (emoji s)
    (lengthPref s) (toolWeb s) (toolCode s) (toolRetrieval s) (toolImage s)
    (toolVision s) (actions s) (actionDraft s) (knowledgeEnabled s)
    (knowledgeDocs s) (docDraft s) (memoryEnabled s) (memoryScope s)
    (retention s) (jailbreakDefense s) (blockDisallowed s) (piiRedaction s)
    (customPhrases s) (phraseDraft s) (starters s) (starterTitle s)
    (starterPrompt s) (sampleQs s) (sampleDraft s) (tags s) (tagDraft s)
    (copied s).

Definition setInstructions (v : jsstring) (s : State) : State :=
  mkState (name s) (description s) v (language s) (tone s) (emoji s)
    (lengthPref s) (toolWeb s) (toolCode s) (toolRetrieval s) (toolImage s)
    (toolVision s) (actions s) (actionDraft s) (knowledgeEnabled s)
    (knowledgeDocs s) (docDraft s) (memoryEnabled s) (memoryScope s)
    (retention s) (jailbreakDefense s) (blockDisallowed s) (piiRedaction s)
    (customPhrases s) (phraseDraft s) (starters s) (starterTitle s)
    (starterPrompt s) (sampleQs s) (sampleDraft s) (tags s) (tagDraft s)
    (copied s).

Definition setLanguage (v : jsstring) (s : State) : State :=
  mkState (name s) (description s) (instructions s) v (tone s) (emoji s)
    (lengthPref s) (toolWeb s) (toolCode s) (toolRetrieval s) (toolImage s)
    (toolVision s) (actions s) (actionDraft s) (knowledgeEnabled s)
    (knowledgeDocs s) (docDraft s) (memoryEnabled s) (memoryScope s)
    (retention s) (jailbreakDefense s) (blockDisallowed s) (piiRedaction s)
    (customPhrases s) (phraseDraft s) (starters s) (starterTitle s)
    (starterPrompt s) (sampleQs s) (sampleDraft s) (tags s) (tagDraft s)
    (copied s).

Definition setTone (v : WritingTone) (s : State) : State :=
  mkState (name s) (description s) (instructions s) (language s) v (emoji s)
    (lengthPref s) (toolWeb s) (toolCode s) (toolRetrieval s) (toolImage s)
    (toolVision s) (actions s) (actionDraft s) (knowledgeEnabled s)
    (knowledgeDocs s) (docDraft s) (memoryEnabled s) (memoryScope s)
    (retention s) (jailbreakDefense s) (blockDisallowed s) (piiRedaction s)
    (customPhrases s) (phraseDraft s) (starters s) (starterTitle s)
    (starterPrompt s) (sampleQs s) (sampleDraft s) (tags s) (tagDraft s)
    (copied s).

Definition setEmoji (v : EmojiUse) (s : State) : State :=
  mkState (name s) (description s) (instructions s) (language s) (tone s) v
    (lengthPref s) (toolWeb s) (toolCode s) (toolRetrieval s) (toolImage s)
    (toolVision s) (actions s) (actionDraft s) (knowledgeEnabled s)
    (knowledgeDocs s) (docDraft s) (memoryEnabled s) (memoryScope s)
    (retention s) (jailbreakDefense s) (blockDisallowed s) (piiRedaction s)
    (customPhrases s) (phraseDraft s) (starters s) (starterTitle s)
    (starterPrompt s) (sampleQs s) (sampleDraft s) (tags s) (tagDraft s)
    (copied s).

Definition setLengthPref (v : ResponseLength) (s : State) : State :=
  mkState (name s) (description s) (instructions s) (language s) (tone s)
    (emoji s) v (toolWeb s) (toolCode s) (toolRetrieval s) (toolImage s)
    (toolVision s) (actions s) (actionDraft s) (knowledgeEnabled s)
    (knowledgeDocs s) (docDraft s) (memoryEnabled s) (memoryScope s)
    (retention s) (jailbreakDefense s) (blockDisallowed s) (piiRedaction s)
    (customPhrases s) (phraseDraft s) (starters s) (starterTitle s)
    (starterPrompt s) (sampleQs s) (sampleDraft s) (tags s) (tagDraft s)
    (copied s).

Definition setToolWeb (v : bool) (s : State) : State :=
  mkState (name s) (description s) (instructions s) (language s) (tone s)
    (emoji s) (lengthPref s) v (toolCode s) (toolRetrieval s) (toolImage s)
    (toolVision s) (actions s) (actionDraft s) (knowledgeEnabled s)
    (knowledgeDocs s) (docDraft s) (memoryEnabled s) (memoryScope s)
    (retention s) (jailbreakDefense s) (blockDisallowed s) (piiRedaction s)
    (customPhrases s) (phraseDraft s) (starters s) (starterTitle s)
    (starterPrompt s) (sampleQs s) (sampleDraft s) (tags s) (tagDraft s)
    (copied s).

Definition setToolCode (v : bool) (s : State) : State :=
  mkState (name s) (description s) (instructions s) (language s) (tone s)
    (emoji s) (lengthPref s) (toolWeb s) v (toolRetrieval s) (toolImage s)
    (toolVision s) (actions s) (actionDraft s) (knowledgeEnabled s)
    (knowledgeDocs s) (docDraft s) (memoryEnabled s) (memoryScope s)
    (retention s) (jailbreakDefense s) (blockDisallowed s) (piiRedaction s)
    (customPhrases s) (phraseDraft s) (starters s) (starterTitle s)
    (starterPrompt s) (sampleQs s) (sampleDraft s) (tags s) (tagDraft s)
    (copied s).

Definition setToolRetrieval (v : bool) (s : State) : State :=
  mkState (name s) (description s) (instructions s) (language s) (tone s)
    (emoji s) (lengthPref s) (toolWeb s) (toolCode s) v (toolImage s)
    (toolVision s) (actions s) (actionDraft s) (knowledgeEnabled s)
    (knowledgeDocs s) (docDraft s) (memoryEnabled s) (memoryScope s)
    (retention s) (jailbreakDefense s) (blockDisallowed s) (piiRedaction s)
    (customPhrases s) (phraseDraft s) (starters s) (starterTitle s)
    (starterPrompt s) (sampleQs s) (sampleDraft s) (tags s) (tagDraft s)
    (copied s).

Definition setToolImage (v : bool) (s : State) : State :=
  mkState (name s) (description s) (instructions s) (language s) (tone s)
    (emoji s) (lengthPref s) (toolWeb s) (toolCode s) (toolRetrieval s) v
    (toolVision s) (actions s) (actionDraft s) (knowledgeEnabled s)
    (knowledgeDocs s) (docDraft s) (memoryEnabled s) (memoryScope s)
    (retention s) (jailbreakDefense s) (blockDisallowed s) (piiRedaction s)
    (customPhrases s) (phraseDraft s) (starters s) (starterTitle s)
    (starterPrompt s) (sampleQs s) (sampleDraft s) (tags s) (tagDraft s)
    (copied s).

Definition setToolVision (v : bool) (s : State) : State :=
  mkState (name s) (description s) (instructions s) (language s) (tone s)
    (emoji s) (lengthPref s) (toolWeb s) (toolCode s) (toolRetrieval s)
    (toolImage s) v (actions s) (actionDraft s) (knowledgeEnabled s)
    (knowledgeDocs s) (docDraft s) (memoryEnabled s) (memoryScope s)
    (retention s) (jailbreakDefense s) (blockDisallowed s) (piiRedaction s)
    (customPhrases s) (phraseDraft s) (starters s) (starterTitle s)
    (starterPrompt s) (sampleQs s) (sampleDraft s) (tags s) (tagDraft s)
    (copied s).

Definition setActions (v : list CustomAction.t) (s : State) : State :=
  mkState (name s) (description s) (instructions s) (language s) (tone s)
    (emoji s) (lengthPref s) (toolWeb s) (toolCode s) (toolRetrieval s)
    (toolImage s) (toolVision s) v (actionDraft s) (knowledgeEnabled s)
    (knowledgeDocs s) (docDraft s) (memoryEnabled s) (memoryScope s)
    (retention s) (jailbreakDefense s) (blockDisallowed s) (piiRedaction s)
    (customPhrases s) (phraseDraft s) (starters s) (starterTitle s)
    (starterPrompt s) (sampleQs s) (sampleDraft s) (tags s) (tagDraft s)
    (copied s).

Definition setActionDraft (v : CustomAction.t) (s : State) : State :=
  mkState (name s) (description s) (instructions s) (language s) (tone s)
    (emoji s) (lengthPref s) (toolWeb s) (toolCode s) (toolRetrieval s)
    (toolImage s) (toolVision s) (actions s) v (knowledgeEnabled s)
    (knowledgeDocs s) (docDraft s) (memoryEnabled s) (memoryScope s)
    (retention s) (jailbreakDefense s) (blockDisallowed s) (piiRedaction s)
    (customPhrases s) (phraseDraft s) (starters s) (starterTitle s)
    (starterPrompt s) (sampleQs s) (sampleDraft s) (tags s) (tagDraft s)
    (copied s).

Definition setKnowledgeEnabled (v : bool) (s : State) : State :=
  mkState (name s) (description s) (instructions s) (language s) (tone s)
    (emoji s) (lengthPref s) (toolWeb s) (toolCode s) (toolRetrieval s)
    (toolImage s) (toolVision s) (actions s) (actionDraft s) v (knowledgeDocs
    s) (docDraft s) (memoryEnabled s) (memoryScope s) (retention s)
    (jailbreakDefense s) (blockDisallowed s) (piiRedaction s) (customPhrases
    s) (phraseDraft s) (starters s) (starterTitle s) (starterPrompt s)
    (sampleQs s) (sampleDraft s) (tags s) (tagDraft s) (copied s).

Definition setKnowledgeDocs (v : list jsstring) (s : State) : State :=
  mkState (name s) (description s) (instructions s) (language s) (tone s)
    (emoji s) (lengthPref s) (toolWeb s) (toolCode s) (toolRetrieval s)
    (toolImage s) (toolVision s) (actions s) (actionDraft s) (knowledgeEnabled
    s) v (docDraft s) (memoryEnabled s) (memoryScope s) (retention s)
    (jailbreakDefense s) (blockDisallowed s) (piiRedaction s) (customPhrases
    s) (phraseDraft s) (starters s) (starterTitle s) (starterPrompt s)
    (sampleQs s) (sampleDraft s) (tags s) (tagDraft s) (copied s).

Definition setDocDraft (v : jsstring) (s : State) : State :=
  mkState (name s) (description s) (instructions s) (language s) (tone s)
    (emoji s) (lengthPref s) (toolWeb s) (toolCode s) (toolRetrieval s)
    (toolImage s) (toolVision s) (actions s) (actionDraft s) (knowledgeEnabled
    s) (knowledgeDocs s) v (memoryEnabled s) (memoryScope s) (retention s)
    (jailbreakDefense s) (blockDisallowed s) (piiRedaction s) (customPhrases
    s) (phraseDraft s) (starters s) (starterTitle s) (starterPrompt s)
    (sampleQs s) (sampleDraft s) (tags s) (tagDraft s) (copied s).

Definition setMemoryEnabled (v : bool) (s : State) : State :=
  mkState (name s) (description s) (instructions s) (language s) (tone s)
    (emoji s) (lengthPref s) (toolWeb s) (toolCode s) (toolRetrieval s)
    (toolImage s) (toolVision s) (actions s) (actionDraft s) (knowledgeEnabled
    s) (knowledgeDocs s) (docDraft s) v (memoryScope s) (retention s)
    (jailbreakDefense s) (blockDisallowed s) (piiRedaction s) (customPhrases
    s) (phraseDraft s) (starters s) (starterTitle s) (starterPrompt s)
    (sampleQs s) (sampleDraft s) (tags s) (tagDraft s) (copied s).

Definition setMemoryScope (v : MemoryScope) (s : State) : State :=
  mkState (name s) (description s) (instructions s) (language s) (tone s)
    (emoji s) (lengthPref s) (toolWeb s) (toolCode s) (toolRetrieval s)
    (toolImage s) (toolVision s) (actions s) (actionDraft s) (knowledgeEnabled
    s) (knowledgeDocs s) (docDraft s) (memoryEnabled s) v (retention s)
    (jailbreakDefense s) (blockDisallowed s) (piiRedaction s) (customPhrases
    s) (phraseDraft s) (starters s) (starterTitle s) (starterPrompt s)
    (sampleQs s) (sampleDraft s) (tags s) (tagDraft s) (copied s).

Definition setRetention (v : jsstring) (s : State) : State :=
  mkState (name s) (description s) (instructions s) (language s) (tone s)
    (emoji s) (lengthPref s) (toolWeb s) (toolCode s) (toolRetrieval s)
    (toolImage s) (toolVision s) (actions s) (actionDraft s) (knowledgeEnabled
    s) (knowledgeDocs s) (docDraft s) (memoryEnabled s) (memoryScope s) v
    (jailbreakDefense s) (blockDisallowed s) (piiRedaction s) (customPhrases
    s) (phraseDraft s) (starters s) (starterTitle s) (starterPrompt s)
    (sampleQs s) (sampleDraft s) (tags s) (tagDraft s) (copied s).

Definition setJailbreakDefense (v : bool) (s : State) : State :=
  mkState (name s) (description s) (instructions s) (language s) (tone s)
    (emoji s) (lengthPref s) (toolWeb s) (toolCode s) (toolRetrieval s)
    (toolImage s) (toolVision s) (actions s) (actionDraft s) (knowledgeEnabled
    s) (knowledgeDocs s) (docDraft s) (memoryEnabled s) (memoryScope s)
    (retention s) v (blockDisallowed s) (piiRedaction s) (customPhrases s)
    (phraseDraft s) (starters s) (starterTitle s) (starterPrompt s) (sampleQs
    s) (sampleDraft s) (tags s) (tagDraft s) (copied s).

Definition setBlockDisallowed (v : bool) (s : State) : State :=
  mkState (name s) (description s) (instructions s) (language s) (tone s)
    (emoji s) (lengthPref s) (toolWeb s) (toolCode s) (toolRetrieval s)
    (toolImage s) (toolVision s) (actions s) (actionDraft s) (knowledgeEnabled
    s) (knowledgeDocs s) (docDraft s) (memoryEnabled s) (memoryScope s)
    (retention s) (jailbreakDefense s) v (piiRedaction s) (customPhrases s)
    (phraseDraft s) (starters s) (starterTitle s) (starterPrompt s) (sampleQs
    s) (sampleDraft s) (tags s) (tagDraft s) (copied s).

Definition setPiiRedaction (v : bool) (s : State) : State :=
  mkState (name s) (description s) (instructions s) (language s) (tone s)
    (emoji s) (lengthPref s) (toolWeb s) (toolCode s) (toolRetrieval s)
    (toolImage s) (toolVision s) (actions s) (actionDraft s) (knowledgeEnabled
    s) (knowledgeDocs s) (docDraft s) (memoryEnabled s) (memoryScope s)
    (retention s) (jailbreakDefense s) (blockDisallowed s) v (customPhrases s)
    (phraseDraft s) (starters s) (starterTitle s) (starterPrompt s) (sampleQs
    s) (sampleDraft s) (tags s) (tagDraft s) (copied s).

Definition setCustomPhrases (v : list jsstring) (s : State) : State :=
  mkState (name s) (description s) (instructions s) (language s) (tone s)
    (emoji s) (lengthPref s) (toolWeb s) (toolCode s) (toolRetrieval s)
    (toolImage s) (toolVision s) (actions s) (actionDraft s) (knowledgeEnabled
    s) (knowledgeDocs s) (docDraft s) (memoryEnabled s) (memoryScope s)
    (retention s) (jailbreakDefense s) (blockDisallowed s) (piiRedaction s) v
    (phraseDraft s) (starters s) (starterTitle s) (starterPrompt s) (sampleQs
    s) (sampleDraft s) (tags s) (tagDraft s) (copied s).

Definition setPhraseDraft (v : jsstring) (s : State) : State :=
  mkState (name s) (description s) (instructions s) (language s) (tone s)
    (emoji s) (lengthPref s) (toolWeb s) (toolCode s) (toolRetrieval s)
    (toolImage s) (toolVision s) (actions s) (actionDraft s) (knowledgeEnabled
    s) (knowledgeDocs s) (docDraft s) (memoryEnabled s) (memoryScope s)
    (retention s) (jailbreakDefense s) (blockDisallowed s) (piiRedaction s)
    (customPhrases s) v (starters s) (starterTitle s) (starterPrompt s)
    (sampleQs s) (sampleDraft s) (tags s) (tagDraft s) (copied s).

Definition setStarters (v : list ConversationStarter.t) (s : State) : State :=
  mkState (name s) (description s) (instructions s) (language s) (tone s)
    (emoji s) (lengthPref s) (toolWeb s) (toolCode s) (toolRetrieval s)
    (toolImage s) (toolVision s) (actions s) (actionDraft s) (knowledgeEnabled
    s) (knowledgeDocs s) (docDraft s) (memoryEnabled s) (memoryScope s)
    (retention s) (jailbreakDefense s) (blockDisallowed s) (piiRedaction s)
    (customPhrases s) (phraseDraft s) v (starterTitle s) (starterPrompt s)
    (sampleQs s) (sampleDraft s) (tags s) (tagDraft s) (copied s).

Definition setStarterTitle (v : jsstring) (s : State) : State :=
  mkState (name s) (description s) (instructions s) (language s) (tone s)
    (emoji s) (lengthPref s) (toolWeb s) (toolCode s) (toolRetrieval s)
    (toolImage s) (toolVision s) (actions s) (actionDraft s) (knowledgeEnabled
    s) (knowledgeDocs s) (docDraft s) (memoryEnabled s) (memoryScope s)
    (retention s) (jailbreakDefense s) (blockDisallowed s) (piiRedaction s)
    (customPhrases s) (phraseDraft s) (starters s) v (starterPrompt s)
    (sampleQs s) (sampleDraft s) (tags s) (tagDraft s) (copied s).

Definition setStarterPrompt (v : jsstring) (s : State) : State :=
  mkState (name s) (description s) (instructions s) (language s) (tone s)
    (emoji s) (lengthPref s) (toolWeb s) (toolCode s) (toolRetrieval s)
    (toolImage s) (toolVision s) (actions s) (actionDraft s) (knowledgeEnabled
    s) (knowledgeDocs s) (docDraft s) (memoryEnabled s) (memoryScope s)
    (retention s) (jailbreakDefense s) (blockDisallowed s) (piiRedaction s)
    (customPhrases s) (phraseDraft s) (starters s) (starterTitle s) v
    (sampleQs s) (sampleDraft s) (tags s) (tagDraft s) (copied s).

Definition setSampleQs (v : list jsstring) (s : State) : State :=
  mkState (name s) (description s) (instructions s) (language s) (tone s)
    (emoji s) (lengthPref s) (toolWeb s) (toolCode s) (toolRetrieval s)
    (toolImage s) (toolVision s) (actions s) (actionDraft s) (knowledgeEnabled
    s) (knowledgeDocs s) (docDraft s) (memoryEnabled s) (memoryScope s)
    (retention s) (jailbreakDefense s) (blockDisallowed s) (piiRedaction s)
    (customPhrases s) (phraseDraft s) (starters s) (starterTitle s)
    (starterPrompt s) v (sampleDraft s) (tags s) (tagDraft s) (copied s).

Definition setSampleDraft (v : jsstring) (s : State) : State :=
  mkState (name s) (description s) (instructions s) (language s) (tone s)
    (emoji s) (lengthPref s) (toolWeb s) (toolCode s) (toolRetrieval s)
    (toolImage s) (toolVision s) (actions s) (actionDraft s) (knowledgeEnabled
    s) (knowledgeDocs s) (docDraft s) (memoryEnabled s) (memoryScope s)
    (retention s) (jailbreakDefense s) (blockDisallowed s) (piiRedaction s)
    (customPhrases s) (phraseDraft s) (starters s) (starterTitle s)
    (starterPrompt s) (sampleQs s) v (tags s) (tagDraft s) (copied s).

Definition setTags (v : list jsstring) (s : State) : State :=
  mkState (name s) (description s) (instructions s) (language s) (tone s)
    (emoji s) (lengthPref s) (toolWeb s) (toolCode s) (toolRetrieval s)
    (toolImage s) (toolVision s) (actions s) (actionDraft s) (knowledgeEnabled
    s) (knowledgeDocs s) (docDraft s) (memoryEnabled s) (memoryScope s)
    (retention s) (jailbreakDefense s) (blockDisallowed s) (piiRedaction s)
    (customPhrases s) (phraseDraft s) (starters s) (starterTitle s)
    (starterPrompt s) (sampleQs s) (sampleDraft s) v (tagDraft s) (copied s).

Definition setTagDraft (v : jsstring) (s : State) : State :=
  mkState (name s) (description s) (instructions s) (language s) (tone s)
    (emoji s) (lengthPref s) (toolWeb s) (toolCode s) (toolRetrieval s)
    (toolImage s) (toolVision s) (actions s) (actionDraft s) (knowledgeEnabled
    s) (knowledgeDocs s) (docDraft s) (memoryEnabled s) (memoryScope s)
    (retention s) (jailbreakDefense s) (blockDisallowed s) (piiRedaction s)
    (customPhrases s) (phraseDraft s) (starters s) (starterTitle s)
    (starterPrompt s) (sampleQs s) (sampleDraft s) (tags s) v (copied s).

Definition setCopied (v : bool) (s : State) : State :=
  mkState (name s) (description s) (instructions s) (language s) (tone s)
    (emoji s) (lengthPref s) (toolWeb s) (toolCode s) (toolRetrieval s)
    (toolImage s) (toolVision s) (actions s) (actionDraft s) (knowledgeEnabled
    s) (knowledgeDocs s) (docDraft s) (memoryEnabled s) (memoryScope s)
    (retention s) (jailbreakDefense s) (blockDisallowed s) (piiRedaction s)
    (customPhrases s) (phraseDraft s) (starters s) (starterTitle s)
    (starterPrompt s) (sampleQs s) (sampleDraft s) (tags s) (tagDraft s) v.

(* ===================================================================== *)
(** * JavaScript numbers *)
(* ===================================================================== *)

(** [NaN], [+0], [Infinity] and [-Infinity]. *)
Definition NaN : number := S754_nan.
Definition pos_zero : number := S754_zero false.
Definition Infinity : number := S754_infinity false.
Definition neg_Infinity : number := S754_infinity true.

(** The number of the integer [z] (rounded to nearest, ties to even). *)
Definition number_of_Z (z : Z) : number :=
  binary_normalize prec emax z 0 false.

(** The binary64 value nearest to [num / den] (ties to even), signed. *)
Definition round_ratio (sign : bool) (num den : positive) : number :=
  SFdiv prec emax (S754_finite sign num 0) (S754_finite false den 0).

(** The binary64 value nearest to [m * 10 ^ e]. *)
Definition decimal_to_number (sign : bool) (m : N) (e : Z) : number :=
  match m with
  | N0 => S754_zero sign
  | Npos p =>
      if 0 <=? e then round_ratio sign (Z.to_pos (Z.pos p * 10 ^ e)) 1
      else round_ratio sign p (Z.to_pos (10 ^ (- e)))
  end.

(** The classes of numbers the coercions tell apart. *)
Definition is_nan (x : number) : bool :=
  match x with S754_nan => true | _ => false end.

Definition is_zero (x : number) : bool :=
  match x with S754_zero _ => true | _ => false end.

Definition is_finite (x : number) : bool :=
  match x with S754_zero _ | S754_finite _ _ _ => true | _ => false end.

(** The sign bit is set: a negative number, negative zero or -Infinity. *)
Definition is_negative (x : number) : bool :=
  match x with
  | S754_zero s | S754_infinity s | S754_finite s _ _ => s
  | S754_nan => false
  end.

(** [x] is a finite number with no fractional part. *)
Definition is_integer (x : number) : bool :=
  match x with
  | S754_zero _ => true
  | S754_finite _ m e =>
      if 0 <=? e then true else (Z.pos m mod 2 ^ (- e) =? 0)
  | _ => false
  end.

(** [ToBoolean] on a number: [+0], [-0] and [NaN] are falsy. *)
Definition truthy_number (x : number) : bool :=
  negb (is_nan x || is_zero x).

(** [a || b] on numbers. *)
Definition or_number (a b : number) : number :=
  if truthy_number a then a else b.

(** One step of the loop of [Math.max]: [highest] is the running maximum. *)
Definition max_step (highest n : number) : number :=
  match n, highest with
  | S754_zero false, S754_zero true => n
  | _, _ => if SFltb highest n then n else highest
  end.

(** [Math.max(...args)]: [NaN] if an argument is [NaN], else the largest,
    starting from -Infinity and with [+0] above [-0]. *)
Definition Math_max (args : list number) : number :=
  if existsb is_nan args then NaN
  else fold_left max_step args neg_Infinity.

(** ** [Number(string)]: StringToNumber of ECMA-262 *)

(** A decimal digit, [0] to [9]. *)
Definition isDigit (c : N) : bool := ((48 <=? c) && (c <=? 57))%N.

(** The value of a digit in radix up to 16, if it is one. *)
Definition digit_value (radix : N) (c : N) : option N :=
  let v :=
    (if (48 <=? c) && (c <=? 57) then Some (c - 48)
     else if (97 <=? c) && (c <=? 102) then Some (c - 87)
     else if (65 <=? c) && (c <=? 70) then Some (c - 55)
     else None)%N in
  match v with
  | Some d => if (d <? radix)%N then Some d else None
  | None => None
  end.

(** The value of a non-empty run of digits in the given radix. *)
Fixpoint digits_value_from (radix acc : N) (s : jsstring) : option N :=
  match s with
  | [] => Some acc
  | c :: t =>
      match digit_value radix c with
      | Some d => digits_value_from radix (acc * radix + d)%N t
      | None => None
      end
  end.

Definition digits_value (radix : N) (s : jsstring) : option N :=
  match s with
  | [] => None
  | _ => digits_value_from radix 0%N s
  end.

(** The longest prefix of decimal digits and what follows it. *)
Fixpoint span_digits (s : jsstring) : jsstring * jsstring :=
  match s with
  | [] => ([], [])
  | c :: t =>
      if isDigit c then let '(d, r) := span_digits t in (c :: d, r)
      else ([], s)
  end.

(** The value of a run of decimal digits; the empty run counts as 0. *)
Definition decimal_value (d : jsstring) : N :=
  fold_left (fun acc c => (acc * 10 + (c - 48))%N) d 0%N.

Inductive StrUnsignedDecimal :=
| LitInfinity
| LitDecimal (m : N) (e : Z).

(** [ExponentPart] opt, then the end of the text: [digs] are the digits of
    the significand and [frac] the number of them behind the point. *)
Definition parse_exponent (digs : jsstring) (frac : Z) (r : jsstring)
  : option StrUnsignedDecimal :=
  match r with
  | [] => Some (LitDecimal (decimal_value digs) (- frac))
  | c :: r' =>
      if ((c =? 101) || (c =? 69))%N then
        let '(neg, r'') :=
          match r' with
          | 43%N :: x => (false, x)
          | 45%N :: x => (true, x)
          | _ => (false, r')
          end in
        let '(de, rest) := span_digits r'' in
        match de, rest with
        | _ :: _, [] =>
            let ev := Z.of_N (decimal_value de) in
            Some (LitDecimal (decimal_value digs)
                    ((if neg then - ev else ev) - frac))
        | _, _ => None
        end
      else None
  end.

(** [StrUnsignedDecimalLiteral]: [Infinity], [d.d? e?], [.d e?] or [d e?]. *)
Definition parse_unsigned_decimal (s : jsstring) : option StrUnsignedDecimal :=
  if jsstring_eqb s (js "Infinity") then Some LitInfinity
  else
    let '(d1, r1) := span_digits s in
    match r1 with
    | 46%N :: r2 =>
        let '(d2, r3) := span_digits r2 in
        match d1, d2 with
        | [], [] => None
        | _, _ => parse_exponent (d1 ++ d2) (Z.of_nat (List.length d2)) r3
        end
    | _ =>
        match d1 with
        | [] => None
        | _ => parse_exponent d1 0 r1
        end
    end.

Definition unsigned_decimal_value (sign : bool) (l : StrUnsignedDecimal)
  : number :=
  match l with
  | LitInfinity => S754_infinity sign
  | LitDecimal m e => decimal_to_number sign m e
  end.

(** [NonDecimalIntegerLiteral]: [0x], [0o] or [0b] and digits of that
    radix; it takes no sign. *)
Definition parse_non_decimal (s : jsstring) : option N :=
  match s with
  | 48%N :: c :: t =>
      if ((c =? 120) || (c =? 88))%N then digits_value 16 t
      else if ((c =? 111) || (c =? 79))%N then digits_value 8 t
      else if ((c =? 98) || (c =? 66))%N then digits_value 2 t
      else None
  | _ => None
  end.

(** [Number(s)] for a string [s]: white space around the literal is
    dropped, the empty text is [+0], a text that is no numeric literal is
    [NaN], and the mathematical value of a literal is rounded to the
    nearest binary64 value, ties to even. (ECMA-262 lets an engine cut a
    literal of more than 20 significant digits before it rounds; the
    model rounds the exact value, as the engines in use do.) *)
Definition Number (s : jsstring) : number :=
  match trim s with
  | [] => pos_zero
  | c :: t =>
      match parse_non_decimal (c :: t) with
      | Some n => decimal_to_number false n 0
      | None =>
          let '(sign, body) :=
            if (c =? 45)%N then (true, t)
            else if (c =? 43)%N then (false, t)
            else (false, c :: t) in
          match parse_unsigned_decimal body with
          | Some l => unsigned_decimal_value sign l
          | None => NaN
          end
      end
  end.

(* ===================================================================== *)
(** * Dates: [new Date().toISOString()] *)
(* ===================================================================== *)

(** [n] written with exactly [width] decimal digits (the low ones). *)
Fixpoint pad (width : nat) (n : Z) : jsstring :=
  match width with
  | O => []
  | S w => pad w (n / 10) ++ [Z.to_N (48 + n mod 10)]
  end.

Definition msPerDay : Z := 86400000.

(** Year, month (1..12) and day of the month (1..31) of a day number
    counted from 1970-01-01, in the proleptic Gregorian calendar. *)
Definition civil_from_days (days : Z) : Z * Z * Z :=
  let z := days + 719468 in
  let era := z / 146097 in
  let doe := z - era * 146097 in
  let yoe := (doe - doe / 1460 + doe / 36524 - doe / 146096) / 365 in
  let doy := doe - (365 * yoe + yoe / 4 - yoe / 100) in
  let mp := (5 * doy + 2) / 153 in
  let d := doy - (153 * mp + 2) / 5 + 1 in
  let m := if mp <? 10 then mp + 3 else mp - 9 in
  let y := yoe + era * 400 + (if m <=? 2 then 1 else 0) in
  (y, m, d).

(** [new Date(t).toISOString()] for a time value [t], in milliseconds since
    the epoch: [YYYY-MM-DDTHH:mm:ss.sssZ], the year with a sign and six
    digits outside 0..9999. *)
Definition toISOString (t : Z) : jsstring :=
  let '(y, m, d) := civil_from_days (t / msPerDay) in
  let ms := t mod msPerDay in
  let year :=
    if (0 <=? y) && (y <=? 9999) then pad 4 y
    else (if y <? 0 then js "-" else js "+") ++ pad 6 (Z.abs y) in
  year ++ js "-" ++ pad 2 m ++ js "-" ++ pad 2 d ++ js "T" ++
  pad 2 (ms / 3600000) ++ js ":" ++ pad 2 (ms / 60000 mod 60) ++ js ":" ++
  pad 2 (ms / 1000 mod 60) ++ js "." ++ pad 3 (ms mod 1000) ++ js "Z".

(* ===================================================================== *)
(** * The initial state, from [defaultConfig] *)
(* ===================================================================== *)

(** The draft [setActionDraft] resets to:
    [{ name: "", type: "openapi", specUrlOrInline: "" }]. *)
Definition emptyActionDraft : CustomAction.t :=
  CustomAction.mk [] None openapi (Some []) None None None.

Definition initialState : State :=
  {| name := js "Untitled Custom GPT";
     description := [];
     instructions := js "You are a helpful assistant.";
     language := js "en";
     tone := friendly;
     emoji := light;
     lengthPref := medium;
     toolWeb := true;
     toolCode := false;
     toolRetrieval := false;
     toolImage := false;
     toolVision := false;
     actions := [];
     actionDraft := emptyActionDraft;
     knowledgeEnabled := false;
     knowledgeDocs := [];
     docDraft := [];
     memoryEnabled := false;
     memoryScope := user;
     retention := js "180";
     jailbreakDefense := true;
     blockDisallowed := true;
     piiRedaction := false;
     customPhrases := [];
     phraseDraft := [];
     starters :=
       [ConversationStarter.mk (js "What can you do?")
          (js "Give me a quick overview of your abilities.")];
     starterTitle := [];
     starterPrompt := [];
     sampleQs := [js "How do I get started?"];
     sampleDraft := [];
     tags := [js "starter"];
     tagDraft := [];
     copied := false |}.

(* ===================================================================== *)
(** * Derived JSON: the body of [useMemo] *)
(* ===================================================================== *)

(** [if (flag) builtIn.push(tool)] *)
Definition push_if (flag : bool) (tool : BuiltInTool) (builtIn : list BuiltInTool)
  : list BuiltInTool :=
  if flag then builtIn ++ [tool] else builtIn.

Definition builtIn (s : State) : list BuiltInTool :=
  let b := [] in
  let b := push_if (toolWeb s) web b in
  let b := push_if (toolCode s) code b in
  let b := push_if (toolRetrieval s) retrieval b in
  let b := push_if (toolImage s) image b in
  let b := push_if (toolVision s) vision b in
  b.

(** [Math.max(0, Number(retention) || 0)] *)
Definition retentionDays (retention : jsstring) : number :=
  Math_max [pos_zero; or_number (Number retention) pos_zero].

(** The document derived from the state [s] when the clock reads [now]
    (the time value [new Date()] takes). *)
Definition output (s : State) (now : Z) : CustomGPTConfig.t :=
  {| CustomGPTConfig.schemaVersion := js "1.0";
     CustomGPTConfig.name := name s;
     CustomGPTConfig.description := description s;
     CustomGPTConfig.instructions := instructions s;
     CustomGPTConfig.language := language s;
     CustomGPTConfig.persona :=
       PersonaStyle.mk (tone s) (emoji s) (lengthPref s);
     CustomGPTConfig.builtInTools := builtIn s;
     CustomGPTConfig.customActions := actions s;
     CustomGPTConfig.knowledge :=
       Knowledge.mk (knowledgeEnabled s) (knowledgeDocs s);
     CustomGPTConfig.memory :=
       MemoryPolicy.mk (memoryEnabled s) (memoryScope s)
         (retentionDays (retention s));
     CustomGPTConfig.safety :=
       SafetyPolicy.mk (jailbreakDefense s) (blockDisallowed s)
         (piiRedaction s) (customPhrases s);
     CustomGPTConfig.conversationStarters := starters s;
     CustomGPTConfig.sampleQuestions := sampleQs s;
     CustomGPTConfig.tags := tags s;
     CustomGPTConfig.createdAt := toISOString now |}.

(** The dependencies of the [useMemo] hook: the fields [output] is
    derived from. The drafts and [copied] are not among them. *)
Definition dependencies (s : State) :=
  (name s, description s, instructions s, language s, tone s, emoji s,
   lengthPref s, toolWeb s, toolCode s, toolRetrieval s, toolImage s,
   toolVision s, actions s, knowledgeEnabled s, knowledgeDocs s,
   memoryEnabled s, memoryScope s, retention s, jailbreakDefense s,
   blockDisallowed s, piiRedaction s, customPhrases s, starters s,
   sampleQs s, tags s).

(* ===================================================================== *)
(** * Mutators *)
(* ===================================================================== *)

(** [arr.filter((x, idx) => f(x, idx))], the indices counted from [k]. *)
Fixpoint filter_from {A : Type} (f : A -> nat -> bool) (k : nat) (l : list A)
  : list A :=
  match l with
  | [] => []
  | x :: t =>
      if f x k then x :: filter_from f (S k) t else filter_from f (S k) t
  end.

Definition Array_filter {A : Type} (f : A -> nat -> bool) (l : list A)
  : list A :=
  filter_from f 0 l.

(** [prev.filter((_, idx) => idx !== i)]: the body shared by the six
    [remove...] handlers. *)
Definition removeAt {A : Type} (i : Z) (prev : list A) : list A :=
  Array_filter (fun _ idx => negb (Z.of_nat idx =? i)) prev.

Definition addAction (s : State) : State :=
  if negb (truthy_string (trim (CustomAction.name (actionDraft s)))) then s
  else setActionDraft emptyActionDraft
         (setActions (actions s ++ [actionDraft s]) s).

Definition removeAction (i : Z) (s : State) : State :=
  setActions (removeAt i (actions s)) s.

Definition addDoc (s : State) : State :=
  if negb (truthy_string (trim (docDraft s))) then s
  else setDocDraft [] (setKnowledgeDocs (knowledgeDocs s ++ [trim (docDraft s)]) s).

Definition removeDoc (i : Z) (s : State) : State :=
  setKnowledgeDocs (removeAt i (knowledgeDocs s)) s.

Definition addPhrase (s : State) : State :=
  if negb (truthy_string (trim (phraseDraft s))) then s
  else setPhraseDraft []
         (setCustomPhrases (customPhrases s ++ [trim (phraseDraft s)]) s).

Definition removePhrase (i : Z) (s : State) : State :=
  setCustomPhrases (removeAt i (customPhrases s)) s.

Definition addStarter (s : State) : State :=
  if negb (truthy_string (trim (starterTitle s))) ||
     negb (truthy_string (trim (starterPrompt s))) then s
  else setStarterPrompt []
         (setStarterTitle []
            (setStarters
               (starters s ++
                [ConversationStarter.mk (trim (starterTitle s))
                   (trim (starterPrompt s))]) s)).

Definition removeStarter (i : Z) (s : State) : State :=
  setStarters (removeAt i (starters s)) s.

Definition addSample (s : State) : State :=
  if negb (truthy_string (trim (sampleDraft s))) then s
  else setSampleDraft [] (setSampleQs (sampleQs s ++ [trim (sampleDraft s)]) s).

Definition removeSample (i : Z) (s : State) : State :=
  setSampleQs (removeAt i (sampleQs s)) s.

Definition addTag (s : State) : State :=
  if negb (truthy_string (trim (tagDraft s))) then s
  else setTagDraft [] (setTags (tags s ++ [trim (tagDraft s)]) s).

Definition removeTag (i : Z) (s : State) : State :=
  setTags (removeAt i (tags s)) s.

(** [a.download] of [downloadJSON]: [`${name || "custom-gpt"}.json`]. *)
Definition downloadName (s : State) : jsstring :=
  or_string (name s) (js "custom-gpt") ++ js ".json".

(* ===================================================================== *)
(** * The controls: what the user can do to the state *)
(* ===================================================================== *)

(** The updates of the action draft by its five inputs. *)
Definition draftWithName (v : jsstring) (a : CustomAction.t) : CustomAction.t :=
  CustomAction.mk v (CustomAction.description a) (CustomAction.type a)
    (CustomAction.specUrlOrInline a) (CustomAction.auth a)
    (CustomAction.rateLimitPerMinute a) (CustomAction.allowedDomains a).

Definition draftWithType (t : ActionType) (a : CustomAction.t) : CustomAction.t :=
  CustomAction.mk (CustomAction.name a) (CustomAction.description a) t
    (CustomAction.specUrlOrInline a) (CustomAction.auth a)
    (CustomAction.rateLimitPerMinute a) (CustomAction.allowedDomains a).

Definition draftWithSpec (v : jsstring) (a : CustomAction.t) : CustomAction.t :=
  CustomAction.mk (CustomAction.name a) (CustomAction.description a)
    (CustomAction.type a) (Some v) (CustomAction.auth a)
    (CustomAction.rateLimitPerMinute a) (CustomAction.allowedDomains a).

Definition draftWithAuth (au : Auth.t) (a : CustomAction.t) : CustomAction.t :=
  CustomAction.mk (CustomAction.name a) (CustomAction.description a)
    (CustomAction.type a) (CustomAction.specUrlOrInline a) (Some au)
    (CustomAction.rateLimitPerMinute a) (CustomAction.allowedDomains a).

(** [{ ...(a.auth || {}), type: t }] *)
Definition authWithType (t : AuthType) (a : CustomAction.t) : Auth.t :=
  match CustomAction.auth a with
  | Some au => Auth.mk t (Auth.instructions au)
  | None => Auth.mk t None
  end.

(** [{ ...(a.auth || { type: "none" }), instructions: v }] *)
Definition authWithInstructions (v : jsstring) (a : CustomAction.t) : Auth.t :=
  match CustomAction.auth a with
  | Some au => Auth.mk (Auth.type au) (Some v)
  | None => Auth.mk auth_none (Some v)
  end.

(** The events the controls of the component raise, and the expiry of
    the toast. *)
Inductive event :=
| ChangeName (v : jsstring)
| ChangeLanguage (v : jsstring)
| ChangeDescription (v : jsstring)
| ChangeInstructions (v : jsstring)
| ChangeTone (t : WritingTone)
| ChangeEmoji (e : EmojiUse)
| ChangeLengthPref (l : ResponseLength)
| ToggleWeb (checked : bool)
| ToggleCode (checked : bool)
| ToggleRetrieval (checked : bool)
| ToggleImage (checked : bool)
| ToggleVision (checked : bool)
| ChangeActionName (v : jsstring)
| ChangeActionType (t : ActionType)
| ChangeActionSpec (v : jsstring)
| ChangeActionAuthType (t : AuthType)
| ChangeActionAuthInstructions (v : jsstring)
| ClickAddAction
| ClickRemoveAction (i : nat)
| ToggleKnowledge (checked : bool)
| ChangeDocDraft (v : jsstring)
| ClickAddDoc
| ClickRemoveDoc (i : nat)
| ToggleMemory (checked : bool)
| ChangeMemoryScope (sc : MemoryScope)
| ChangeRetention (v : jsstring)
| ToggleJailbreakDefense (checked : bool)
| ToggleBlockDisallowed (checked : bool)
| TogglePiiRedaction (checked : bool)
| ChangePhraseDraft (v : jsstring)
| ClickAddPhrase
| ClickRemovePhrase (i : nat)
| ChangeStarterTitle (v : jsstring)
| ChangeStarterPrompt (v : jsstring)
| ClickAddStarter
| ClickRemoveStarter (i : nat)
| ChangeSampleDraft (v : jsstring)
| ClickAddSample
| ClickRemoveSample (i : nat)
| ChangeTagDraft (v : jsstring)
| ClickAddTag
| ClickRemoveTag (i : nat)
| ClickCopy
| ClickDownload
| ToastExpired.

(** The state after an event: the handler the control is wired to. *)
Definition step (s : State) (ev : event) : State :=
  match ev with
  | ChangeName v => setName v s
  | ChangeLanguage v => setLanguage v s
  | ChangeDescription v => setDescription v s
  | ChangeInstructions v => setInstructions v s
  | ChangeTone t => setTone t s
  | ChangeEmoji e => setEmoji e s
  | ChangeLengthPref l => setLengthPref l s
  | ToggleWeb b => setToolWeb b s
  | ToggleCode b => setToolCode b s
  | ToggleRetrieval b => setToolRetrieval b s
  | ToggleImage b => setToolImage b s
  | ToggleVision b => setToolVision b s
  | ChangeActionName v => setActionDraft (draftWithName v (actionDraft s)) s
  | ChangeActionType t => setActionDraft (draftWithType t (actionDraft s)) s
  | ChangeActionSpec v => setActionDraft (draftWithSpec v (actionDraft s)) s
  | ChangeActionAuthType t =>
      setActionDraft
        (draftWithAuth (authWithType t (actionDraft s)) (actionDraft s)) s
  | ChangeActionAuthInstructions v =>
      setActionDraft
        (draftWithAuth (authWithInstructions v (actionDraft s)) (actionDraft s))
        s
  | ClickAddAction => addAction s
  | ClickRemoveAction i => removeAction (Z.of_nat i) s
  | ToggleKnowledge b => setKnowledgeEnabled b s
  | ChangeDocDraft v => setDocDraft v s
  | ClickAddDoc => addDoc s
  | ClickRemoveDoc i => removeDoc (Z.of_nat i) s
  | ToggleMemory b => setMemoryEnabled b s
  | ChangeMemoryScope sc => setMemoryScope sc s
  | ChangeRetention v => setRetention v s
  | ToggleJailbreakDefense b => setJailbreakDefense b s
  | ToggleBlockDisallowed b => setBlockDisallowed b s
  | TogglePiiRedaction b => setPiiRedaction b s
  | ChangePhraseDraft v => setPhraseDraft v s
  | ClickAddPhrase => addPhrase s
  | ClickRemovePhrase i => removePhrase (Z.of_nat i) s
  | ChangeStarterTitle v => setStarterTitle v s
  | ChangeStarterPrompt v => setStarterPrompt v s
  | ClickAddStarter => addStarter s
  | ClickRemoveStarter i => removeStarter (Z.of_nat i) s
  | ChangeSampleDraft v => setSampleDraft v s
  | ClickAddSample => addSample s
  | ClickRemoveSample i => removeSample (Z.of_nat i) s
  | ChangeTagDraft v => setTagDraft v s
  | ClickAddTag => addTag s
  | ClickRemoveTag i => removeTag (Z.of_nat i) s
  | ClickCopy => setCopied true s
  | ClickDownload => s
  | ToastExpired => setCopied false s
  end.

(** The state of a session: the defaults and the events so far. *)
Definition session (events : list event) : State :=
  fold_left step events initialState.

(* ===================================================================== *)
(** * [Number::toString]: a number as decimal text *)
(* ===================================================================== *)

Definition number_eqb (a b : number) : bool :=
  match a, b with
  | S754_zero s, S754_zero s' => Bool.eqb s s'
  | S754_infinity s, S754_infinity s' => Bool.eqb s s'
  | S754_nan, S754_nan => true
  | S754_finite s m e, S754_finite s' m' e' =>
      Bool.eqb s s' && Pos.eqb m m' && Z.eqb e e'
  | _, _ => false
  end.

(** The decimal digits of [n], most significant first; none for 0. *)
Fixpoint digits_of_fuel (fuel : nat) (n : N) (acc : jsstring) : jsstring :=
  match fuel with
  | O => acc
  | S f =>
      match n with
      | N0 => acc
      | _ => digits_of_fuel f (n / 10)%N ((48 + n mod 10)%N :: acc)
      end
  end.

Definition digits_of (n : N) : jsstring :=
  digits_of_fuel (S (N.to_nat (N.size n))) n [].

(** The decimal digits of [n], ["0"] for 0. *)
Definition decimal_of (n : N) : jsstring :=
  match n with
  | N0 => js "0"
  | _ => digits_of n
  end.

(** [m * 2 ^ e] as a fraction of positive integers. *)
Definition exact_ratio (m : positive) (e : Z) : Z * Z :=
  if 0 <=? e then (Z.pos m * 2 ^ e, 1) else (Z.pos m, 2 ^ (- e)).

(** [num / den < 10 ^ n] *)
Definition lt_pow10 (num den n : Z) : bool :=
  if 0 <=? n then num <? den * 10 ^ n else num * 10 ^ (- n) <? den.

Fixpoint adjust_up (fuel : nat) (num den n : Z) : Z :=
  match fuel with
  | O => n
  | S f => if lt_pow10 num den n then n else adjust_up f num den (n + 1)
  end.

Fixpoint adjust_down (fuel : nat) (num den n : Z) : Z :=
  match fuel with
  | O => n
  | S f =>
      if lt_pow10 num den (n - 1) then adjust_down f num den (n - 1) else n
  end.

(** The [n] with [10 ^ (n - 1) <= num / den < 10 ^ n], from an estimate by
    the binary logarithms. *)
Definition decimal_exponent (num den : Z) : Z :=
  let est := (Z.log2 num - Z.log2 den) * 1233 / 4096 in
  adjust_down 8 num den (adjust_up 8 num den est).

(** The candidates with [k] digits for [num / den], whose decimal exponent
    is [n]: [s] below and [s + 1] above [num / den * 10 ^ (k - n)], and
    which of the two is nearer ([Lt]: the lower one). *)
Definition candidates (num den n k : Z) : Z * comparison :=
  let '(a, b) :=
    if 0 <=? k - n then (num * 10 ^ (k - n), den)
    else (num, den * 10 ^ (n - k)) in
  (a / b, (2 * (a mod b) ?= b)).

(** The digits [digs], with the decimal point behind the first [n] of
    them, denote a number that rounds to [x]. *)
Definition digits_round_to (x : number) (digs : jsstring) (n : Z) : bool :=
  number_eqb
    (decimal_to_number false (decimal_value digs)
       (n - Z.of_nat (List.length digs))) x.

(** The candidate [s] of [k] digits as digits and exponent; a candidate
    [10 ^ k] is [10 ^ (k - 1)] one place up. *)
Definition candidate (n k s : Z) : jsstring * Z :=
  if s =? 10 ^ k then (digits_of (Z.to_N (10 ^ (k - 1))), n + 1)
  else (digits_of (Z.to_N s), n).

Definition rounds_back (x : number) (c : jsstring * Z) : bool :=
  digits_round_to x (fst c) (snd c).

(** The digits and the exponent [n] of step 5 of [Number::toString] for
    [k] given, if there are any: of the two candidates that round to [x]
    the nearer one, the even one at a tie. *)
Definition shortest_at (x : number) (num den n k : Z)
  : option (jsstring * Z) :=
  let '(lo, side) := candidates num den n k in
  let c_lo := candidate n k lo in
  let c_hi := candidate n k (lo + 1) in
  match rounds_back x c_lo, rounds_back x c_hi with
  | true, true =>
      Some match side with
           | Lt => c_lo
           | Gt => c_hi
           | Eq => if Z.even lo then c_lo else c_hi
           end
  | true, false => Some c_lo
  | false, true => Some c_hi
  | false, false => None
  end.

(** The least [k] from [k] on, in [fuel] tries, with its digits. *)
Fixpoint shortest_from (fuel : nat) (x : number) (num den n k : Z)
  : option (jsstring * Z) :=
  match fuel with
  | O => None
  | S f =>
      match shortest_at x num den n k with
      | Some r => Some r
      | None => shortest_from f x num den n (k + 1)
      end
  end.

(** The exact decimal expansion of [m * 2 ^ e]: its digits and the
    position of the decimal point behind the first of them. *)
Definition exact_digits (m : positive) (e : Z) : jsstring * Z :=
  if 0 <=? e then
    let d := digits_of (Z.to_N (Z.pos m * 2 ^ e)) in
    (d, Z.of_nat (List.length d))
  else
    let d := digits_of (Z.to_N (Z.pos m * 5 ^ (- e))) in
    (d, Z.of_nat (List.length d) + e).

(** The digits and the decimal exponent [n] of the positive finite number
    [m * 2 ^ e]: the shortest digits that round to it, looked for up to 17
    digits, which is enough for binary64; the exact expansion stands behind
    them for totality. *)
Definition shortest_digits (m : positive) (e : Z) : jsstring * Z :=
  let '(num, den) := exact_ratio m e in
  let n := decimal_exponent num den in
  match shortest_from 17 (S754_finite false m e) num den n 1 with
  | Some r => r
  | None => exact_digits m e
  end.

(** The exponent part of the exponent notation: [e], the sign and the
    decimal digits of the magnitude. *)
Definition exponent_text (e : Z) : jsstring :=
  js "e" ++ (if e <? 0 then js "-" else js "+") ++
  decimal_of (Z.to_N (Z.abs e)).

(** Steps 6 to 10 of [Number::toString]: the digits [digs] with the
    decimal point behind the first [n] of them, in positional notation
    for [-6 < n <= 21] and in exponent notation otherwise. *)
Definition format_decimal (digs : jsstring) (n : Z) : jsstring :=
  let k := Z.of_nat (List.length digs) in
  if (k <=? n) && (n <=? 21) then
    digs ++ repeat 48%N (Z.to_nat (n - k))
  else if (0 <? n) && (n <=? 21) then
    firstn (Z.to_nat n) digs ++ js "." ++ skipn (Z.to_nat n) digs
  else if (-6 <? n) && (n <=? 0) then
    js "0." ++ repeat 48%N (Z.to_nat (- n)) ++ digs
  else
    match digs with
    | [d] => [d] ++ exponent_text (n - 1)
    | d :: ds => [d] ++ js "." ++ ds ++ exponent_text (n - 1)
    | [] => exponent_text (n - 1)
    end.

(** [Number::toString(x)] in radix 10. *)
Definition Number_toString (x : number) : jsstring :=
  match x with
  | S754_nan => js "NaN"
  | S754_zero _ => js "0"
  | S754_infinity s => (if s then js "-" else []) ++ js "Infinity"
  | S754_finite s m e =>
      let '(digs, n) := shortest_digits m e in
      (if s then js "-" else []) ++ format_decimal digs n
  end.

(* ===================================================================== *)
(** * JSON values and [JSON.stringify(value, null, 2)] *)
(* ===================================================================== *)

(** The values JSON text denotes; an object lists its properties in
    enumeration order. *)
Unset Elimination Schemes.
Inductive json :=
| JNull
| JBool (b : bool)
| JNumber (x : number)
| JString (s : jsstring)
| JArray (elements : list json)
| JObject (members : list (jsstring * json)).
Set Elimination Schemes.

Definition isHighSurrogate (c : N) : bool := ((55296 <=? c) && (c <=? 56319))%N.
Definition isLowSurrogate (c : N) : bool := ((56320 <=? c) && (c <=? 57343))%N.

Definition hex_digit (d : N) : N :=
  (if d <? 10 then 48 + d else 87 + d)%N.

(** [UnicodeEscape]: a backslash, [u] and four lower-case hexadecimal
    digits. *)
Definition UnicodeEscape (c : N) : jsstring :=
  [92; 117;
   hex_digit (c / 4096 mod 16); hex_digit (c / 256 mod 16);
   hex_digit (c / 16 mod 16); hex_digit (c mod 16)]%N.

(** What [QuoteJSONString] writes for a code unit that is no part of a
    surrogate pair. *)
Definition quote_unit (c : N) : jsstring :=
  (if c =? 8 then [92; 98]
   else if c =? 9 then [92; 116]
   else if c =? 10 then [92; 110]
   else if c =? 12 then [92; 102]
   else if c =? 13 then [92; 114]
   else if c =? 34 then [92; 34]
   else if c =? 92 then [92; 92]
   else if (c <? 32) || isHighSurrogate c || isLowSurrogate c
     then UnicodeEscape c
   else [c])%N.

(** The code points of the string, quoted one by one: a high surrogate
    with the low surrogate behind it is one code point, written as it
    is. *)
Fixpoint quote_units (s : jsstring) : jsstring :=
  match s with
  | [] => []
  | c :: t =>
      match t with
      | d :: t' =>
          if isHighSurrogate c && isLowSurrogate d
          then c :: d :: quote_units t'
          else quote_unit c ++ quote_units t
      | [] => quote_unit c
      end
  end.

Definition QuoteJSONString (s : jsstring) : jsstring :=
  [34%N] ++ quote_units s ++ [34%N].

(** The parts, with the separator between them. *)
Fixpoint join (sep : jsstring) (parts : list jsstring) : jsstring :=
  match parts with
  | [] => []
  | [p] => p
  | p :: rest => p ++ sep ++ join sep rest
  end.

(** The gap of [JSON.stringify(_, null, 2)]: two spaces. *)
Definition gap : jsstring := [32; 32]%N.

Definition newline : jsstring := [10%N].

(** [SerializeJSONProperty] with its [SerializeJSONObject] and
    [SerializeJSONArray], at the indentation [indent]. *)
Fixpoint SerializeJSONProperty (indent : jsstring) (v : json) : jsstring :=
  match v with
  | JNull => js "null"
  | JBool true => js "true"
  | JBool false => js "false"
  | JNumber x => if is_finite x then Number_toString x else js "null"
  | JString s => QuoteJSONString s
  | JArray elements =>
      match elements with
      | [] => js "[]"
      | _ =>
          let stepback := indent in
          let indent := indent ++ gap in
          js "[" ++ newline ++ indent ++
          join (js "," ++ newline ++ indent)
               (map (SerializeJSONProperty indent) elements) ++
          newline ++ stepback ++ js "]"
      end
  | JObject members =>
      match members with
      | [] => js "{}"
      | _ =>
          let stepback := indent in
          let indent := indent ++ gap in
          js "{" ++ newline ++ indent ++
          join (js "," ++ newline ++ indent)
               (map (fun kv =>
                       QuoteJSONString (fst kv) ++ js ":" ++ js " " ++
                       SerializeJSONProperty indent (snd kv)) members) ++
          newline ++ stepback ++ js "}"
      end
  end.

(** [JSON.stringify(value, null, 2)] *)
Definition JSON_stringify (value : json) : jsstring :=
  SerializeJSONProperty [] value.

(* ===================================================================== *)
(** * The derived document as a JavaScript value *)
(* ===================================================================== *)

Definition BuiltInTool_string (t : BuiltInTool) : jsstring :=
  match t with
  | web => js "web"
  | code => js "code"
  | retrieval => js "retrieval"
  | image => js "image"
  | vision => js "vision"
  end.

Definition ActionType_string (t : ActionType) : jsstring :=
  match t with
  | openapi => js "openapi"
  | json_rpc => js "json-rpc"
  | graphql => js "graphql"
  | webhook => js "webhook"
  end.

Definition AuthType_string (t : AuthType) : jsstring :=
  match t with
  | auth_none => js "none"
  | api_key => js "api_key"
  | oauth2 => js "oauth2"
  end.

Definition MemoryScope_string (t : MemoryScope) : jsstring :=
  match t with
  | conversation => js "conversation"
  | user => js "user"
  end.

Definition WritingTone_string (t : WritingTone) : jsstring :=
  match t with
  | casual => js "casual"
  | formal => js "formal"
  | technical => js "technical"
  | friendly => js "friendly"
  | playful => js "playful"
  | neutral => js "neutral"
  end.

Definition EmojiUse_string (t : EmojiUse) : jsstring :=
  match t with
  | emoji_none => js "none"
  | light => js "light"
  | moderate => js "moderate"
  | heavy => js "heavy"
  end.

Definition ResponseLength_string (t : ResponseLength) : jsstring :=
  match t with
  | short => js "short"
  | medium => js "medium"
  | long => js "long"
  end.

(** The property [key] when the optional value is there. *)
Definition optional {A : Type} (key : string) (f : A -> json) (o : option A)
  : list (jsstring * json) :=
  match o with
  | Some v => [(js key, f v)]
  | None => []
  end.

Definition strings_json (l : list jsstring) : json :=
  JArray (map JString l).

Definition Auth_json (a : Auth.t) : json :=
  JObject
    ([(js "type", JString (AuthType_string (Auth.type a)))] ++
     optional "instructions" JString (Auth.instructions a)).

Definition CustomAction_json (a : CustomAction.t) : json :=
  JObject
    ([(js "name", JString (CustomAction.name a))] ++
     optional "description" JString (CustomAction.description a) ++
     [(js "type", JString (ActionType_string (CustomAction.type a)))] ++
     optional "specUrlOrInline" JString (CustomAction.specUrlOrInline a) ++
     optional "auth" Auth_json (CustomAction.auth a) ++
     optional "rateLimitPerMinute" JNumber (CustomAction.rateLimitPerMinute a) ++
     optional "allowedDomains" strings_json (CustomAction.allowedDomains a)).

Definition ConversationStarter_json (c : ConversationStarter.t) : json :=
  JObject
    [(js "title", JString (ConversationStarter.title c));
     (js "prompt", JString (ConversationStarter.prompt c))].

(** The object [output] holds, property by property in the order of the
    object literal. *)
Definition CustomGPTConfig_json (d : CustomGPTConfig.t) : json :=
  JObject
    [(js "schemaVersion", JString (CustomGPTConfig.schemaVersion d));
     (js "name", JString (CustomGPTConfig.name d));
     (js "description", JString (CustomGPTConfig.description d));
     (js "instructions", JString (CustomGPTConfig.instructions d));
     (js "language", JString (CustomGPTConfig.language d));
     (js "persona",
      JObject
        [(js "writingTone",
          JString (WritingTone_string
                     (PersonaStyle.writingTone (CustomGPTConfig.persona d))));
         (js "emojiUse",
          JString (EmojiUse_string
                     (PersonaStyle.emojiUse (CustomGPTConfig.persona d))));
         (js "responseLength",
          JString (ResponseLength_string
                     (PersonaStyle.responseLength (CustomGPTConfig.persona d))))]);
     (js "builtInTools",
      strings_json (map BuiltInTool_string (CustomGPTConfig.builtInTools d)));
     (js "customActions",
      JArray (map CustomAction_json (CustomGPTConfig.customActions d)));
     (js "knowledge",
      JObject
        [(js "enabled", JBool (Knowledge.enabled (CustomGPTConfig.knowledge d)));
         (js "documents",
          strings_json (Knowledge.documents (CustomGPTConfig.knowledge d)))]);
     (js "memory",
      JObject
        [(js "enabled", JBool (MemoryPolicy.enabled (CustomGPTConfig.memory d)));
         (js "scope",
          JString (MemoryScope_string
                     (MemoryPolicy.scope (CustomGPTConfig.memory d))));
         (js "dataRetentionDays",
          JNumber (MemoryPolicy.dataRetentionDays (CustomGPTConfig.memory d)))]);
     (js "safety",
      JObject
        [(js "jailbreakDefense",
          JBool (SafetyPolicy.jailbreakDefense (CustomGPTConfig.safety d)));
         (js "blockDisallowedContent",
          JBool (SafetyPolicy.blockDisallowedContent (CustomGPTConfig.safety d)));
         (js "piiRedaction",
          JBool (SafetyPolicy.piiRedaction (CustomGPTConfig.safety d)));
         (js "customDisallowedPhrases",
          strings_json
            (SafetyPolicy.customDisallowedPhrases (CustomGPTConfig.safety d)))]);
     (js "conversationStarters",
      JArray (map ConversationStarter_json
                (CustomGPTConfig.conversationStarters d)));
     (js "sampleQuestions", strings_json (CustomGPTConfig.sampleQuestions d));
     (js "tags", strings_json (CustomGPTConfig.tags d));
     (js "createdAt", JString (CustomGPTConfig.createdAt d))].

(** What [copyJSON] writes to the clipboard and [downloadJSON] puts in the
    file: [JSON.stringify(output, null, 2)]. *)
Definition exportText (s : State) (now : Z) : jsstring :=
  JSON_stringify (CustomGPTConfig_json (output s now)).

(** [copyJSON]: the text for the clipboard and the state with [copied]
    set. *)
Definition copyJSON (s : State) (now : Z) : jsstring * State :=
  (exportText s now, setCopied true s).

(** [downloadJSON]: the file name and the text of the file. *)
Definition downloadJSON (s : State) (now : Z) : jsstring * jsstring :=
  (downloadName s, exportText s now).

(* ===================================================================== *)
(** * [JSON.parse] *)
(* ===================================================================== *)

(** JSON white space: TAB, LF, CR and SP. *)
Definition isJSONWhiteSpace (c : N) : bool :=
  ((c =? 9) || (c =? 10) || (c =? 13) || (c =? 32))%N.

Fixpoint skip_ws (s : jsstring) : jsstring :=
  match s with
  | [] => []
  | c :: t => if isJSONWhiteSpace c then skip_ws t else s
  end.

(** The value of four hexadecimal digits. *)
Definition hex4 (a b c d : N) : option N :=
  match digit_value 16 a, digit_value 16 b, digit_value 16 c, digit_value 16 d with
  | Some x, Some y, Some z, Some w =>
      Some (((x * 16 + y) * 16 + z) * 16 + w)%N
  | _, _, _, _ => None
  end.

(** The characters of a JSON string up to its closing quote, the escapes
    resolved, and the text behind the quote. *)
Fixpoint parse_string (s : jsstring) : option (jsstring * jsstring) :=
  match s with
  | [] => None
  | c :: t =>
      if (c =? 34)%N then Some ([], t)
      else if (c =? 92)%N then
        match t with
        | [] => None
        | e :: t' =>
            let simple (u : N) :=
              match parse_string t' with
              | Some (body, rest) => Some (u :: body, rest)
              | None => None
              end in
            if (e =? 34)%N then simple 34%N
            else if (e =? 92)%N then simple 92%N
            else if (e =? 47)%N then simple 47%N
            else if (e =? 98)%N then simple 8%N
            else if (e =? 102)%N then simple 12%N
            else if (e =? 110)%N then simple 10%N
            else if (e =? 114)%N then simple 13%N
            else if (e =? 116)%N then simple 9%N
            else if (e =? 117)%N then
              match t' with
              | h1 :: h2 :: h3 :: h4 :: t'' =>
                  match hex4 h1 h2 h3 h4, parse_string t'' with
                  | Some u, Some (body, rest) => Some (u :: body, rest)
                  | _, _ => None
                  end
              | _ => None
              end
            else None
        end
      else if (c <? 32)%N then None
      else
        match parse_string t with
        | Some (body, rest) => Some (c :: body, rest)
        | None => None
        end
  end.

(** The [int] of a JSON number: digits, with no zero in front of other
    digits. *)
Definition parse_int (s : jsstring) : option (jsstring * jsstring) :=
  let '(d1, r1) := span_digits s in
  match d1 with
  | [] => None
  | [_] => Some (d1, r1)
  | c :: _ => if (c =? 48)%N then None else Some (d1, r1)
  end.

(** The [frac] of a JSON number, if there is one: a point and digits. *)
Definition parse_frac (s : jsstring) : option (jsstring * jsstring) :=
  match s with
  | 46%N :: r2 =>
      let '(d2, r3) := span_digits r2 in
      match d2 with
      | [] => None
      | _ => Some (d2, r3)
      end
  | _ => Some ([], s)
  end.

(** The [exp] of a JSON number, if there is one: [e] or [E], a sign or
    none, and digits. *)
Definition parse_exp (s : jsstring) : option (Z * jsstring) :=
  match s with
  | c :: r4 =>
      if ((c =? 101) || (c =? 69))%N then
        let '(neg, r5) :=
          match r4 with
          | 43%N :: x => (false, x)
          | 45%N :: x => (true, x)
          | _ => (false, r4)
          end in
        let '(de, r6) := span_digits r5 in
        match de with
        | [] => None
        | _ =>
            let ev := Z.of_N (decimal_value de) in
            Some ((if neg then - ev else ev), r6)
        end
      else Some (0, s)
  | [] => Some (0, s)
  end.

(** [int frac? exp?] at the head of the text, with the sign read before
    it; the value is rounded as [Number] rounds. *)
Definition parse_unsigned (sign : bool) (s : jsstring)
  : option (number * jsstring) :=
  match parse_int s with
  | None => None
  | Some (d1, r1) =>
      match parse_frac r1 with
      | None => None
      | Some (d2, r3) =>
          match parse_exp r3 with
          | None => None
          | Some (ev, rest) =>
              Some (decimal_to_number sign (decimal_value (d1 ++ d2))
                      (ev - Z.of_nat (List.length d2)), rest)
          end
      end
  end.

(** A JSON number at the head of the text: [-? int frac? exp?]. *)
Definition parse_number (s : jsstring) : option (number * jsstring) :=
  match s with
  | 45%N :: r => parse_unsigned true r
  | _ => parse_unsigned false s
  end.

(** The array index a property key denotes, if it is one: a canonical
    decimal numeral below [2 ^ 32 - 1]. *)
Definition array_index (k : jsstring) : option N :=
  match k with
  | [] => None
  | c :: t =>
      if forallb isDigit k && (negb (c =? 48)%N || match t with [] => true | _ => false end)
      then
        let n := decimal_value k in
        if (n <? 4294967295)%N then Some n else None
      else None
  end.

(** Where a new array-index key [n] goes among the properties: in front
    of the first property that is no smaller array index. *)
Fixpoint insert_index (n : N) (k : jsstring) (v : json)
  (members : list (jsstring * json)) : list (jsstring * json) :=
  match members with
  | [] => [(k, v)]
  | (k', v') :: t =>
      match array_index k' with
      | Some n' =>
          if (n <? n')%N then (k, v) :: members
          else (k', v') :: insert_index n k v t
      | None => (k, v) :: members
      end
  end.

Fixpoint replace_value (k : jsstring) (v : json)
  (members : list (jsstring * json)) : list (jsstring * json) :=
  match members with
  | [] => []
  | (k', v') :: t =>
      if jsstring_eqb k k' then (k', v) :: t
      else (k', v') :: replace_value k v t
  end.

(** [CreateDataProperty(object, k, v)] on the properties in enumeration
    order: a key the object has keeps its place and takes the value, a
    new array index goes among the array indices in ascending order, and
    any other new key goes last. *)
Definition CreateDataProperty (members : list (jsstring * json))
  (k : jsstring) (v : json) : list (jsstring * json) :=
  if existsb (fun kv => jsstring_eqb k (fst kv)) members
  then replace_value k v members
  else
    match array_index k with
    | Some n => insert_index n k v members
    | None => members ++ [(k, v)]
    end.

(** The object of the members parsed, defined in the order of the text. *)
Definition object_of (parsed : list (jsstring * json)) : json :=
  JObject (fold_left (fun o kv => CreateDataProperty o (fst kv) (snd kv))
             parsed []).

Definition starts_with (p s : jsstring) : option jsstring :=
  if jsstring_eqb (firstn (List.length p) s) p
  then Some (skipn (List.length p) s) else None.

(** The text behind its first code unit when that is [c]. *)
Definition head_is (c : N) (s : jsstring) : option jsstring :=
  match s with
  | x :: r => if (x =? c)%N then Some r else None
  | [] => None
  end.

(** A JSON value at the head of the text, white space before it skipped,
    and the text behind it; [fuel] bounds the nesting and the number of
    elements gone through. *)
Fixpoint parse_value (fuel : nat) (s : jsstring) : option (json * jsstring) :=
  match fuel with
  | O => None
  | S f =>
      match skip_ws s with
      | [] => None
      | c :: t =>
          if (c =? 123)%N then
            match head_is 125 (skip_ws t) with
            | Some r => Some (JObject [], r)
            | None =>
                match parse_members f t with
                | Some (ms, r) => Some (object_of ms, r)
                | None => None
                end
            end
          else if (c =? 91)%N then
            match head_is 93 (skip_ws t) with
            | Some r => Some (JArray [], r)
            | None =>
                match parse_elements f t with
                | Some (vs, r) => Some (JArray vs, r)
                | None => None
                end
            end
          else if (c =? 34)%N then
            match parse_string t with
            | Some (str, r) => Some (JString str, r)
            | None => None
            end
          else if (c =? 116)%N then
            match starts_with (js "true") (c :: t) with
            | Some r => Some (JBool true, r)
            | None => None
            end
          else if (c =? 102)%N then
            match starts_with (js "false") (c :: t) with
            | Some r => Some (JBool false, r)
            | None => None
            end
          else if (c =? 110)%N then
            match starts_with (js "null") (c :: t) with
            | Some r => Some (JNull, r)
            | None => None
            end
          else
            match parse_number (c :: t) with
            | Some (x, r) => Some (JNumber x, r)
            | None => None
            end
      end
  end

(** The elements of an array behind its bracket, up to the closing one. *)
with parse_elements (fuel : nat) (s : jsstring)
  : option (list json * jsstring) :=
  match fuel with
  | O => None
  | S f =>
      match parse_value f s with
      | None => None
      | Some (v, r) =>
          match head_is 44 (skip_ws r) with
          | Some r' =>
              match parse_elements f r' with
              | Some (vs, r'') => Some (v :: vs, r'')
              | None => None
              end
          | None =>
              match head_is 93 (skip_ws r) with
              | Some r' => Some ([v], r')
              | None => None
              end
          end
      end
  end

(** The members of an object behind its brace, up to the closing one. *)
with parse_members (fuel : nat) (s : jsstring)
  : option (list (jsstring * json) * jsstring) :=
  match fuel with
  | O => None
  | S f =>
      match head_is 34 (skip_ws s) with
      | None => None
      | Some t =>
          match parse_string t with
          | None => None
          | Some (k, r) =>
              match head_is 58 (skip_ws r) with
              | None => None
              | Some r1 =>
                  match parse_value f r1 with
                  | None => None
                  | Some (v, r2) =>
                      match head_is 44 (skip_ws r2) with
                      | Some r3 =>
                          match parse_members f r3 with
                          | Some (ms, r4) => Some ((k, v) :: ms, r4)
                          | None => None
                          end
                      | None =>
                          match head_is 125 (skip_ws r2) with
                          | Some r3 => Some ([(k, v)], r3)
                          | None => None
                          end
                      end
                  end
              end
          end
      end
  end.

(** [JSON.parse(text)]: the value of the text, which is all of it but
    white space; [None] stands for the [SyntaxError]. *)
Definition JSON_parse (text : jsstring) : option json :=
  match parse_value (S (List.length text)) text with
  | Some (v, rest) =>
      match skip_ws rest with
      | [] => Some v
      | _ => None
      end
  | None => None
  end.

(* ===================================================================== *)
(** * Specification vocabulary *)
(* ===================================================================== *)

(** The canonical order of the built-in tools. *)
Definition canonicalOrder : list BuiltInTool :=
  [web; code; retrieval; image; vision].

(** The flag of a tool in a state. *)
Definition enabled (s : State) (t : BuiltInTool) : bool :=
  match t with
  | web => toolWeb s
  | code => toolCode s
  | retrieval => toolRetrieval s
  | image => toolImage s
  | vision => toolVision s
  end.

(** A click on the check box of a tool: the controlled [Toggle] reports
    [e.target.checked], the negation of the flag it shows. *)
Definition click (s : State) (t : BuiltInTool) : State :=
  match t with
  | web => setToolWeb (negb (toolWeb s)) s
  | code => setToolCode (negb (toolCode s)) s
  | retrieval => setToolRetrieval (negb (toolRetrieval s)) s
  | image => setToolImage (negb (toolImage s)) s
  | vision => setToolVision (negb (toolVision s)) s
  end.

(** The document with another [createdAt]. *)
Definition withCreatedAt (c : jsstring) (d : CustomGPTConfig.t)
  : CustomGPTConfig.t :=
  {| CustomGPTConfig.schemaVersion := CustomGPTConfig.schemaVersion d;
     CustomGPTConfig.name := CustomGPTConfig.name d;
     CustomGPTConfig.description := CustomGPTConfig.description d;
     CustomGPTConfig.instructions := CustomGPTConfig.instructions d;
     CustomGPTConfig.language := CustomGPTConfig.language d;
     CustomGPTConfig.persona := CustomGPTConfig.persona d;
     CustomGPTConfig.builtInTools := CustomGPTConfig.builtInTools d;
     CustomGPTConfig.customActions := CustomGPTConfig.customActions d;
     CustomGPTConfig.knowledge := CustomGPTConfig.knowledge d;
     CustomGPTConfig.memory := CustomGPTConfig.memory d;
     CustomGPTConfig.safety := CustomGPTConfig.safety d;
     CustomGPTConfig.conversationStarters :=
       CustomGPTConfig.conversationStarters d;
     CustomGPTConfig.sampleQuestions := CustomGPTConfig.sampleQuestions d;
     CustomGPTConfig.tags := CustomGPTConfig.tags d;
     CustomGPTConfig.createdAt := c |}.

(** What removing position [i] of [before] must give: the element at [i]
    is gone and the others keep their order when [i] is a position of the
    list, and nothing changes otherwise. *)
Definition removed_at {A : Type} (i : Z) (before after : list A) : Prop :=
  (0 <= i < Z.of_nat (List.length before) ->
   after = firstn (Z.to_nat i) before ++ skipn (S (Z.to_nat i)) before /\
   S (List.length after) = List.length before) /\
  (~ 0 <= i < Z.of_nat (List.length before) -> after = before).

(** A state none of whose drafts passes validation: blank texts, an
    empty tag, and a starter with a title and a blank prompt. *)
Definition blankDrafts : State :=
  setActionDraft
    (CustomAction.mk (js "  ") None graphql (Some (js "https://x")) None None None)
    (setDocDraft (js " ")
       (setPhraseDraft (js "   ")
          (setStarterTitle (js "T")
             (setStarterPrompt (js "  ")
                (setSampleDraft [9%N; 10%N; 160%N]
                   (setTagDraft [] initialState)))))).

(** A state whose drafts repeat what the lists of the defaults hold. *)
Definition repeatedDrafts : State :=
  setActionDraft
    (CustomAction.mk (js "Lookup") None openapi (Some []) None None None)
    (setActions
       [CustomAction.mk (js "Lookup") None openapi (Some []) None None None]
       (setKnowledgeDocs [js "a.pdf"]
          (setDocDraft (js "a.pdf")
             (setCustomPhrases [js "x"]
                (setPhraseDraft (js "x")
                   (setStarterTitle (js "What can you do?")
                      (setStarterPrompt
                         (js "Give me a quick overview of your abilities.")
                         (setSampleDraft (js "How do I get started?")
                            (setTagDraft (js " starter ") initialState))))))))).

(** The session in which the user types [" Lookup "] as the name of an
    action: the draft is
    [{ name: " Lookup ", type: "openapi", specUrlOrInline: "" }]. *)
Definition paddedActionDraft : State :=
  session [ChangeActionName (js " Lookup ")].

(** The number of binary digits of a positive integer. *)
Definition D (p : positive) : Z := Z.pos (digits2_pos p).

(** A list of digits that begins with a digit other than [0]. *)
Definition leading_digit (d : jsstring) : Prop :=
  exists c t, d = c :: t /\ c <> 48%N.

(** The text goes on with something that is no digit. *)
Definition no_digit_ahead (rest : jsstring) : bool :=
  match rest with
  | [] => true
  | c :: _ => negb (isDigit c)
  end.

(** The text goes on with something that cannot continue a number. *)
Definition ends_token (rest : jsstring) : bool :=
  match rest with
  | [] => true
  | c :: _ => negb (isDigit c || (c =? 46) || (c =? 101) || (c =? 69))%N
  end.

(** [x] with the sign bit [s]. *)
Definition set_sign (s : bool) (x : number) : number :=
  match x with
  | S754_zero _ => S754_zero s
  | S754_infinity _ => S754_infinity s
  | S754_nan => S754_nan
  | S754_finite _ m e => S754_finite s m e
  end.

(** Digits that [Number::toString] may write for the positive number
    [x]: decimal digits, the first of them not [0], that round to [x]. *)
Definition digits_for (x : number) (r : jsstring * Z) : Prop :=
  forallb isDigit (fst r) = true /\
  leading_digit (fst r) /\
  decimal_to_number false (decimal_value (fst r))
    (snd r - Z.of_nat (List.length (fst r))) = x.

(** A finite binary64 number other than [-0]: what [JSON.stringify]
    writes as a number that denotes it. *)
Definition json_number_ok (x : number) : bool :=
  match x with
  | S754_zero s => negb s
  | S754_finite _ m e => bounded prec emax m e
  | _ => false
  end.

(** A code unit [QuoteJSONString] writes as it is. *)
Definition plain_unit (c : N) : bool :=
  (negb (c =? 34) && negb (c =? 92) && negb (c <? 32))%N.

(** No key occurs twice. *)
Fixpoint distinct_keys (ks : list jsstring) : bool :=
  match ks with
  | [] => true
  | k :: t => negb (existsb (jsstring_eqb k) t) && distinct_keys t
  end.

(** The key is no array index. *)
Definition plain_key (k : jsstring) : bool :=
  match array_index k with
  | None => true
  | Some _ => false
  end.

(** The values [JSON.stringify] writes so that [JSON.parse] reads them
    back: every number is finite and no [-0], and the keys of an object
    are distinct and no array indices (which an object enumerates first,
    whatever the order they were defined in). *)
Fixpoint wf_json (v : json) : bool :=
  match v with
  | JNumber x => json_number_ok x
  | JArray l => forallb wf_json l
  | JObject l =>
      distinct_keys (map fst l) && forallb plain_key (map fst l) &&
      forallb (fun kv => wf_json (snd kv)) l
  | _ => true
  end.

(** The code units a JSON value starts with. *)
Definition value_start (c : N) : bool :=
  (isDigit c || (c =? 45) || (c =? 34) || (c =? 123) || (c =? 91) ||
   (c =? 116) || (c =? 102) || (c =? 110))%N.

(** What the round trip says of one value: at any indentation, followed
    by anything that ends a token, and with fuel beyond the length of its
    text, the text of the value parses as the value. *)
Definition reads_back (v : json) : Prop :=
  forall indent rest fuel,
    wf_json v = true ->
    forallb isJSONWhiteSpace indent = true ->
    ends_token rest = true ->
    (List.length (SerializeJSONProperty indent v) < fuel)%nat ->
    parse_value fuel (SerializeJSONProperty indent v ++ rest) = Some (v, rest).

(** The separator between the elements of an array and between the
    members of an object. *)
Definition separator (indent : jsstring) : jsstring :=
  js "," ++ newline ++ indent.

(** The text of a member of an object: the key quoted, a colon, a space
    and the value. *)
Definition member_text (indent : jsstring) (kv : jsstring * json) : jsstring :=
  QuoteJSONString (fst kv) ++ js ":" ++ js " " ++
  SerializeJSONProperty indent (snd kv).

(** The number an action carries, if any, is one JSON text can hold. *)
Definition action_ok (a : CustomAction.t) : bool :=
  match CustomAction.rateLimitPerMinute a with
  | Some x => json_number_ok x
  | None => true
  end.

(** No action of the list and not the draft carries a number that JSON
    text cannot hold. *)
Definition actions_ok (s : State) : bool :=
  forallb action_ok (actions s) && action_ok (actionDraft s).

(** The session in which the user types ["1e999"] into the retention
    field. *)
Definition overflowingRetention : State :=
  session [ChangeRetention (js "1e999")].

(** A session that edits the retention, adds an action with
    authentication and adds a document. *)
Definition editingSession : list event :=
  [ChangeRetention (js "1.5");
   ChangeActionName (js "Lookup");
   ChangeActionSpec (js "https://example.org/openapi.json");
   ChangeActionAuthInstructions (js "Bearer token");
   ChangeActionAuthType api_key;
   ClickAddAction;
   ToggleKnowledge true;
   ChangeDocDraft (js " Pricing Deck v3.pdf ");
   ClickAddDoc;
   ToggleVision true;
   ClickCopy].

(** The property [key] of an object. *)
Definition property (key : string) (v : json) : option json :=
  match v with
  | JObject members =>
      option_map snd
        (find (fun kv => jsstring_eqb (js key) (fst kv)) members)
  | _ => None
  end.

(* ===================================================================== *)
(** * The model on concrete inputs *)
(* ===================================================================== *)

Example Number_literals :
  Number (js "30") = number_of_Z 30 /\
  Number (js " 12e2 ") = number_of_Z 1200 /\
  Number (js "0x1F") = number_of_Z 31 /\
  Number (js "9007199254740993") = number_of_Z 9007199254740992 /\
  Number (js "") = pos_zero /\
  Number (js "-0") = S754_zero true /\
  Number (js "0.1") = S754_finite false 7205759403792794 (-56) /\
  Number (js "5e-324") = S754_finite false 1 (-1074) /\
  Number (js "1.7976931348623157e308") =
    S754_finite false 9007199254740991 971 /\
  Number (js "1e400") = Infinity /\
  Number (js "-Infinity") = neg_Infinity /\
  Number (js "abc") = NaN /\
  Number (js "1 2") = NaN /\
  Number (js ".") = NaN /\
  Number (js "1e") = NaN.
Proof. repeat split; vm_compute; reflexivity. Qed.

Example Number_toString_literals :
  map (fun s => Number_toString (Number (js s)))
    ["180"; "1.5"; "0.1"; "1e21"; "123456789012345680000"; "0.000001";
     "0.0000001"; "0.30000000000000004"; "5e-324";
     "1.7976931348623157e308"; "-2.50"; "1e23"; "-0"]%string =
  map js
    ["180"; "1.5"; "0.1"; "1e+21"; "123456789012345680000"; "0.000001";
     "1e-7"; "0.30000000000000004"; "5e-324";
     "1.7976931348623157e+308"; "-2.5"; "1e+23"; "0"]%string.
Proof. vm_compute. reflexivity. Qed.

Example toISOString_instants :
  toISOString 0 = js "1970-01-01T00:00:00.000Z" /\
  toISOString (-1) = js "1969-12-31T23:59:59.999Z" /\
  toISOString 951782400000 = js "2000-02-29T00:00:00.000Z" /\
  toISOString 1762131723456 = js "2025-11-03T01:02:03.456Z" /\
  toISOString 253402300800000 = js "+010000-01-01T00:00:00.000Z".
Proof. repeat split; vm_compute; reflexivity. Qed.

(** The export of the defaults at the epoch, with ['] written for the
    quotation mark. *)
Example exportText_defaults :
  exportText initialState 0 =
  map (fun c => if (c =? 39)%N then 34%N else c) (js
"{
  'schemaVersion': '1.0',
  'name': 'Untitled Custom GPT',
  'description': '',
  'instructions': 'You are a helpful assistant.',
  'language': 'en',
  'persona': {
    'writingTone': 'friendly',
    'emojiUse': 'light',
    'responseLength': 'medium'
  },
  'builtInTools': [
    'web'
  ],
  'customActions': [],
  'knowledge': {
    'enabled': false,
    'documents': []
  },
  'memory': {
    'enabled': false,
    'scope': 'user',
    'dataRetentionDays': 180
  },
  'safety': {
    'jailbreakDefense': true,
    'blockDisallowedContent': true,
    'piiRedaction': false,
    'customDisallowedPhrases': []
  },
  'conversationStarters': [
    {
      'title': 'What can you do?',
      'prompt': 'Give me a quick overview of your abilities.'
    }
  ],
  'sampleQuestions': [
    'How do I get started?'
  ],
  'tags': [
    'starter'
  ],
  'createdAt': '1970-01-01T00:00:00.000Z'
}").
Proof. vm_compute. reflexivity. Qed.

Example JSON_parse_texts :
  JSON_parse (js "[1, true, null]") =
    Some (JArray [JNumber (number_of_Z 1); JBool true; JNull]) /\
  JSON_parse (js " {} ") = Some (JObject []) /\
  JSON_parse (js "[1, ]") = None /\
  JSON_parse (js "01") = None /\
  JSON_parse (js "{} x") = None /\
  JSON_parse (js "tru") = None.
Proof. repeat split; vm_compute; reflexivity. Qed.

(* ===================================================================== *)
(** * Lemmas on strings and lists *)
(* ===================================================================== *)

Lemma trimStart_split (s : jsstring) :
  exists w, s = w ++ trimStart s /\ Forall (fun c => isWhiteSpace c = true) w.
Proof.
  induction s as [|c t IH]; simpl.
  - exists []. split; [reflexivity | constructor].
  - destruct (isWhiteSpace c) eqn:Hc.
    + destruct IH as [w [Hw Hall]].
      exists (c :: w). split.
      * simpl. now rewrite <- Hw.
      * now constructor.
    + exists []. split; [reflexivity | constructor].
Qed.

Lemma trimStart_head (s : jsstring) c t :
  trimStart s = c :: t -> isWhiteSpace c = false.
Proof.
  induction s as [|a s IH]; simpl; [discriminate|].
  destruct (isWhiteSpace a) eqn:Ha; [exact IH|].
  intros H. injection H as -> _. exact Ha.
Qed.

Lemma trimEnd_split (s : jsstring) :
  exists w, s = trimEnd s ++ w.
Proof.
  unfold trimEnd.
  destruct (trimStart_split (rev s)) as [w [Hw _]].
  exists (rev w).
  rewrite <- rev_app_distr, <- Hw. now rewrite rev_involutive.
Qed.

Lemma trimEnd_last (s : jsstring) c t :
  trimEnd s = t ++ [c] -> isWhiteSpace c = false.
Proof.
  unfold trimEnd. intros H.
  apply (f_equal (@rev N)) in H.
  rewrite rev_involutive, rev_app_distr in H. simpl in H.
  exact (trimStart_head _ _ _ H).
Qed.

Lemma trim_no_edge_whitespace (s : jsstring) : no_edge_whitespace (trim s).
Proof.
  unfold no_edge_whitespace, trim. split; intros c t H.
  - destruct (trimEnd_split (trimStart s)) as [w Hw].
    rewrite H in Hw. simpl in Hw.
    exact (trimStart_head _ _ _ Hw).
  - exact (trimEnd_last _ _ _ H).
Qed.

Lemma truthy_string_false (s : jsstring) : truthy_string s = false <-> s = [].
Proof. destruct s; simpl; split; congruence. Qed.

Lemma truthy_string_true (s : jsstring) : truthy_string s = true <-> s <> [].
Proof. destruct s; simpl; split; congruence. Qed.

Lemma filter_from_skip {A : Type} (l : list A) (k : nat) (i : Z) :
  ~ Z.of_nat k <= i < Z.of_nat k + Z.of_nat (List.length l) ->
  filter_from (fun _ idx => negb (Z.of_nat idx =? i)) k l = l.
Proof.
  revert k. induction l as [|x t IH]; intros k H; simpl; [reflexivity|].
  simpl List.length in H.
  destruct (Z.eqb_spec (Z.of_nat k) i) as [E|E]; simpl.
  - exfalso. apply H. lia.
  - f_equal. apply IH. lia.
Qed.

Lemma filter_from_hit {A : Type} (l : list A) (k : nat) (i : Z) :
  Z.of_nat k <= i < Z.of_nat k + Z.of_nat (List.length l) ->
  filter_from (fun _ idx => negb (Z.of_nat idx =? i)) k l =
  firstn (Z.to_nat i - k) l ++ skipn (S (Z.to_nat i - k)) l.
Proof.
  revert k. induction l as [|x t IH]; intros k H; simpl in H; [lia|].
  cbn [filter_from].
  destruct (Z.eqb_spec (Z.of_nat k) i) as [E|E]; simpl negb; cbv iota.
  - subst i. rewrite Nat2Z.id, Nat.sub_diag. simpl.
    apply filter_from_skip. lia.
  - replace (Z.to_nat i - k)%nat with (S (Z.to_nat i - S k)) by lia.
    simpl. f_equal. apply IH. lia.
Qed.

Lemma removeAt_removed_at {A : Type} (i : Z) (l : list A) :
  removed_at i l (removeAt i l).
Proof.
  unfold removed_at, removeAt, Array_filter. split.
  - intros H.
    assert (E : filter_from (fun (_ : A) idx => negb (Z.of_nat idx =? i)) 0 l =
                firstn (Z.to_nat i) l ++ skipn (S (Z.to_nat i)) l).
    { rewrite filter_from_hit by (simpl; lia). now rewrite Nat.sub_0_r. }
    split; [exact E|].
    rewrite E, length_app, length_firstn, length_skipn. lia.
  - intros H. apply filter_from_skip. simpl. lia.
Qed.

(* ===================================================================== *)
(** * The tool set of the derived document *)
(* ===================================================================== *)

Lemma click_comm (s : State) (a b : BuiltInTool) :
  click (click s a) b = click (click s b) a.
Proof. destruct s, a, b; reflexivity. Qed.

Lemma clicks_permutation (l l' : list BuiltInTool) :
  Permutation l l' ->
  forall s, fold_left click l s = fold_left click l' s.
Proof.
  induction 1 as [|x l l' _ IH|x y l|l l' l'' _ IH1 _ IH2]; intros s; simpl.
  - reflexivity.
  - apply IH.
  - now rewrite click_comm.
  - now rewrite IH1.
Qed.

(** C1. In every state the [builtInTools] of the derived document are the
    tools whose flag is set, each once, in the order web, code, retrieval,
    image, vision; and the same clicks on the tool check boxes, in any
    order, give the same [builtInTools]. *)
Theorem builtInTools_canonical (s : State) (now : Z) :
  CustomGPTConfig.builtInTools (output s now) =
    filter (enabled s) canonicalOrder /\
  (forall t, In t (CustomGPTConfig.builtInTools (output s now)) <->
             enabled s t = true) /\
  (forall clicks clicks', Permutation clicks clicks' ->
     CustomGPTConfig.builtInTools (output (fold_left click clicks s) now) =
     CustomGPTConfig.builtInTools (output (fold_left click clicks' s) now)).
Proof.
  assert (E : forall s', builtIn s' = filter (enabled s') canonicalOrder).
  { intros s'. unfold builtIn, push_if. simpl.
    destruct (toolWeb s'), (toolCode s'), (toolRetrieval s'),
      (toolImage s'), (toolVision s'); reflexivity. }
  repeat split.
  - apply E.
  - simpl. rewrite E, filter_In. tauto.
  - simpl. rewrite E, filter_In. intros H. split; [|exact H].
    unfold canonicalOrder. destruct t; simpl; tauto.
  - intros clicks clicks' HP. simpl. now rewrite (clicks_permutation _ _ HP).
Qed.

Lemma builtInTools_canonical_witness :
  Permutation [code; vision] [vision; code] /\
  CustomGPTConfig.builtInTools
    (output (fold_left click [code; vision] initialState) 0) =
  CustomGPTConfig.builtInTools
    (output (fold_left click [vision; code] initialState) 0).
Proof.
  split; [apply perm_swap|].
  apply (proj2 (proj2 (builtInTools_canonical initialState 0))).
  apply perm_swap.
Defined.

(** The end-to-end scenario of the specification: from the defaults,
    enabling code and vision gives [["web","code","vision"]]. *)
Example builtInTools_scenario :
  CustomGPTConfig.builtInTools
    (output (setToolVision true (setToolCode true initialState)) 0) =
  [web; code; vision].
Proof. reflexivity. Qed.

(* ===================================================================== *)
(** * Removing from a list field *)
(* ===================================================================== *)

Lemma setActions_id (s : State) : setActions (actions s) s = s.
Proof. now destruct s. Qed.

Lemma setKnowledgeDocs_id (s : State) : setKnowledgeDocs (knowledgeDocs s) s = s.
Proof. now destruct s. Qed.

Lemma setCustomPhrases_id (s : State) : setCustomPhrases (customPhrases s) s = s.
Proof. now destruct s. Qed.

Lemma setStarters_id (s : State) : setStarters (starters s) s = s.
Proof. now destruct s. Qed.

Lemma setSampleQs_id (s : State) : setSampleQs (sampleQs s) s = s.
Proof. now destruct s. Qed.

Lemma setTags_id (s : State) : setTags (tags s) s = s.
Proof. now destruct s. Qed.

Lemma removeAt_out_of_range {A : Type} (i : Z) (l : list A) :
  ~ 0 <= i < Z.of_nat (List.length l) -> removeAt i l = l.
Proof. intros H. exact (proj2 (removeAt_removed_at i l) H). Qed.

(** C5. Each [remove...] handler replaces its list by [removeAt i] of it
    and touches nothing else. With [i] a position of the list, [removeAt i]
    drops exactly the element at [i]: the elements before it and the
    elements behind it stay, in order, the latter one place to the left,
    and the length goes down by one. With [i] out of range the list, and
    the whole state, is unchanged. The handlers are total functions: there
    is no failure to report. *)
Theorem remove_at_index (s : State) (now : Z) :
  (forall i,
     CustomGPTConfig.customActions (output (removeAction i s) now) =
       removeAt i (CustomGPTConfig.customActions (output s now)) /\
     Knowledge.documents
       (CustomGPTConfig.knowledge (output (removeDoc i s) now)) =
       removeAt i (Knowledge.documents (CustomGPTConfig.knowledge (output s now))) /\
     SafetyPolicy.customDisallowedPhrases
       (CustomGPTConfig.safety (output (removePhrase i s) now)) =
       removeAt i (SafetyPolicy.customDisallowedPhrases
                     (CustomGPTConfig.safety (output s now))) /\
     CustomGPTConfig.conversationStarters (output (removeStarter i s) now) =
       removeAt i (CustomGPTConfig.conversationStarters (output s now)) /\
     CustomGPTConfig.sampleQuestions (output (removeSample i s) now) =
       removeAt i (CustomGPTConfig.sampleQuestions (output s now)) /\
     CustomGPTConfig.tags (output (removeTag i s) now) =
       removeAt i (CustomGPTConfig.tags (output s now))) /\
  (forall (A : Type) (l : list A) i,
     0 <= i < Z.of_nat (List.length l) ->
     removeAt i l = firstn (Z.to_nat i) l ++ skipn (S (Z.to_nat i)) l /\
     S (List.length (removeAt i l)) = List.length l) /\
  (forall (A : Type) (l : list A) i,
     ~ 0 <= i < Z.of_nat (List.length l) -> removeAt i l = l) /\
  (forall i,
     (~ 0 <= i < Z.of_nat (List.length (actions s)) -> removeAction i s = s) /\
     (~ 0 <= i < Z.of_nat (List.length (knowledgeDocs s)) -> removeDoc i s = s) /\
     (~ 0 <= i < Z.of_nat (List.length (customPhrases s)) -> removePhrase i s = s) /\
     (~ 0 <= i < Z.of_nat (List.length (starters s)) -> removeStarter i s = s) /\
     (~ 0 <= i < Z.of_nat (List.length (sampleQs s)) -> removeSample i s = s) /\
     (~ 0 <= i < Z.of_nat (List.length (tags s)) -> removeTag i s = s)).
Proof.
  split; [|split; [|split]].
  - intros i. repeat split; reflexivity.
  - intros A l i H. exact (proj1 (removeAt_removed_at i l) H).
  - intros A l i H. exact (removeAt_out_of_range i l H).
  - intros i.
    unfold removeAction, removeDoc, removePhrase, removeStarter,
      removeSample, removeTag.
    repeat split; intros H; rewrite (removeAt_out_of_range _ _ H).
    + apply setActions_id.
    + apply setKnowledgeDocs_id.
    + apply setCustomPhrases_id.
    + apply setStarters_id.
    + apply setSampleQs_id.
    + apply setTags_id.
Qed.

Lemma remove_at_index_witness :
  (0 <= 1 < Z.of_nat (List.length [10; 20; 30]) /\
   removeAt 1 [10; 20; 30] = [10; 30]) /\
  (~ 0 <= 3 < Z.of_nat (List.length [10; 20; 30]) /\
   removeAt 3 [10; 20; 30] = [10; 20; 30]) /\
  (~ 0 <= -1 < Z.of_nat (List.length (tags initialState)) /\
   removeTag (-1) initialState = initialState).
Proof.
  pose proof (remove_at_index initialState 0) as [_ [Hin [Hout Hstate]]].
  split; [|split].
  - assert (H : 0 <= 1 < Z.of_nat (List.length [10; 20; 30])) by (simpl; lia).
    split; [exact H|]. exact (proj1 (Hin Z [10; 20; 30] 1 H)).
  - assert (H : ~ 0 <= 3 < Z.of_nat (List.length [10; 20; 30])) by (simpl; lia).
    split; [exact H|]. exact (Hout Z [10; 20; 30] 3 H).
  - assert (H : ~ 0 <= -1 < Z.of_nat (List.length (tags initialState)))
      by (simpl; lia).
    split; [exact H|].
    exact (proj2 (proj2 (proj2 (proj2 (proj2 (Hstate (-1)))))) H).
Defined.

(* ===================================================================== *)
(** * Adding to a list field *)
(* ===================================================================== *)

(** C6. When the draft fails the validation of its [add...] handler (the
    trimmed draft is empty; for a starter the trimmed title or the trimmed
    prompt; for an action the trimmed name), the handler returns the state
    it was given: no list and no other field changes. The handlers are
    total functions: there is no failure to report. *)
Theorem add_invalid_noop (s : State) :
  (trim (CustomAction.name (actionDraft s)) = [] -> addAction s = s) /\
  (trim (docDraft s) = [] -> addDoc s = s) /\
  (trim (phraseDraft s) = [] -> addPhrase s = s) /\
  (trim (starterTitle s) = [] \/ trim (starterPrompt s) = [] ->
   addStarter s = s) /\
  (trim (sampleDraft s) = [] -> addSample s = s) /\
  (trim (tagDraft s) = [] -> addTag s = s).
Proof.
  unfold addAction, addDoc, addPhrase, addStarter, addSample, addTag.
  repeat split; intros H.
  - now rewrite H.
  - now rewrite H.
  - now rewrite H.
  - destruct H as [H|H]; rewrite H; simpl; [reflexivity|].
    now rewrite orb_true_r.
  - now rewrite H.
  - now rewrite H.
Qed.

Lemma add_invalid_noop_witness :
  addAction blankDrafts = blankDrafts /\
  addDoc blankDrafts = blankDrafts /\
  addPhrase blankDrafts = blankDrafts /\
  addStarter blankDrafts = blankDrafts /\
  addSample blankDrafts = blankDrafts /\
  addTag blankDrafts = blankDrafts.
Proof.
  destruct (add_invalid_noop blankDrafts) as [H1 [H2 [H3 [H4 [H5 H6]]]]].
  split; [apply H1; reflexivity|].
  split; [apply H2; reflexivity|].
  split; [apply H3; reflexivity|].
  split; [apply H4; right; reflexivity|].
  split; [apply H5; reflexivity|].
  apply H6; reflexivity.
Defined.

(** C10. With a draft that passes validation, every [add...] handler makes
    its list exactly one longer, whatever the list holds already: no
    handler looks for an equal element. *)
Theorem add_valid_length (s : State) :
  (trim (CustomAction.name (actionDraft s)) <> [] ->
   List.length (actions (addAction s)) = S (List.length (actions s))) /\
  (trim (docDraft s) <> [] ->
   List.length (knowledgeDocs (addDoc s)) = S (List.length (knowledgeDocs s))) /\
  (trim (phraseDraft s) <> [] ->
   List.length (customPhrases (addPhrase s)) =
   S (List.length (customPhrases s))) /\
  (trim (starterTitle s) <> [] -> trim (starterPrompt s) <> [] ->
   List.length (starters (addStarter s)) = S (List.length (starters s))) /\
  (trim (sampleDraft s) <> [] ->
   List.length (sampleQs (addSample s)) = S (List.length (sampleQs s))) /\
  (trim (tagDraft s) <> [] ->
   List.length (tags (addTag s)) = S (List.length (tags s))).
Proof.
  unfold addAction, addDoc, addPhrase, addStarter, addSample, addTag.
  repeat split.
  - intros H. apply truthy_string_true in H. rewrite H. simpl.
    rewrite length_app. simpl. lia.
  - intros H. apply truthy_string_true in H. rewrite H. simpl.
    rewrite length_app. simpl. lia.
  - intros H. apply truthy_string_true in H. rewrite H. simpl.
    rewrite length_app. simpl. lia.
  - intros H1 H2. apply truthy_string_true in H1, H2. rewrite H1, H2. simpl.
    rewrite length_app. simpl. lia.
  - intros H. apply truthy_string_true in H. rewrite H. simpl.
    rewrite length_app. simpl. lia.
  - intros H. apply truthy_string_true in H. rewrite H. simpl.
    rewrite length_app. simpl. lia.
Qed.

Lemma add_valid_length_witness :
  actions (addAction repeatedDrafts) =
    [CustomAction.mk (js "Lookup") None openapi (Some []) None None None;
     CustomAction.mk (js "Lookup") None openapi (Some []) None None None] /\
  List.length (actions (addAction repeatedDrafts)) = 2%nat /\
  List.length (knowledgeDocs (addDoc repeatedDrafts)) = 2%nat /\
  List.length (customPhrases (addPhrase repeatedDrafts)) = 2%nat /\
  List.length (starters (addStarter repeatedDrafts)) = 2%nat /\
  List.length (sampleQs (addSample repeatedDrafts)) = 2%nat /\
  tags (addTag repeatedDrafts) = [js "starter"; js "starter"] /\
  List.length (tags (addTag repeatedDrafts)) = 2%nat.
Proof.
  destruct (add_valid_length repeatedDrafts) as [H1 [H2 [H3 [H4 [H5 H6]]]]].
  split; [reflexivity|].
  split; [apply H1; discriminate|].
  split; [apply H2; discriminate|].
  split; [apply H3; discriminate|].
  split; [apply H4; discriminate|].
  split; [apply H5; discriminate|].
  split; [reflexivity|].
  apply H6; discriminate.
Defined.

(** With a draft that passes validation, the five handlers of the string
    lists and of the starters append the trimmed draft behind the elements
    the list has and empty the draft; what they store has no white space at
    either end. *)
Lemma add_valid_trimmed (s : State) :
  (trim (docDraft s) <> [] ->
   knowledgeDocs (addDoc s) = knowledgeDocs s ++ [trim (docDraft s)] /\
   docDraft (addDoc s) = []) /\
  (trim (phraseDraft s) <> [] ->
   customPhrases (addPhrase s) = customPhrases s ++ [trim (phraseDraft s)] /\
   phraseDraft (addPhrase s) = []) /\
  (trim (starterTitle s) <> [] -> trim (starterPrompt s) <> [] ->
   starters (addStarter s) =
     starters s ++
     [ConversationStarter.mk (trim (starterTitle s)) (trim (starterPrompt s))] /\
   starterTitle (addStarter s) = [] /\ starterPrompt (addStarter s) = []) /\
  (trim (sampleDraft s) <> [] ->
   sampleQs (addSample s) = sampleQs s ++ [trim (sampleDraft s)] /\
   sampleDraft (addSample s) = []) /\
  (trim (tagDraft s) <> [] ->
   tags (addTag s) = tags s ++ [trim (tagDraft s)] /\ tagDraft (addTag s) = []).
Proof.
  unfold addDoc, addPhrase, addStarter, addSample, addTag.
  repeat split;
    repeat match goal with
      | H : trim _ <> [] |- _ => apply truthy_string_true in H; rewrite H
      | |- _ -> _ => intro
      end; reflexivity.
Qed.

(** With a draft whose trimmed name is not empty, [addAction] appends the
    draft as it stands and resets the draft. *)
Lemma addAction_valid (s : State) :
  trim (CustomAction.name (actionDraft s)) <> [] ->
  actions (addAction s) = actions s ++ [actionDraft s] /\
  actionDraft (addAction s) = emptyActionDraft.
Proof.
  intros H. apply truthy_string_true in H.
  unfold addAction. rewrite H. split; reflexivity.
Qed.

(** C3. [addAction] at a draft whose name has white space around it: the
    draft passes validation, and the action stored is the draft itself, its
    name [" Lookup "] still with the white space at both ends and not the
    trimmed ["Lookup"] that [addDoc], [addPhrase], [addStarter],
    [addSample] and [addTag] would store. *)
Theorem addAction_stores_untrimmed_name :
  trim (CustomAction.name (actionDraft paddedActionDraft)) = js "Lookup" /\
  actions (addAction paddedActionDraft) =
    [CustomAction.mk (js " Lookup ") None openapi (Some []) None None None] /\
  actionDraft (addAction paddedActionDraft) = emptyActionDraft /\
  map CustomAction.name (actions (addAction paddedActionDraft)) <>
    [trim (CustomAction.name (actionDraft paddedActionDraft))] /\
  ~ no_edge_whitespace (js " Lookup ").
Proof.
  split; [reflexivity|].
  split; [reflexivity|].
  split; [reflexivity|].
  split; [discriminate|].
  intros [H _]. specialize (H 32%N (js "Lookup ") eq_refl). discriminate.
Qed.

(** The end-to-end scenario of the specification: adding the action
    [{name: "Lookup", type: "openapi"}] and removing it at index 0 leaves
    [customActions] empty. *)
Example add_then_remove_action :
  CustomGPTConfig.customActions
    (output
       (removeAction 0
          (addAction
             (setActionDraft
                (CustomAction.mk (js "Lookup") None openapi (Some []) None
                   None None) initialState))) 0) = [].
Proof. reflexivity. Qed.

(* ===================================================================== *)
(** * The download file name *)
(* ===================================================================== *)

(** C8. The file [downloadJSON] offers is named by the [name] field
    followed by [".json"], and ["custom-gpt.json"] when the name is the
    empty string. *)
Theorem download_name (s : State) :
  (name s <> [] -> downloadName s = name s ++ js ".json") /\
  (name s = [] -> downloadName s = js "custom-gpt" ++ js ".json").
Proof.
  unfold downloadName, or_string. split; intros H.
  - apply truthy_string_true in H. now rewrite H.
  - now rewrite H.
Qed.

Lemma download_name_witness :
  downloadName initialState = js "Untitled Custom GPT.json" /\
  downloadName (setName [] initialState) = js "custom-gpt.json".
Proof.
  split.
  - exact (proj1 (download_name initialState) ltac:(discriminate)).
  - exact (proj2 (download_name (setName [] initialState)) eq_refl).
Defined.

(* ===================================================================== *)
(** * Disabled sections *)
(* ===================================================================== *)

(** C9. The derived document copies the knowledge documents, the memory
    scope and the coerced retention days from the fields whatever the two
    [enabled] flags say; switching both sections off changes the flags of
    the document and none of these three values, which the exported JSON
    value carries under [knowledge] and [memory]; and a document added
    before knowledge is switched off is still listed. *)
Theorem disabled_sections_keep_data (s : State) (now : Z) :
  let off := setMemoryEnabled false (setKnowledgeEnabled false s) in
  (Knowledge.documents (CustomGPTConfig.knowledge (output s now)) =
     knowledgeDocs s /\
   MemoryPolicy.scope (CustomGPTConfig.memory (output s now)) =
     memoryScope s /\
   MemoryPolicy.dataRetentionDays (CustomGPTConfig.memory (output s now)) =
     retentionDays (retention s)) /\
  (Knowledge.enabled (CustomGPTConfig.knowledge (output off now)) = false /\
   MemoryPolicy.enabled (CustomGPTConfig.memory (output off now)) = false /\
   Knowledge.documents (CustomGPTConfig.knowledge (output off now)) =
     knowledgeDocs s /\
   MemoryPolicy.scope (CustomGPTConfig.memory (output off now)) =
     memoryScope s /\
   MemoryPolicy.dataRetentionDays (CustomGPTConfig.memory (output off now)) =
     retentionDays (retention s)) /\
  (property "knowledge" (CustomGPTConfig_json (output off now)) =
     Some (JObject [(js "enabled", JBool false);
                    (js "documents", strings_json (knowledgeDocs s))]) /\
   property "memory" (CustomGPTConfig_json (output off now)) =
     Some (JObject [(js "enabled", JBool false);
                    (js "scope", JString (MemoryScope_string (memoryScope s)));
                    (js "dataRetentionDays",
                     JNumber (retentionDays (retention s)))])) /\
  (trim (docDraft s) <> [] ->
   In (trim (docDraft s))
      (Knowledge.documents
         (CustomGPTConfig.knowledge
            (output (setKnowledgeEnabled false (addDoc s)) now)))).
Proof.
  repeat split.
  intros H. simpl.
  destruct (proj1 (add_valid_trimmed s) H) as [E _].
  rewrite E. apply in_or_app. right. now left.
Qed.

Lemma disabled_sections_keep_data_witness :
  In (js "Pricing Deck v3.pdf")
     (Knowledge.documents
        (CustomGPTConfig.knowledge
           (output
              (setKnowledgeEnabled false
                 (addDoc
                    (setDocDraft (js " Pricing Deck v3.pdf")
                       (setKnowledgeEnabled true initialState)))) 0))).
Proof.
  exact (proj2 (proj2 (proj2
    (disabled_sections_keep_data
       (setDocDraft (js " Pricing Deck v3.pdf")
          (setKnowledgeEnabled true initialState)) 0)))
    ltac:(discriminate)).
Defined.

(* ===================================================================== *)
(** * Determinism of the derivation *)
(* ===================================================================== *)

(** C2, as stated, fails: renaming the assistant and restoring the name
    brings every field back to what it was, and the document derived then
    differs from the one derived before. *)
Lemma output_differs_across_instants :
  session [ChangeName (js "Tutor"); ChangeName (js "Untitled Custom GPT")] =
    session [] /\
  output (session []) 0 <>
  output
    (session [ChangeName (js "Tutor"); ChangeName (js "Untitled Custom GPT")])
    2000.
Proof.
  split; [reflexivity|].
  intros H. apply (f_equal CustomGPTConfig.createdAt) in H.
  vm_compute in H. discriminate.
Qed.

(** C2, amended. The derived document is a function of the tracked
    fields and of the instant of the derivation: two derivations from
    states that agree on every tracked field (they may differ in the
    drafts) agree on every property other than [createdAt], which is the
    instant of the derivation in ISO format; taken at the same instant
    they are the same document. *)
Theorem output_deterministic_modulo_createdAt
  (s1 s2 : State) (now1 now2 : Z) (c : jsstring) :
  dependencies s1 = dependencies s2 ->
  withCreatedAt c (output s1 now1) = withCreatedAt c (output s2 now2) /\
  output s2 now2 = withCreatedAt (toISOString now2) (output s1 now1) /\
  (now1 = now2 -> output s1 now1 = output s2 now2).
Proof.
  unfold dependencies. destruct s1, s2. cbn. intros H.
  injection H as -> -> -> -> -> -> -> -> -> -> -> -> -> -> -> -> -> -> -> ->
    -> -> -> -> ->.
  repeat split. now intros ->.
Qed.

Lemma output_deterministic_modulo_createdAt_witness :
  withCreatedAt [] (output initialState 0) =
  withCreatedAt []
    (output (session [ChangeTagDraft (js "wip"); ClickCopy]) 2000) /\
  output initialState 7 =
  output (session [ChangeTagDraft (js "wip"); ClickCopy]) 7.
Proof.
  split.
  - exact (proj1 (output_deterministic_modulo_createdAt initialState
                    (session [ChangeTagDraft (js "wip"); ClickCopy])
                    0 2000 [] eq_refl)).
  - exact (proj2 (proj2 (output_deterministic_modulo_createdAt initialState
                    (session [ChangeTagDraft (js "wip"); ClickCopy])
                    7 7 [] eq_refl)) eq_refl).
Defined.

(* ===================================================================== *)
(** * The retention days *)
(* ===================================================================== *)

(** [Math.max(0, x || 0)], by cases of [x]. *)
Lemma Math_max_or_zero (x : number) :
  Math_max [pos_zero; or_number x pos_zero] =
  match x with
  | S754_finite false _ _ | S754_infinity false => x
  | _ => pos_zero
  end.
Proof. destruct x as [[|]|[|]| |[|] m e]; reflexivity. Qed.

(** C4, as stated, fails: the text ["1.5"] is coerced to the number 1.5,
    which is no integer. *)
Lemma retentionDays_not_integer :
  retentionDays (js "1.5") = S754_finite false 6755399441055744 (-52) /\
  is_integer (retentionDays (js "1.5")) = false.
Proof. split; vm_compute; reflexivity. Qed.

(** C4, amended. For every text of the retention field the derived
    [dataRetentionDays] is a number that is neither [NaN] nor negative:
    it is [+0] when the text is no numeric literal ([Number] gives [NaN])
    and when its number is negative or a zero, and it is the number of the
    text itself, integer or not, when that is positive. So ["abc"] and
    ["-5"] give 0 and ["30"] gives 30. *)
Theorem retentionDays_coercion (r : jsstring) :
  is_nan (retentionDays r) = false /\
  is_negative (retentionDays r) = false /\
  (is_nan (Number r) = true -> retentionDays r = pos_zero) /\
  (is_negative (Number r) = true -> retentionDays r = pos_zero) /\
  (is_zero (Number r) = true -> retentionDays r = pos_zero) /\
  (is_nan (Number r) = false -> is_negative (Number r) = false ->
   is_zero (Number r) = false -> retentionDays r = Number r) /\
  retentionDays (js "abc") = pos_zero /\
  retentionDays (js "-5") = pos_zero /\
  retentionDays (js "30") = number_of_Z 30.
Proof.
  unfold retentionDays. rewrite Math_max_or_zero.
  destruct (Number r) as [[|]|[|]| |[|] m e]; simpl;
    repeat split; intros; try reflexivity; try discriminate.
Qed.

Lemma retentionDays_coercion_witness :
  retentionDays (js "abc") = pos_zero /\
  retentionDays (js "-5") = pos_zero /\
  retentionDays (js "-0") = pos_zero /\
  retentionDays (js "1.5") = Number (js "1.5").
Proof.
  split; [|split; [|split]].
  - apply (proj1 (proj2 (proj2 (retentionDays_coercion (js "abc"))))).
    vm_compute. reflexivity.
  - apply (proj1 (proj2 (proj2 (proj2 (retentionDays_coercion (js "-5")))))).
    vm_compute. reflexivity.
  - apply (proj1 (proj2 (proj2 (proj2 (proj2
             (retentionDays_coercion (js "-0"))))))).
    vm_compute. reflexivity.
  - apply (proj1 (proj2 (proj2 (proj2 (proj2 (proj2
             (retentionDays_coercion (js "1.5")))))))).
    + vm_compute. reflexivity.
    + vm_compute. reflexivity.
    + vm_compute. reflexivity.
Defined.

(* ===================================================================== *)
(** * Rounding to binary64: lemmas *)
(* ===================================================================== *)

Section Rounding.

Local Abbreviation fexp := (SpecFloat.fexp prec emax).
Local Abbreviation emin := (SpecFloat.emin prec emax).

Lemma digits2_pos_size (p : positive) : digits2_pos p = Pos.size p.
Proof. induction p; simpl; congruence. Qed.

Lemma D_bounds (p : positive) : 2 ^ (D p - 1) <= Z.pos p < 2 ^ D p.
Proof.
  unfold D. rewrite digits2_pos_size.
  pose proof (Pos.size_gt p) as Hgt.
  pose proof (Pos.size_le p) as Hle.
  split.
  - assert (H : (2 ^ Pos.size p <= p~0)%positive) by exact Hle.
    apply Pos2Z.pos_le_pos in H. rewrite Pos2Z.inj_pow in H.
    change (Z.pos p~0) with (2 * Z.pos p) in H.
    replace (Z.pos (Pos.size p)) with (Z.succ (Z.pos (Pos.size p) - 1)) in H by lia.
    rewrite Z.pow_succ_r in H by lia. lia.
  - apply Pos2Z.pos_lt_pos in Hgt. now rewrite Pos2Z.inj_pow in Hgt.
Qed.

Lemma D_pos (p : positive) : 0 < D p.
Proof. unfold D. lia. Qed.

Lemma pow2_lt_inv (a b : Z) : 0 <= b -> 2 ^ a < 2 ^ b -> a < b.
Proof.
  intros Hb H. destruct (Z.lt_ge_cases a b) as [|Hge]; [assumption|].
  exfalso. assert (2 ^ b <= 2 ^ a) by (apply Z.pow_le_mono_r; lia). lia.
Qed.

Lemma D_unique (p : positive) (d : Z) :
  2 ^ (d - 1) <= Z.pos p < 2 ^ d -> D p = d.
Proof.
  intros [Hlo Hhi]. pose proof (D_bounds p) as [Blo Bhi].
  pose proof (D_pos p) as HD.
  assert (Hd : 0 < d).
  { destruct (Z.lt_ge_cases 0 d) as [|Hle]; [assumption|].
    exfalso. destruct (Z.eq_dec d 0) as [->|Hne].
    - simpl in Hhi. lia.
    - rewrite (Z.pow_neg_r 2 d) in Hhi by lia. lia. }
  assert (H1 : D p - 1 < d) by (apply pow2_lt_inv; lia).
  assert (H2 : d - 1 < D p) by (apply pow2_lt_inv; lia).
  lia.
Qed.

Lemma D_mul_pow2 (p : positive) (j : Z) :
  0 <= j -> D (Z.to_pos (Z.pos p * 2 ^ j)) = D p + j.
Proof.
  intros Hj. apply D_unique.
  pose proof (D_bounds p) as [Blo Bhi]. pose proof (D_pos p) as HD.
  assert (Hp : 0 < 2 ^ j) by (apply Z.pow_pos_nonneg; lia).
  rewrite Z2Pos.id by nia.
  replace (D p + j - 1) with ((D p - 1) + j) by lia.
  rewrite !Z.pow_add_r by lia. nia.
Qed.

(** ** Shifting right *)

Lemma iter_pos_nat {A : Type} (f : A -> A) (p : positive) (x : A) :
  iter_pos f p x = Nat.iter (Pos.to_nat p) f x.
Proof.
  revert x. induction p as [p IH|p IH|]; intros x; cbn [iter_pos].
  - rewrite !IH, Pos2Nat.inj_xI, Nat.iter_succ_r.
    replace (2 * Pos.to_nat p)%nat with (Pos.to_nat p + Pos.to_nat p)%nat by lia.
    now rewrite Nat.iter_add.
  - rewrite !IH, Pos2Nat.inj_xO.
    replace (2 * Pos.to_nat p)%nat with (Pos.to_nat p + Pos.to_nat p)%nat by lia.
    now rewrite Nat.iter_add.
  - reflexivity.
Qed.

Lemma shr_1_m (mrs : shr_record) :
  0 <= shr_m mrs -> shr_m (shr_1 mrs) = shr_m mrs / 2.
Proof.
  destruct mrs as [m r s]. simpl. intros Hm.
  destruct m as [|[p|p|]|p]; simpl; try reflexivity; try lia.
  - rewrite Pos2Z.inj_xI. Z.to_euclidean_division_equations. lia.
  - rewrite Pos2Z.inj_xO. Z.to_euclidean_division_equations. lia.
Qed.

Lemma shr_iter_m (n : nat) (mrs : shr_record) :
  0 <= shr_m mrs ->
  shr_m (Nat.iter n shr_1 mrs) = shr_m mrs / 2 ^ Z.of_nat n.
Proof.
  intros Hm. induction n as [|n IH].
  - simpl. now rewrite Z.div_1_r.
  - rewrite Nat2Z.inj_succ, Z.pow_succ_r by lia. simpl Nat.iter.
    rewrite shr_1_m.
    + rewrite IH. rewrite Z.div_div by (try lia; apply Z.pow_pos_nonneg; lia).
      f_equal. lia.
    + rewrite IH. apply Z.div_pos; [lia|apply Z.pow_pos_nonneg; lia].
Qed.

Lemma shr_iter_exact (n : nat) (m : Z) :
  0 <= m ->
  Nat.iter n shr_1 (Build_shr_record (m * 2 ^ Z.of_nat n) false false) =
  Build_shr_record m false false.
Proof.
  intros Hm. induction n as [|n IH].
  - simpl. now rewrite Z.mul_1_r.
  - rewrite Nat2Z.inj_succ, Z.pow_succ_r by lia.
    rewrite Nat.iter_succ_r.
    replace (m * (2 * 2 ^ Z.of_nat n)) with (2 * (m * 2 ^ Z.of_nat n)) by lia.
    assert (E : shr_1 (Build_shr_record (2 * (m * 2 ^ Z.of_nat n)) false false) =
                Build_shr_record (m * 2 ^ Z.of_nat n) false false).
    { assert (0 <= m * 2 ^ Z.of_nat n) by (apply Z.mul_nonneg_nonneg; [lia|apply Z.pow_nonneg; lia]).
      destruct (m * 2 ^ Z.of_nat n) as [|q|q]; simpl; try reflexivity; lia. }
    rewrite E. exact IH.
Qed.

Lemma shr_exact (m e j : Z) :
  0 <= m -> 0 <= j ->
  shr (Build_shr_record (m * 2 ^ j) false false) e j =
  (Build_shr_record m false false, e + j).
Proof.
  intros Hm Hj. unfold shr. destruct j as [|p|p]; try lia.
  - now rewrite Z.mul_1_r, Z.add_0_r.
  - rewrite iter_pos_nat.
    rewrite <- (positive_nat_Z p) at 1.
    now rewrite shr_iter_exact.
Qed.

Lemma shr_spec (mrs : shr_record) (e n : Z) :
  0 <= shr_m mrs ->
  shr_m (fst (shr mrs e n)) = shr_m mrs / 2 ^ Z.max 0 n /\
  snd (shr mrs e n) = e + Z.max 0 n.
Proof.
  intros Hm. unfold shr. destruct n as [|p|p]; simpl fst; simpl snd.
  - simpl. rewrite Z.div_1_r. lia.
  - rewrite iter_pos_nat, shr_iter_m by assumption.
    rewrite positive_nat_Z. replace (Z.max 0 (Z.pos p)) with (Z.pos p) by lia.
    split; reflexivity.
  - replace (Z.max 0 (Z.neg p)) with 0 by lia. simpl. rewrite Z.div_1_r. lia.
Qed.

Lemma bounded_canonical (m : positive) (e : Z) :
  bounded prec emax m e = true ->
  fexp (D m + e) = e /\ e <= emax - prec.
Proof.
  unfold bounded, canonical_mantissa, D. intros H.
  apply andb_prop in H. destruct H as [H1 H2].
  apply Z.eqb_eq in H1. apply Z.leb_le in H2. now split.
Qed.

(** Rounding the integer [m * 2 ^ j] at the exponent [e - j] gives back
    the binary64 number [m * 2 ^ e]. *)
Lemma binary_round_aux_exact (s : bool) (m : positive) (e j : Z) :
  bounded prec emax m e = true -> 0 <= j ->
  binary_round_aux prec emax s (Z.pos m * 2 ^ j) (e - j) loc_Exact =
  S754_finite s m e.
Proof.
  intros Hb Hj. destruct (bounded_canonical m e Hb) as [Hc He].
  assert (Hq : Z.pos m * 2 ^ j = Z.pos (Z.to_pos (Z.pos m * 2 ^ j))).
  { rewrite Z2Pos.id; [reflexivity|].
    apply Z.mul_pos_pos; [lia|apply Z.pow_pos_nonneg; lia]. }
  unfold binary_round_aux, shr_fexp.
  assert (Hd : Zdigits2 (Z.pos m * 2 ^ j) = D m + j).
  { rewrite Hq. simpl Zdigits2. apply (D_mul_pow2 m j Hj). }
  rewrite Hd.
  replace (D m + j + (e - j)) with (D m + e) by lia.
  rewrite Hc. replace (e - (e - j)) with j by lia.
  cbv beta iota delta [shr_record_of_loc].
  rewrite shr_exact by lia.
  replace (e - j + j) with e by lia.
  cbv beta iota zeta delta
    [shr_m loc_of_shr_record round_nearest_even shr_record_of_loc Zdigits2].
  fold (D m). rewrite Hc, Z.sub_diag.
  cbv beta iota zeta delta [shr shr_m].
  apply Z.leb_le in He. now rewrite He.
Qed.

Lemma fexp_mono (a b : Z) : a <= b -> fexp a <= fexp b.
Proof. unfold SpecFloat.fexp. lia. Qed.

Lemma div_eucl_exact (q d : Z) : 0 < d -> Z.div_eucl (q * d) d = (q, 0).
Proof.
  intros Hd.
  rewrite (surjective_pairing (Z.div_eucl (q * d) d)).
  change (fst (Z.div_eucl (q * d) d)) with (q * d / d).
  change (snd (Z.div_eucl (q * d) d)) with ((q * d) mod d).
  rewrite Z.div_mul, Z.mod_mul by lia. reflexivity.
Qed.

Lemma new_location_exact (d : Z) : new_location d 0 = loc_Exact.
Proof. unfold new_location. destruct (Z.even d); reflexivity. Qed.

(** A quotient that is the binary64 number [m * 2 ^ e] rounds to it. *)
Lemma round_ratio_exact (s : bool) (m : positive) (e : Z) (num den : positive) :
  bounded prec emax m e = true ->
  Z.pos num * 2 ^ Z.max 0 (- e) = Z.pos m * 2 ^ Z.max 0 e * Z.pos den ->
  round_ratio s num den = S754_finite s m e.
Proof.
  intros Hb Hq. destruct (bounded_canonical m e Hb) as [Hc He].
  pose proof (D_bounds num) as [Nlo Nhi]. pose proof (D_pos num) as HN.
  pose proof (D_bounds den) as [Dlo Dhi]. pose proof (D_pos den) as HDd.
  pose proof (D_bounds m) as [Mlo Mhi]. pose proof (D_pos m) as HM.
  set (a := Z.max 0 (- e)) in *. set (b := Z.max 0 e) in *.
  assert (Ha : 0 <= a) by lia. assert (Hb' : 0 <= b) by lia.
  assert (Hab : b - a = e) by lia.
  assert (Pa : 0 < 2 ^ a) by (apply Z.pow_pos_nonneg; lia).
  assert (Pb : 0 < 2 ^ b) by (apply Z.pow_pos_nonneg; lia).
  (* the digits of the quotient *)
  assert (Hdig : D num - D den <= D m + e).
  { assert (H1 : 2 ^ (D num - 1 + a) <= Z.pos num * 2 ^ a).
    { rewrite Z.pow_add_r by lia. nia. }
    assert (H2 : Z.pos m * 2 ^ b * Z.pos den < 2 ^ (D m + b + D den)).
    { rewrite !Z.pow_add_r by lia.
      apply Z.mul_lt_mono_nonneg; try lia.
      apply Z.mul_lt_mono_pos_r; lia. }
    assert (H3 : D num - 1 + a < D m + b + D den) by (apply pow2_lt_inv; lia).
    lia. }
  unfold round_ratio, SFdiv, SFdiv_core_binary.
  change (Zdigits2 (Z.pos num)) with (D num).
  change (Zdigits2 (Z.pos den)) with (D den).
  rewrite !Z.add_0_r, Z.sub_diag.
  set (g := fexp (D num - D den)).
  assert (Hg : g <= e).
  { unfold g. rewrite <- Hc. now apply fexp_mono. }
  set (e' := Z.min g 0).
  assert (He' : e' <= e /\ e' <= 0) by (unfold e'; lia).
  set (j := e - e').
  assert (Hj : 0 <= j) by (unfold j; lia).
  assert (Hm' : match 0 - e' with
                | 0 => Z.pos num
                | Z.pos _ => Z.shiftl (Z.pos num) (0 - e')
                | Z.neg _ => 0
                end = Z.pos m * 2 ^ j * Z.pos den).
  { assert (E : Z.pos num * 2 ^ (0 - e') = Z.pos m * 2 ^ j * Z.pos den).
    { unfold j. destruct (Z.le_ge_cases 0 e) as [Hpos|Hneg].
      - assert (a = 0) by lia. assert (b = e) by lia.
        replace (2 ^ a) with 1 in Hq by (now subst a; rewrite H).
        replace (e - e') with (b + (0 - e')) by lia.
        rewrite Z.pow_add_r by lia. nia.
      - assert (a = - e) by lia. assert (b = 0) by lia.
        replace (2 ^ b) with 1 in Hq by (now subst b; rewrite H0).
        replace (0 - e') with (a + (e - e')) by lia.
        rewrite Z.pow_add_r by lia. nia. }
    revert E. destruct (0 - e') as [|p|p] eqn:Ez; intros E; try lia.
    now rewrite Z.shiftl_mul_pow2 by lia. }
  rewrite Hm', div_eucl_exact by lia.
  rewrite new_location_exact, xorb_false_r.
  replace e' with (e - j) by (unfold j; lia).
  now apply binary_round_aux_exact.
Qed.

(** ** The result of rounding is a binary64 number *)

Lemma Zdigits2_nonneg (z : Z) : 0 <= Zdigits2 z.
Proof. destruct z; simpl; lia. Qed.

Lemma Zdigits2_bounds (z : Z) :
  0 < z -> 2 ^ (Zdigits2 z - 1) <= z < 2 ^ Zdigits2 z.
Proof. destruct z as [|p|p]; try lia. intros _. exact (D_bounds p). Qed.

Lemma Zdigits2_unique (z d : Z) :
  0 < z -> 2 ^ (d - 1) <= z < 2 ^ d -> Zdigits2 z = d.
Proof. destruct z as [|p|p]; try lia. intros _. exact (D_unique p d). Qed.

Lemma Zdigits2_mono (a b : Z) : 0 <= a <= b -> Zdigits2 a <= Zdigits2 b.
Proof.
  intros [Ha Hab]. destruct (Z.eq_dec a 0) as [->|Hne].
  - apply Zdigits2_nonneg.
  - pose proof (Zdigits2_bounds a ltac:(lia)) as [Alo _].
    pose proof (Zdigits2_bounds b ltac:(lia)) as [_ Bhi].
    pose proof (Zdigits2_nonneg b).
    assert (Zdigits2 a - 1 < Zdigits2 b) by (apply pow2_lt_inv; lia).
    lia.
Qed.

Lemma Zdigits2_div_pow2 (z n : Z) :
  0 <= z -> 0 <= n -> Zdigits2 (z / 2 ^ n) = Z.max 0 (Zdigits2 z - n).
Proof.
  intros Hz Hn.
  assert (Pn : 0 < 2 ^ n) by (apply Z.pow_pos_nonneg; lia).
  destruct (Z.lt_ge_cases z (2 ^ n)) as [Hlt|Hge].
  - rewrite Z.div_small by lia. simpl.
    destruct (Z.eq_dec z 0) as [->|Hne]; [simpl; lia|].
    pose proof (Zdigits2_bounds z ltac:(lia)) as [Zlo _].
    assert (Zdigits2 z - 1 < n) by (apply pow2_lt_inv; lia).
    lia.
  - pose proof (Zdigits2_bounds z ltac:(lia)) as [Zlo Zhi].
    pose proof (Zdigits2_nonneg z).
    assert (Hd : n < Zdigits2 z) by (apply pow2_lt_inv; lia).
    replace (Z.max 0 (Zdigits2 z - n)) with (Zdigits2 z - n) by lia.
    assert (Hq : 0 < z / 2 ^ n) by (apply Z.div_str_pos; lia).
    apply Zdigits2_unique; [assumption|]. split.
    + apply Z.div_le_lower_bound; [lia|].
      rewrite <- Z.pow_add_r by lia.
      replace (n + (Zdigits2 z - n - 1)) with (Zdigits2 z - 1) by lia.
      assumption.
    + apply Z.div_lt_upper_bound; [lia|].
      rewrite <- Z.pow_add_r by lia.
      replace (n + (Zdigits2 z - n)) with (Zdigits2 z) by lia.
      assumption.
Qed.

Lemma shr_m_record_of_loc (m : Z) (l : location) :
  shr_m (shr_record_of_loc m l) = m.
Proof. destruct l as [|[| |]]; reflexivity. Qed.

Lemma round_nearest_even_bounds (m : Z) (l : location) :
  m <= round_nearest_even m l <= m + 1.
Proof.
  unfold round_nearest_even. destruct l as [|[| |]]; try lia.
  destruct (Z.even m); lia.
Qed.

Lemma binary_round_aux_valid (sx : bool) (mx ex : Z) (lx : location) :
  0 <= mx -> ex <= fexp (Zdigits2 mx + ex) ->
  valid_binary prec emax (binary_round_aux prec emax sx mx ex lx) = true.
Proof.
  intros Hmx Hex. unfold binary_round_aux, shr_fexp.
  set (X := Zdigits2 mx + ex) in *.
  pose proof (shr_spec (shr_record_of_loc mx lx) ex (fexp X - ex)) as S1.
  rewrite shr_m_record_of_loc in S1. specialize (S1 Hmx).
  destruct (shr (shr_record_of_loc mx lx) ex (fexp X - ex)) as [mrs1 e1].
  simpl fst in S1. simpl snd in S1. destruct S1 as [Hm1 He1].
  replace (Z.max 0 (fexp X - ex)) with (fexp X - ex) in * by lia.
  assert (E1 : e1 = fexp X) by lia. clear He1.
  set (m1 := shr_m mrs1) in *.
  assert (Hm1pos : 0 <= m1).
  { rewrite Hm1. apply Z.div_pos; [lia|apply Z.pow_pos_nonneg; lia]. }
  set (m2 := round_nearest_even m1 (loc_of_shr_record mrs1)).
  pose proof (round_nearest_even_bounds m1 (loc_of_shr_record mrs1)) as Hm2.
  fold m2 in Hm2.
  assert (Hd1 : Zdigits2 m1 = Z.max 0 (Zdigits2 mx - (fexp X - ex))).
  { rewrite Hm1. apply Zdigits2_div_pow2; lia. }
  assert (Hn2 : e1 <= fexp (Zdigits2 m2 + e1)).
  { pose proof (Zdigits2_mono m1 m2 ltac:(lia)) as Hmono.
    rewrite E1 at 1. apply fexp_mono. unfold X in *. lia. }
  pose proof (shr_spec (shr_record_of_loc m2 loc_Exact) e1
                (fexp (Zdigits2 m2 + e1) - e1)) as S2.
  rewrite shr_m_record_of_loc in S2. specialize (S2 ltac:(lia)).
  destruct (shr (shr_record_of_loc m2 loc_Exact) e1
              (fexp (Zdigits2 m2 + e1) - e1)) as [mrs3 e3].
  simpl fst in S2. simpl snd in S2. destruct S2 as [Hm3 He3].
  replace (Z.max 0 (fexp (Zdigits2 m2 + e1) - e1))
    with (fexp (Zdigits2 m2 + e1) - e1) in * by lia.
  destruct (shr_m mrs3) as [|m3|m3] eqn:Em3; try reflexivity.
  destruct (e3 <=? emax - prec) eqn:Ee3; [|reflexivity].
  simpl valid_binary. unfold bounded, canonical_mantissa.
  rewrite Ee3, andb_true_r. apply Z.eqb_eq.
  assert (Hd3 : Zdigits2 (Z.pos m3) =
                Z.max 0 (Zdigits2 m2 - (fexp (Zdigits2 m2 + e1) - e1))).
  { rewrite Hm3. apply Zdigits2_div_pow2; lia. }
  simpl Zdigits2 in Hd3.
  assert (0 < Z.pos (digits2_pos m3)) by lia.
  replace (Z.pos (digits2_pos m3) + e3) with (Zdigits2 m2 + e1) by lia.
  lia.
Qed.

Lemma round_ratio_valid (s : bool) (num den : positive) :
  valid_binary prec emax (round_ratio s num den) = true.
Proof.
  unfold round_ratio, SFdiv, SFdiv_core_binary.
  change (Zdigits2 (Z.pos num)) with (D num).
  change (Zdigits2 (Z.pos den)) with (D den).
  rewrite !Z.add_0_r, Z.sub_diag.
  pose proof (D_bounds num) as [Nlo Nhi]. pose proof (D_pos num) as HN.
  pose proof (D_bounds den) as [Dlo Dhi]. pose proof (D_pos den) as HDd.
  set (g := fexp (D num - D den)).
  set (e' := Z.min g 0).
  assert (He' : e' <= g /\ e' <= 0) by (unfold e'; lia).
  set (t := 0 - e').
  assert (Ht : 0 <= t) by (unfold t; lia).
  assert (Hm' : match t with
                | 0 => Z.pos num
                | Z.pos _ => Z.shiftl (Z.pos num) t
                | Z.neg _ => 0
                end = Z.pos num * 2 ^ t).
  { destruct t as [|p|p] eqn:Et; try lia.
    now rewrite Z.shiftl_mul_pow2 by lia. }
  rewrite Hm'.
  rewrite (surjective_pairing (Z.div_eucl (Z.pos num * 2 ^ t) (Z.pos den))).
  change (fst (Z.div_eucl (Z.pos num * 2 ^ t) (Z.pos den)))
    with (Z.pos num * 2 ^ t / Z.pos den).
  set (q := Z.pos num * 2 ^ t / Z.pos den).
  assert (Pt : 0 < 2 ^ t) by (apply Z.pow_pos_nonneg; lia).
  assert (Hq : 0 <= q) by (apply Z.div_pos; nia).
  apply binary_round_aux_valid; [assumption|].
  destruct (Z.le_gt_cases e' emin) as [Hle|Hgt].
  - unfold SpecFloat.fexp. fold emin. lia.
  - assert (Hg : g = D num - D den - prec).
    { unfold g, SpecFloat.fexp in *. fold emin in *. lia. }
    assert (Hbig : prec <= D num - D den + t) by (unfold t; lia).
    assert (Hlow : 2 ^ (D num - 1 + t - D den) <= q).
    { apply Z.div_le_lower_bound; [lia|].
      assert (E : 2 ^ (D num - 1 + t) =
                  2 ^ D den * 2 ^ (D num - 1 + t - D den)).
      { rewrite <- Z.pow_add_r by (unfold prec in *; lia). f_equal. lia. }
      assert (H1 : 2 ^ (D num - 1 + t) <= Z.pos num * 2 ^ t).
      { rewrite Z.pow_add_r by lia. nia. }
      assert (P : 0 < 2 ^ (D num - 1 + t - D den)).
      { apply Z.pow_pos_nonneg; unfold prec in *; lia. }
      nia. }
    assert (P : 0 < 2 ^ (D num - 1 + t - D den)).
    { apply Z.pow_pos_nonneg; unfold prec in *; lia. }
    pose proof (Zdigits2_bounds q ltac:(lia)) as [_ Qhi].
    pose proof (Zdigits2_nonneg q).
    assert (D num - 1 + t - D den < Zdigits2 q) by (apply pow2_lt_inv; lia).
    apply Z.le_trans with (m := g); [lia|].
    unfold g. apply fexp_mono. unfold t in *. lia.
Qed.

End Rounding.

(* ===================================================================== *)
(** * Decimal digits: lemmas *)
(* ===================================================================== *)

Lemma decimal_value_fold (d : jsstring) (acc : N) :
  fold_left (fun a c => (a * 10 + (c - 48))%N) d acc =
  (acc * 10 ^ N.of_nat (List.length d) + decimal_value d)%N.
Proof.
  unfold decimal_value. revert acc.
  induction d as [|c t IH]; intros acc.
  - simpl. lia.
  - cbn [fold_left List.length]. rewrite IH, (IH (0 * 10 + (c - 48))%N).
    rewrite Nat2N.inj_succ, N.pow_succ_r'. lia.
Qed.

Lemma decimal_value_app (a b : jsstring) :
  decimal_value (a ++ b) =
  (decimal_value a * 10 ^ N.of_nat (List.length b) + decimal_value b)%N.
Proof.
  unfold decimal_value at 1. rewrite fold_left_app.
  fold (decimal_value a). apply decimal_value_fold.
Qed.

Lemma decimal_value_zeros (k : nat) : decimal_value (repeat 48%N k) = 0%N.
Proof.
  induction k as [|k IH]; [reflexivity|].
  change (repeat 48%N (S k)) with ([48%N] ++ repeat 48%N k).
  rewrite decimal_value_app, IH. reflexivity.
Qed.

Lemma digits_of_fuel_acc (fuel : nat) (n : N) (acc : jsstring) :
  digits_of_fuel fuel n acc = digits_of_fuel fuel n [] ++ acc.
Proof.
  revert n acc. induction fuel as [|f IH]; intros n acc; simpl.
  - reflexivity.
  - destruct n as [|p]; [reflexivity|].
    rewrite IH, (IH _ [_]). now rewrite <- app_assoc.
Qed.

Lemma digits_of_fuel_zero (fuel : nat) (acc : jsstring) :
  digits_of_fuel fuel 0 acc = acc.
Proof. destruct fuel; reflexivity. Qed.

Lemma isDigit_digit (r : N) : (r < 10)%N -> isDigit (48 + r) = true.
Proof.
  intros H. unfold isDigit.
  apply andb_true_intro. split; apply N.leb_le; lia.
Qed.

Lemma digits_of_fuel_spec (fuel : nat) (n : N) :
  (n < 2 ^ N.of_nat fuel)%N ->
  decimal_value (digits_of_fuel fuel n []) = n /\
  forallb isDigit (digits_of_fuel fuel n []) = true /\
  (n <> 0%N -> leading_digit (digits_of_fuel fuel n [])).
Proof.
  revert n. induction fuel as [|f IH]; intros n Hn.
  - simpl in Hn. assert (n = 0%N) by lia. subst n. simpl.
    repeat split. congruence.
  - destruct n as [|p]; [simpl; repeat split; congruence|].
    cbn [digits_of_fuel]. rewrite digits_of_fuel_acc.
    set (n := N.pos p) in *.
    assert (Hq : (n / 10 < 2 ^ N.of_nat f)%N).
    { rewrite Nat2N.inj_succ, N.pow_succ_r' in Hn.
      assert (n / 10 <= n / 2)%N by (zify; Z.to_euclidean_division_equations; lia).
      assert (n / 2 < 2 ^ N.of_nat f)%N by (apply N.Div0.div_lt_upper_bound; lia).
      lia. }
    destruct (IH _ Hq) as [Hv [Hd Hl]].
    assert (Hr : (n mod 10 < 10)%N) by (apply N.mod_upper_bound; lia).
    repeat split.
    + rewrite decimal_value_app, Hv. cbn [List.length decimal_value fold_left].
      zify. Z.to_euclidean_division_equations. lia.
    + rewrite forallb_app, Hd. cbn [forallb].
      now rewrite isDigit_digit.
    + intros _. destruct (N.eq_dec (n / 10) 0) as [E|E].
      * rewrite E, digits_of_fuel_zero. exists (48 + n mod 10)%N, [].
        split; [reflexivity|].
        assert (n mod 10 <> 0)%N.
        { unfold n in *. zify. Z.to_euclidean_division_equations. lia. }
        lia.
      * destruct (Hl E) as [c [t [Ec Hc]]]. rewrite Ec.
        exists c, (t ++ [(48 + n mod 10)%N]). split; [reflexivity|assumption].
Qed.

Lemma digits_of_spec (n : N) :
  decimal_value (digits_of n) = n /\
  forallb isDigit (digits_of n) = true /\
  (n <> 0%N -> leading_digit (digits_of n)).
Proof.
  apply digits_of_fuel_spec.
  pose proof (N.size_gt n) as H.
  rewrite Nat2N.inj_succ, N2Nat.id, N.pow_succ_r'. lia.
Qed.

Lemma decimal_of_spec (n : N) :
  decimal_value (decimal_of n) = n /\
  forallb isDigit (decimal_of n) = true /\
  decimal_of n <> [].
Proof.
  destruct n as [|p].
  - repeat split. discriminate.
  - destruct (digits_of_spec (N.pos p)) as [Hv [Hd Hl]].
    repeat split; try assumption.
    destruct (Hl ltac:(discriminate)) as [c [t [E _]]].
    unfold decimal_of. rewrite E. discriminate.
Qed.

Lemma span_digits_app (d rest : jsstring) :
  forallb isDigit d = true -> no_digit_ahead rest = true ->
  span_digits (d ++ rest) = (d, rest).
Proof.
  intros Hd Hr. induction d as [|c t IH]; simpl.
  - destruct rest as [|c r]; [reflexivity|].
    simpl in Hr. apply negb_true_iff in Hr. simpl. now rewrite Hr.
  - simpl in Hd. apply andb_prop in Hd. destruct Hd as [Hc Ht].
    now rewrite Hc, (IH Ht).
Qed.

(* ===================================================================== *)
(** * Numbers: parsing what [Number::toString] writes *)
(* ===================================================================== *)

Lemma ends_token_no_digit (rest : jsstring) :
  ends_token rest = true -> no_digit_ahead rest = true.
Proof.
  destruct rest as [|c r]; [reflexivity|]. simpl.
  destruct (isDigit c); simpl; congruence.
Qed.

Lemma parse_int_app (d rest : jsstring) :
  forallb isDigit d = true ->
  (leading_digit d \/ exists c, d = [c]) ->
  no_digit_ahead rest = true ->
  parse_int (d ++ rest) = Some (d, rest).
Proof.
  intros Hd Hl Hr. unfold parse_int. rewrite span_digits_app by assumption.
  destruct Hl as [[c [t [-> Hc]]]|[c ->]].
  - destruct t; [reflexivity|].
    apply N.eqb_neq in Hc. now rewrite Hc.
  - reflexivity.
Qed.

Lemma parse_frac_app (d rest : jsstring) :
  forallb isDigit d = true -> d <> [] -> no_digit_ahead rest = true ->
  parse_frac (46%N :: d ++ rest) = Some (d, rest).
Proof.
  intros Hd Hn Hr. unfold parse_frac. rewrite span_digits_app by assumption.
  destruct d; [congruence|reflexivity].
Qed.

Lemma parse_frac_none (rest : jsstring) :
  ends_token rest = true -> parse_frac rest = Some ([], rest).
Proof.
  destruct rest as [|c r]; [reflexivity|]. simpl. intros H.
  apply negb_true_iff in H. apply orb_false_elim in H. destruct H as [H _].
  apply orb_false_elim in H. destruct H as [H _].
  apply orb_false_elim in H. destruct H as [_ H].
  apply N.eqb_neq in H.
  destruct c as [|p]; [reflexivity|].
  repeat (destruct p as [p|p|]; try reflexivity; try congruence).
Qed.

Lemma parse_exp_none (rest : jsstring) :
  ends_token rest = true -> parse_exp rest = Some (0, rest).
Proof.
  destruct rest as [|c r]; [reflexivity|]. simpl. intros H.
  apply negb_true_iff in H. apply orb_false_elim in H. destruct H as [H H69].
  apply orb_false_elim in H. destruct H as [_ H101].
  now rewrite H101, H69.
Qed.

Lemma parse_exp_app (e : Z) (rest : jsstring) :
  no_digit_ahead rest = true ->
  parse_exp (exponent_text e ++ rest) = Some (e, rest).
Proof.
  intros Hr. destruct (decimal_of_spec (Z.to_N (Z.abs e))) as [Hv [Hd Hn]].
  unfold exponent_text, parse_exp.
  set (d := decimal_of (Z.to_N (Z.abs e))) in *. clearbody d.
  destruct (e <? 0) eqn:He.
  - change ((js "e" ++ js "-" ++ d) ++ rest) with (101%N :: 45%N :: d ++ rest).
    cbv beta iota. change ((101 =? 101)%N || (101 =? 69)%N) with true.
    cbv iota. rewrite span_digits_app by assumption.
    destruct d as [|c t]; [congruence|].
    rewrite Hv. apply Z.ltb_lt in He. do 2 f_equal. lia.
  - change ((js "e" ++ js "+" ++ d) ++ rest) with (101%N :: 43%N :: d ++ rest).
    cbv beta iota. change ((101 =? 101)%N || (101 =? 69)%N) with true.
    cbv iota. rewrite span_digits_app by assumption.
    destruct d as [|c t]; [congruence|].
    rewrite Hv. apply Z.ltb_ge in He. do 2 f_equal. lia.
Qed.

Lemma decimal_to_number_scale (sign : bool) (M : N) (z : Z) :
  0 <= z ->
  decimal_to_number sign (M * 10 ^ Z.to_N z) 0 = decimal_to_number sign M z.
Proof.
  intros Hz. unfold decimal_to_number.
  assert (P : (0 < 10 ^ Z.to_N z)%N) by (apply N.neq_0_lt_0, N.pow_nonzero; lia).
  destruct M as [|p].
  - reflexivity.
  - destruct (N.pos p * 10 ^ Z.to_N z)%N as [|q] eqn:E; [lia|].
    change (0 <=? 0) with true. cbv iota.
    apply Z.leb_le in Hz. rewrite Hz. f_equal.
    rewrite Z.pow_0_r, Z.mul_1_r.
    assert (H : Z.pos q = Z.pos p * 10 ^ z).
    { apply Z.leb_le in Hz.
      change (Z.pos q) with (Z.of_N (N.pos q)). rewrite <- E.
      rewrite N2Z.inj_mul, N2Z.inj_pow, Z2N.id by lia. reflexivity. }
    now rewrite <- H.
Qed.

Lemma leading_digit_app (d t : jsstring) :
  leading_digit d -> leading_digit (d ++ t).
Proof. intros [c [r [-> Hc]]]. exists c, (r ++ t). now split. Qed.

Lemma leading_digit_firstn (d : jsstring) (n : nat) :
  (0 < n)%nat -> leading_digit d -> leading_digit (firstn n d).
Proof.
  intros Hn [c [r [-> Hc]]]. destruct n as [|n]; [lia|].
  exists c, (firstn n r). now split.
Qed.

Lemma forallb_repeat_zero (k : nat) : forallb isDigit (repeat 48%N k) = true.
Proof. induction k; simpl; auto. Qed.

Lemma forallb_firstn {A : Type} (f : A -> bool) (n : nat) (l : list A) :
  forallb f l = true -> forallb f (firstn n l) = true.
Proof.
  intros H. rewrite <- (firstn_skipn n l), forallb_app in H.
  now apply andb_prop in H.
Qed.

Lemma forallb_skipn {A : Type} (f : A -> bool) (n : nat) (l : list A) :
  forallb f l = true -> forallb f (skipn n l) = true.
Proof.
  intros H. rewrite <- (firstn_skipn n l), forallb_app in H.
  now apply andb_prop in H.
Qed.

Lemma no_digit_ahead_exponent (e : Z) (rest : jsstring) :
  no_digit_ahead (exponent_text e ++ rest) = true.
Proof. reflexivity. Qed.

(** Parsing what [format_decimal] writes gives the digits written and
    their exponent. *)
Lemma parse_unsigned_format (sign : bool) (digs : jsstring) (n : Z)
  (rest : jsstring) :
  forallb isDigit digs = true -> leading_digit digs ->
  ends_token rest = true ->
  parse_unsigned sign (format_decimal digs n ++ rest) =
  Some (decimal_to_number sign (decimal_value digs)
          (n - Z.of_nat (List.length digs)), rest).
Proof.
  intros Hd Hl Hr.
  pose proof (ends_token_no_digit rest Hr) as Hnd.
  unfold format_decimal, parse_unsigned.
  set (k := Z.of_nat (List.length digs)).
  assert (Hk : 0 < k).
  { destruct Hl as [c [t [-> _]]]. unfold k. simpl List.length. lia. }
  destruct ((k <=? n) && (n <=? 21)) eqn:Ca.
  - (* the digits and zeros *)
    apply andb_prop in Ca. destruct Ca as [Ca _]. apply Z.leb_le in Ca.
    rewrite parse_int_app; try assumption.
    + rewrite parse_frac_none, parse_exp_none by assumption.
      rewrite app_nil_r, decimal_value_app, decimal_value_zeros, N.add_0_r.
      rewrite repeat_length, Z_nat_N.
      change (0 - Z.of_nat (List.length (@nil N))) with 0.
      now rewrite decimal_to_number_scale by lia.
    + rewrite forallb_app, Hd. apply forallb_repeat_zero.
    + left. now apply leading_digit_app.
  - destruct ((0 <? n) && (n <=? 21)) eqn:Cb.
    + (* the point inside the digits *)
      apply andb_prop in Cb. destruct Cb as [Cb Cb']. apply Z.ltb_lt in Cb.
      apply Z.leb_le in Cb'.
      assert (Hnk : n < k).
      { apply andb_false_iff in Ca. destruct Ca as [Ca|Ca].
        - apply Z.leb_gt in Ca. lia.
        - apply Z.leb_gt in Ca. lia. }
      rewrite <- app_assoc.
      rewrite parse_int_app.
      * change (js "." ++ skipn (Z.to_nat n) digs)
          with (46%N :: skipn (Z.to_nat n) digs).
        rewrite <- app_comm_cons.
        rewrite parse_frac_app.
        -- rewrite parse_exp_none by assumption.
           rewrite firstn_skipn, length_skipn. do 3 f_equal. unfold k. lia.
        -- now apply forallb_skipn.
        -- intros E. apply (f_equal (@List.length N)) in E.
           rewrite length_skipn in E. simpl in E. unfold k in Hnk. lia.
        -- assumption.
      * now apply forallb_firstn.
      * left. apply leading_digit_firstn; [lia|assumption].
      * reflexivity.
    + destruct ((-6 <? n) && (n <=? 0)) eqn:Cc.
      * (* zeros behind the point *)
        apply andb_prop in Cc. destruct Cc as [_ Cc]. apply Z.leb_le in Cc.
        change ((js "0." ++ repeat 48%N (Z.to_nat (- n)) ++ digs) ++ rest)
          with ([48%N] ++
                46%N :: (repeat 48%N (Z.to_nat (- n)) ++ digs) ++ rest).
        rewrite parse_int_app.
        -- rewrite parse_frac_app.
           ++ rewrite parse_exp_none by assumption.
              change ([48%N] ++ repeat 48%N (Z.to_nat (- n)) ++ digs)
                with (repeat 48%N (S (Z.to_nat (- n))) ++ digs).
              rewrite decimal_value_app, decimal_value_zeros.
              rewrite length_app, repeat_length.
              do 3 f_equal. unfold k. lia.
           ++ rewrite forallb_app, Hd. now rewrite forallb_repeat_zero.
           ++ destruct Hl as [c [t [-> _]]].
              destruct (repeat 48%N (Z.to_nat (- n))); discriminate.
           ++ assumption.
        -- reflexivity.
        -- right. now exists 48%N.
        -- reflexivity.
      * (* exponent notation *)
        destruct Hl as [c [t [-> Hc]]].
        simpl in Hd. apply andb_prop in Hd. destruct Hd as [Hdc Hdt].
        destruct t as [|d ds].
        -- rewrite <- app_assoc. rewrite parse_int_app.
           ++ change (parse_frac (exponent_text (n - 1) ++ rest))
                with (Some (@nil N, exponent_text (n - 1) ++ rest)).
              cbv beta iota. rewrite parse_exp_app by assumption.
              rewrite app_nil_r. do 3 f_equal. unfold k. simpl. lia.
           ++ simpl. now rewrite Hdc.
           ++ right. now exists c.
           ++ apply no_digit_ahead_exponent.
        -- change (([c] ++ js "." ++ (d :: ds) ++ exponent_text (n - 1)) ++ rest)
             with ([c] ++ 46%N :: ((d :: ds) ++ exponent_text (n - 1)) ++ rest).
           rewrite parse_int_app.
           ++ rewrite <- app_assoc. rewrite parse_frac_app.
              ** rewrite parse_exp_app by assumption.
                 do 3 f_equal. unfold k. cbn [List.length]. lia.
              ** assumption.
              ** discriminate.
              ** apply no_digit_ahead_exponent.
           ++ simpl. now rewrite Hdc.
           ++ right. now exists c.
           ++ reflexivity.
Qed.

(** ** The digits [Number::toString] chooses round back *)

Lemma binary_round_aux_sign (s : bool) (mx ex : Z) (lx : location) :
  binary_round_aux prec emax s mx ex lx =
  set_sign s (binary_round_aux prec emax false mx ex lx).
Proof.
  unfold binary_round_aux.
  destruct (shr_fexp prec emax mx ex lx) as [mrs1 e1].
  destruct (shr_fexp prec emax _ e1 loc_Exact) as [mrs2 e2].
  destruct (shr_m mrs2); try reflexivity.
  destruct (e2 <=? emax - prec); reflexivity.
Qed.

Lemma round_ratio_sign (s : bool) (num den : positive) :
  round_ratio s num den = set_sign s (round_ratio false num den).
Proof.
  unfold round_ratio, SFdiv.
  destruct (SFdiv_core_binary prec emax (Z.pos num) 0 (Z.pos den) 0)
    as [[mz ez] lz].
  rewrite xorb_false_r. apply binary_round_aux_sign.
Qed.

Lemma decimal_to_number_sign (s : bool) (M : N) (E : Z) :
  decimal_to_number s M E = set_sign s (decimal_to_number false M E).
Proof.
  unfold decimal_to_number. destruct M as [|p]; [reflexivity|].
  destruct (0 <=? E); apply round_ratio_sign.
Qed.

Lemma number_eqb_eq (a b : number) : number_eqb a b = true -> a = b.
Proof.
  destruct a as [s|s| |s m e], b as [s'|s'| |s' m' e']; simpl;
    try discriminate; try reflexivity.
  - intros H. apply eqb_prop in H. congruence.
  - intros H. apply eqb_prop in H. congruence.
  - intros H. apply andb_prop in H. destruct H as [H He].
    apply andb_prop in H. destruct H as [Hs Hm].
    apply eqb_prop in Hs. apply Pos.eqb_eq in Hm. apply Z.eqb_eq in He.
    congruence.
Qed.

Lemma digits_round_to_for (s : bool) (m : positive) (e : Z) (M : N) (n : Z) :
  digits_round_to (S754_finite s m e) (digits_of M) n = true ->
  digits_for (S754_finite s m e) (digits_of M, n).
Proof.
  unfold digits_round_to. intros H. apply number_eqb_eq in H.
  destruct (digits_of_spec M) as [Hv [Hd Hl]].
  repeat split; try assumption.
  apply Hl. intros ->. now rewrite Hv in H.
Qed.

Lemma shortest_at_for (s : bool) (m : positive) (e : Z) (num den n k : Z)
  (r : jsstring * Z) :
  shortest_at (S754_finite s m e) num den n k = Some r ->
  digits_for (S754_finite s m e) r.
Proof.
  unfold shortest_at.
  destruct (candidates num den n k) as [lo side]. cbv zeta.
  assert (Hc : forall z,
             rounds_back (S754_finite s m e) (candidate n k z) = true ->
             digits_for (S754_finite s m e) (candidate n k z)).
  { intros z. unfold rounds_back, candidate.
    destruct (z =? 10 ^ k); simpl fst; simpl snd; apply digits_round_to_for. }
  destruct (rounds_back (S754_finite s m e) (candidate n k lo)) eqn:Elo;
    destruct (rounds_back (S754_finite s m e) (candidate n k (lo + 1))) eqn:Ehi;
    intros H; try discriminate; injection H as <-.
  - destruct side; [destruct (Z.even lo)| |]; auto.
  - auto.
  - auto.
Qed.

Lemma shortest_from_for (fuel : nat) (s : bool) (m : positive) (e : Z)
  (num den n k : Z) (r : jsstring * Z) :
  shortest_from fuel (S754_finite s m e) num den n k = Some r ->
  digits_for (S754_finite s m e) r.
Proof.
  revert k. induction fuel as [|f IH]; intros k; simpl; [discriminate|].
  destruct (shortest_at (S754_finite s m e) num den n k) as [r'|] eqn:E.
  - intros H. injection H as <-. exact (shortest_at_for _ _ _ _ _ _ _ _ E).
  - apply IH.
Qed.

Lemma exact_digits_for (m : positive) (e : Z) :
  bounded prec emax m e = true ->
  digits_for (S754_finite false m e) (exact_digits m e).
Proof.
  intros Hb. unfold exact_digits, digits_for.
  destruct (0 <=? e) eqn:He; cbv beta iota zeta delta [fst snd].
  - apply Z.leb_le in He.
    assert (P : 0 < 2 ^ e) by (apply Z.pow_pos_nonneg; lia).
    destruct (digits_of_spec (Z.to_N (Z.pos m * 2 ^ e))) as [Hv [Hd Hl]].
    repeat split; [assumption|apply Hl; nia|].
    rewrite Hv, Z.sub_diag. unfold decimal_to_number.
    destruct (Z.to_N (Z.pos m * 2 ^ e)) as [|p] eqn:Ep; [nia|].
    change (0 <=? 0) with true. cbv iota.
    apply round_ratio_exact; [assumption|].
    rewrite Z.pow_0_r, Z.mul_1_r, Pos2Z.id.
    replace (Z.max 0 (- e)) with 0 by lia.
    replace (Z.max 0 e) with e by lia.
    rewrite Z.pow_0_r, !Z.mul_1_r.
    change (Z.pos p) with (Z.of_N (N.pos p)). rewrite <- Ep.
    rewrite Z2N.id by nia. reflexivity.
  - apply Z.leb_gt in He.
    assert (P : 0 < 5 ^ (- e)) by (apply Z.pow_pos_nonneg; lia).
    destruct (digits_of_spec (Z.to_N (Z.pos m * 5 ^ (- e)))) as [Hv [Hd Hl]].
    repeat split; [assumption|apply Hl; nia|].
    rewrite Hv.
    replace (Z.of_nat (List.length (digits_of (Z.to_N (Z.pos m * 5 ^ (- e))))) + e -
             Z.of_nat (List.length (digits_of (Z.to_N (Z.pos m * 5 ^ (- e))))))
      with e by lia.
    unfold decimal_to_number.
    destruct (Z.to_N (Z.pos m * 5 ^ (- e))) as [|p] eqn:Ep; [nia|].
    replace (0 <=? e) with false by (symmetry; apply Z.leb_gt; lia).
    apply round_ratio_exact; [assumption|].
    replace (Z.max 0 (- e)) with (- e) by lia.
    replace (Z.max 0 e) with 0 by lia.
    rewrite Z.pow_0_r, Z.mul_1_r.
    assert (P10 : 0 < 10 ^ (- e)) by (apply Z.pow_pos_nonneg; lia).
    rewrite Z2Pos.id by assumption.
    change (Z.pos p) with (Z.of_N (N.pos p)). rewrite <- Ep.
    rewrite Z2N.id by nia.
    change 10 with (5 * 2). rewrite Z.pow_mul_l. lia.
Qed.

Lemma shortest_digits_for (m : positive) (e : Z) :
  bounded prec emax m e = true ->
  digits_for (S754_finite false m e) (shortest_digits m e).
Proof.
  intros Hb. unfold shortest_digits.
  destruct (exact_ratio m e) as [num den].
  destruct (shortest_from 17 _ num den _ 1) as [r|] eqn:E.
  - exact (shortest_from_for _ _ _ _ _ _ _ _ _ E).
  - now apply exact_digits_for.
Qed.

(** ** Numbers that [JSON.stringify] writes and [JSON.parse] reads back *)

Lemma parse_number_toString (x : number) (rest : jsstring) :
  json_number_ok x = true -> ends_token rest = true ->
  parse_number (Number_toString x ++ rest) = Some (x, rest).
Proof.
  intros Hx Hr. destruct x as [[|]|s| |s m e]; try discriminate.
  - (* +0 *)
    change (Number_toString (S754_zero false) ++ rest) with ([48%N] ++ rest).
    unfold parse_number. cbn [app].
    change (48%N :: rest) with ([48%N] ++ rest).
    unfold parse_unsigned. rewrite parse_int_app.
    + now rewrite parse_frac_none, parse_exp_none by assumption.
    + reflexivity.
    + right. now exists 48%N.
    + now apply ends_token_no_digit.
  - (* finite *)
    simpl in Hx. unfold Number_toString.
    pose proof (shortest_digits_for m e Hx) as [Hd [Hl Hv]].
    destruct (shortest_digits m e) as [digs n]. simpl fst in *. simpl snd in *.
    pose proof (parse_unsigned_format s digs n rest Hd Hl Hr) as Hp.
    rewrite decimal_to_number_sign, Hv in Hp. simpl set_sign in Hp.
    destruct s.
    + change ((js "-" ++ format_decimal digs n) ++ rest)
        with (45%N :: format_decimal digs n ++ rest).
      exact Hp.
    + change (([] ++ format_decimal digs n) ++ rest)
        with (format_decimal digs n ++ rest).
      unfold parse_number.
      destruct (format_decimal digs n ++ rest) as [|c t] eqn:Et; [exact Hp|].
      destruct (N.eq_dec c 45) as [->|Hc].
      * exfalso. unfold parse_unsigned, parse_int in Hp. simpl in Hp.
        discriminate.
      * destruct c as [|p]; [exact Hp|].
        repeat (destruct p as [p|p|]; try exact Hp; try congruence).
Qed.

(* ===================================================================== *)
(** * Strings: parsing what [QuoteJSONString] writes *)
(* ===================================================================== *)

Lemma digit_value_hex_digit (d : N) :
  (d < 16)%N -> digit_value 16 (hex_digit d) = Some d.
Proof.
  intros Hd. unfold hex_digit, digit_value.
  destruct (N.ltb_spec d 10) as [H|H].
  - replace ((48 <=? 48 + d) && (48 + d <=? 57))%N with true
      by (symmetry; apply andb_true_intro; split; apply N.leb_le; lia).
    replace (48 + d - 48)%N with d by lia.
    now replace (d <? 16)%N with true by (symmetry; apply N.ltb_lt; lia).
  - replace ((48 <=? 87 + d) && (87 + d <=? 57))%N with false
      by (symmetry; apply andb_false_iff; right; apply N.leb_gt; lia).
    replace ((97 <=? 87 + d) && (87 + d <=? 102))%N with true
      by (symmetry; apply andb_true_intro; split; apply N.leb_le; lia).
    replace (87 + d - 87)%N with d by lia.
    now replace (d <? 16)%N with true by (symmetry; apply N.ltb_lt; lia).
Qed.

Lemma hex4_UnicodeEscape (c : N) :
  (c < 65536)%N ->
  hex4 (hex_digit (c / 4096 mod 16)) (hex_digit (c / 256 mod 16))
       (hex_digit (c / 16 mod 16)) (hex_digit (c mod 16)) = Some c.
Proof.
  intros Hc. unfold hex4.
  rewrite !digit_value_hex_digit by (apply N.mod_upper_bound; lia).
  f_equal. zify. Z.to_euclidean_division_equations. lia.
Qed.

Lemma parse_string_plain (c : N) (t : jsstring) :
  plain_unit c = true ->
  parse_string (c :: t) =
  match parse_string t with
  | Some (body, rest) => Some (c :: body, rest)
  | None => None
  end.
Proof.
  unfold plain_unit. intros H.
  apply andb_prop in H. destruct H as [H H32].
  apply andb_prop in H. destruct H as [H34 H92].
  apply negb_true_iff in H34, H92, H32.
  cbn [parse_string]. now rewrite H34, H92, H32.
Qed.

Lemma surrogate_plain (c : N) :
  isHighSurrogate c || isLowSurrogate c = true -> plain_unit c = true.
Proof.
  unfold isHighSurrogate, isLowSurrogate, plain_unit. intros H.
  assert (Hc : (55296 <= c)%N).
  { apply orb_prop in H. destruct H as [H|H]; apply andb_prop in H;
      destruct H as [H _]; apply N.leb_le in H; lia. }
  replace (c =? 34)%N with false by (symmetry; apply N.eqb_neq; lia).
  replace (c =? 92)%N with false by (symmetry; apply N.eqb_neq; lia).
  now replace (c <? 32)%N with false by (symmetry; apply N.ltb_ge; lia).
Qed.

Lemma surrogate_bound (c : N) :
  (c <? 32)%N || isHighSurrogate c || isLowSurrogate c = true ->
  (c < 65536)%N.
Proof.
  unfold isHighSurrogate, isLowSurrogate. intros H.
  apply orb_prop in H. destruct H as [H|H].
  - apply orb_prop in H. destruct H as [H|H].
    + apply N.ltb_lt in H. lia.
    + apply andb_prop in H. destruct H as [_ H]. apply N.leb_le in H. lia.
  - apply andb_prop in H. destruct H as [_ H]. apply N.leb_le in H. lia.
Qed.

Lemma parse_string_quote_unit (c : N) (t body rest : jsstring) :
  parse_string t = Some (body, rest) ->
  parse_string (quote_unit c ++ t) = Some (c :: body, rest).
Proof.
  intros Ht. unfold quote_unit.
  destruct (N.eqb_spec c 8) as [->|H8]; [cbn; now rewrite Ht|].
  destruct (N.eqb_spec c 9) as [->|H9]; [cbn; now rewrite Ht|].
  destruct (N.eqb_spec c 10) as [->|H10]; [cbn; now rewrite Ht|].
  destruct (N.eqb_spec c 12) as [->|H12]; [cbn; now rewrite Ht|].
  destruct (N.eqb_spec c 13) as [->|H13]; [cbn; now rewrite Ht|].
  destruct (N.eqb_spec c 34) as [->|H34]; [cbn; now rewrite Ht|].
  destruct (N.eqb_spec c 92) as [->|H92]; [cbn; now rewrite Ht|].
  destruct ((c <? 32)%N || isHighSurrogate c || isLowSurrogate c) eqn:E.
  - pose proof (hex4_UnicodeEscape c (surrogate_bound c E)) as Hh.
    unfold UnicodeEscape.
    cbn [app parse_string].
    change (92 =? 34)%N with false. change (92 =? 92)%N with true.
    change (117 =? 34)%N with false. change (117 =? 92)%N with false.
    change (117 =? 47)%N with false. change (117 =? 98)%N with false.
    change (117 =? 102)%N with false. change (117 =? 110)%N with false.
    change (117 =? 114)%N with false. change (117 =? 116)%N with false.
    change (117 =? 117)%N with true. cbv iota.
    now rewrite Hh, Ht.
  - apply orb_false_elim in E. destruct E as [E _].
    apply orb_false_elim in E. destruct E as [E _].
    cbn [app]. rewrite parse_string_plain, Ht; [reflexivity|].
    unfold plain_unit. rewrite E.
    apply N.eqb_neq in H34, H92. now rewrite H34, H92.
Qed.

Lemma parse_string_quote_units_len (n : nat) (s rest : jsstring) :
  (List.length s <= n)%nat ->
  parse_string (quote_units s ++ 34%N :: rest) = Some (s, rest).
Proof.
  revert s. induction n as [|n IH]; intros s Hn.
  - destruct s; [reflexivity|simpl in Hn; lia].
  - destruct s as [|c t]; [reflexivity|].
    cbn [quote_units]. destruct t as [|d t'].
    + now apply parse_string_quote_unit.
    + destruct (isHighSurrogate c && isLowSurrogate d) eqn:E.
      * apply andb_prop in E. destruct E as [Ec Ed].
        cbn [app].
        rewrite parse_string_plain
          by (apply surrogate_plain; now rewrite Ec).
        rewrite parse_string_plain
          by (apply surrogate_plain; rewrite Ed; apply orb_true_r).
        rewrite IH; [reflexivity|]. simpl in Hn. lia.
      * rewrite <- app_assoc. apply parse_string_quote_unit.
        apply IH. simpl in Hn. simpl. lia.
Qed.

Lemma parse_string_QuoteJSONString (s rest : jsstring) :
  exists t, QuoteJSONString s ++ rest = 34%N :: t /\
            parse_string t = Some (s, rest).
Proof.
  exists (quote_units s ++ 34%N :: rest). split.
  - unfold QuoteJSONString. cbn [app]. now rewrite <- app_assoc.
  - now apply parse_string_quote_units_len with (n := List.length s).
Qed.

(* ===================================================================== *)
(** * Values: parsing what [JSON.stringify] writes *)
(* ===================================================================== *)

Lemma json_induction (P : json -> Prop) :
  P JNull ->
  (forall b, P (JBool b)) ->
  (forall x, P (JNumber x)) ->
  (forall s, P (JString s)) ->
  (forall l, Forall P l -> P (JArray l)) ->
  (forall l, Forall (fun kv => P (snd kv)) l -> P (JObject l)) ->
  forall v, P v.
Proof.
  intros HN HB HX HS HA HO. fix IH 1. intros [|b|x|s|l|l].
  - exact HN.
  - apply HB.
  - apply HX.
  - apply HS.
  - apply HA. induction l as [|v l IHl]; constructor; [apply IH|exact IHl].
  - apply HO. induction l as [|[k v] l IHl]; constructor; [apply IH|exact IHl].
Qed.

Lemma jsstring_eqb_eq (a b : jsstring) : jsstring_eqb a b = true <-> a = b.
Proof.
  unfold jsstring_eqb. destruct (list_eq_dec N.eq_dec a b); split; congruence.
Qed.

Lemma jsstring_eqb_refl (a : jsstring) : jsstring_eqb a a = true.
Proof. now apply jsstring_eqb_eq. Qed.

Lemma distinct_keys_app_absent (a b : list jsstring) (k : jsstring) :
  distinct_keys (a ++ k :: b) = true -> existsb (jsstring_eqb k) a = false.
Proof.
  induction a as [|x a IH]; simpl; [reflexivity|]. intros H.
  apply andb_prop in H. destruct H as [Hx Ha].
  apply negb_true_iff in Hx. rewrite existsb_app in Hx.
  apply orb_false_elim in Hx. destruct Hx as [_ Hx]. simpl in Hx.
  apply orb_false_elim in Hx. destruct Hx as [Hx _].
  rewrite (IH Ha), orb_false_r.
  destruct (jsstring_eqb k x) eqn:E; [|reflexivity].
  apply jsstring_eqb_eq in E. subst x. now rewrite jsstring_eqb_refl in Hx.
Qed.

Lemma fold_CreateDataProperty (l acc : list (jsstring * json)) :
  distinct_keys (map fst (acc ++ l)) = true ->
  forallb plain_key (map fst l) = true ->
  fold_left (fun o kv => CreateDataProperty o (fst kv) (snd kv)) l acc =
  acc ++ l.
Proof.
  revert acc. induction l as [|[k v] l IH]; intros acc Hd Hp; simpl.
  - now rewrite app_nil_r.
  - simpl in Hp. apply andb_prop in Hp. destruct Hp as [Hk Hp].
    assert (E : CreateDataProperty acc k v = acc ++ [(k, v)]).
    { unfold CreateDataProperty.
      rewrite map_app in Hd. simpl in Hd.
      pose proof (distinct_keys_app_absent _ _ _ Hd) as Ha.
      assert (Ha' : existsb (fun kv => jsstring_eqb k (fst kv)) acc = false).
      { clear -Ha. induction acc as [|x acc IHa]; simpl in *; [reflexivity|].
        apply orb_false_elim in Ha. destruct Ha as [H1 H2].
        now rewrite H1, IHa. }
      rewrite Ha'. unfold plain_key in Hk.
      now destruct (array_index k). }
    rewrite E, IH.
    + now rewrite <- app_assoc.
    + now rewrite <- app_assoc.
    + assumption.
Qed.

Lemma object_of_members (l : list (jsstring * json)) :
  distinct_keys (map fst l) = true ->
  forallb plain_key (map fst l) = true ->
  object_of l = JObject l.
Proof.
  intros Hd Hp. unfold object_of. now rewrite fold_CreateDataProperty.
Qed.

(** ** White space and the first code unit of a value *)

Lemma skip_ws_app (ws t : jsstring) :
  forallb isJSONWhiteSpace ws = true -> skip_ws (ws ++ t) = skip_ws t.
Proof.
  induction ws as [|c ws IH]; simpl; [reflexivity|]. intros H.
  apply andb_prop in H. destruct H as [Hc Hw]. now rewrite Hc, IH.
Qed.

Lemma skip_ws_head (c : N) (t : jsstring) :
  isJSONWhiteSpace c = false -> skip_ws (c :: t) = c :: t.
Proof. intros H. simpl. now rewrite H. Qed.

Lemma parse_value_skip (fuel : nat) (ws t : jsstring) :
  forallb isJSONWhiteSpace ws = true ->
  parse_value fuel (ws ++ t) = parse_value fuel t.
Proof.
  intros H. destruct fuel as [|f]; [reflexivity|].
  cbn [parse_value]. now rewrite skip_ws_app.
Qed.

Lemma Number_toString_head (x : number) :
  json_number_ok x = true ->
  exists c t, Number_toString x = c :: t /\
              (isDigit c || (c =? 45)%N = true).
Proof.
  intros Hx.
  pose proof (parse_number_toString x [] Hx eq_refl) as Hp.
  rewrite app_nil_r in Hp.
  destruct (Number_toString x) as [|c t]; [discriminate|].
  exists c, t. split; [reflexivity|].
  destruct (c =? 45)%N eqn:E; [apply orb_true_r|].
  rewrite orb_false_r.
  assert (Hu : parse_unsigned false (c :: t) = Some (x, [])).
  { unfold parse_number in Hp. apply N.eqb_neq in E.
    destruct c as [|p]; [exact Hp|].
    repeat (destruct p as [p|p|]; try exact Hp; try congruence). }
  unfold parse_unsigned, parse_int in Hu. cbn [span_digits] in Hu.
  destruct (isDigit c); [reflexivity|discriminate].
Qed.

Lemma serialize_head (indent : jsstring) (v : json) :
  wf_json v = true ->
  exists c t, SerializeJSONProperty indent v = c :: t /\ value_start c = true.
Proof.
  intros Hv. destruct v as [|[|]|x|s|l|l].
  - now exists 110%N, (js "ull").
  - now exists 116%N, (js "rue").
  - now exists 102%N, (js "alse").
  - simpl in Hv. cbn [SerializeJSONProperty].
    assert (Hf : is_finite x = true) by (now destruct x as [[|]| | |]).
    rewrite Hf. destruct (Number_toString_head x Hv) as [c [t [E Hc]]].
    exists c, t. split; [assumption|]. unfold value_start.
    apply orb_prop in Hc. destruct Hc as [Hc|Hc]; rewrite Hc; simpl;
      now rewrite ?orb_true_r.
  - exists 34%N, (quote_units s ++ [34%N]). now split.
  - destruct l as [|v l]; [now exists 91%N, (js "]")|].
    cbn [SerializeJSONProperty]. eexists 91%N, _. split; [reflexivity|reflexivity].
  - destruct l as [|kv l]; [now exists 123%N, (js "}")|].
    cbn [SerializeJSONProperty]. eexists 123%N, _. split; [reflexivity|reflexivity].
Qed.

Lemma value_start_facts (c : N) :
  value_start c = true ->
  isJSONWhiteSpace c = false /\ (c =? 93)%N = false /\ (c =? 125)%N = false.
Proof.
  unfold value_start, isDigit, isJSONWhiteSpace. intros H.
  repeat match type of H with
         | (_ || _) = true => apply orb_prop in H; destruct H as [H|H]
         end.
  - apply andb_prop in H. destruct H as [H1 H2].
    apply N.leb_le in H1, H2.
    repeat split; repeat (apply orb_false_intro); apply N.eqb_neq; lia.
  - apply N.eqb_eq in H. subst c. now repeat split.
  - apply N.eqb_eq in H. subst c. now repeat split.
  - apply N.eqb_eq in H. subst c. now repeat split.
  - apply N.eqb_eq in H. subst c. now repeat split.
  - apply N.eqb_eq in H. subst c. now repeat split.
  - apply N.eqb_eq in H. subst c. now repeat split.
  - apply N.eqb_eq in H. subst c. now repeat split.
Qed.

(** ** Arrays and objects *)

Lemma skip_ws_close (stepback : jsstring) (c : N) (rest : jsstring) :
  forallb isJSONWhiteSpace stepback = true ->
  isJSONWhiteSpace c = false ->
  skip_ws (newline ++ stepback ++ c :: rest) = c :: rest.
Proof.
  intros Hs Hc. rewrite app_assoc, skip_ws_app.
  - now apply skip_ws_head.
  - rewrite forallb_app. now rewrite Hs.
Qed.

Lemma parse_elements_join (l : list json) :
  Forall reads_back l ->
  forall indent pre stepback rest fuel,
    l <> [] ->
    forallb wf_json l = true ->
    forallb isJSONWhiteSpace indent = true ->
    forallb isJSONWhiteSpace pre = true ->
    forallb isJSONWhiteSpace stepback = true ->
    (List.length (join (separator indent)
                    (map (SerializeJSONProperty indent) l)) + 1 < fuel)%nat ->
    parse_elements fuel
      (pre ++ join (separator indent) (map (SerializeJSONProperty indent) l) ++
       newline ++ stepback ++ js "]" ++ rest) = Some (l, rest).
Proof.
  induction 1 as [|v l Hv Hl IH];
    intros indent pre stepback rest fuel Hne Hwf Hi Hp Hs Hf; [congruence|].
  cbn [forallb] in Hwf. apply andb_prop in Hwf. destruct Hwf as [Hwv Hwl].
  destruct fuel as [|f]; [lia|].
  cbn [parse_elements]. rewrite parse_value_skip by assumption.
  destruct l as [|v2 more].
  - (* the last element *)
    cbn [map join] in *.
    rewrite (Hv indent _ f Hwv Hi); [|reflexivity|lia].
    change (js "]" ++ rest) with (93%N :: rest).
    rewrite skip_ws_close by (assumption || reflexivity).
    reflexivity.
  - (* an element and a separator *)
    set (J := join (separator indent)
                (map (SerializeJSONProperty indent) (v2 :: more))) in *.
    assert (EJ : join (separator indent)
                   (map (SerializeJSONProperty indent) (v :: v2 :: more)) =
                 SerializeJSONProperty indent v ++ separator indent ++ J)
      by reflexivity.
    rewrite EJ in *. clear EJ.
    rewrite !length_app in Hf.
    assert (Hsep : (2 <= List.length (separator indent))%nat).
    { unfold separator. rewrite !length_app. simpl. lia. }
    rewrite <- !app_assoc.
    rewrite (Hv indent _ f Hwv Hi); [|reflexivity|lia].
    change (separator indent ++
            J ++ newline ++ stepback ++ js "]" ++ rest)
      with (44%N :: (newline ++ indent) ++
            J ++ newline ++ stepback ++ js "]" ++ rest).
    rewrite skip_ws_head by reflexivity.
    cbn [head_is]. change (44 =? 44)%N with true. cbv iota.
    subst J.
    rewrite (IH indent (newline ++ indent) stepback rest f);
      try assumption; try reflexivity.
    + discriminate.
    + lia.
Qed.

Lemma parse_value_space (fuel : nat) (t : jsstring) :
  parse_value fuel (32%N :: t) = parse_value fuel t.
Proof. exact (parse_value_skip fuel [32%N] t eq_refl). Qed.

Lemma parse_members_join (l : list (jsstring * json)) :
  Forall (fun kv => reads_back (snd kv)) l ->
  forall indent pre stepback rest fuel,
    l <> [] ->
    forallb (fun kv => wf_json (snd kv)) l = true ->
    forallb isJSONWhiteSpace indent = true ->
    forallb isJSONWhiteSpace pre = true ->
    forallb isJSONWhiteSpace stepback = true ->
    (List.length (join (separator indent) (map (member_text indent) l)) + 1
     < fuel)%nat ->
    parse_members fuel
      (pre ++ join (separator indent) (map (member_text indent) l) ++
       newline ++ stepback ++ js "}" ++ rest) = Some (l, rest).
Proof.
  induction 1 as [|[k v] l Hv Hl IH];
    intros indent pre stepback rest fuel Hne Hwf Hi Hp Hs Hf; [congruence|].
  cbn [forallb snd] in Hwf. apply andb_prop in Hwf. destruct Hwf as [Hwv Hwl].
  cbn [snd] in Hv.
  destruct fuel as [|f]; [lia|].
  cbn [parse_members]. rewrite skip_ws_app by assumption.
  assert (Hkey : forall tail,
             exists t,
               member_text indent (k, v) ++ tail = 34%N :: t /\
               parse_string t =
               Some (k, 58%N :: 32%N :: SerializeJSONProperty indent v ++ tail)).
  { intros tail. unfold member_text. cbn [fst snd].
    destruct (parse_string_QuoteJSONString k
                (58%N :: 32%N :: SerializeJSONProperty indent v ++ tail))
      as [t [Et Hp']].
    exists t. split; [|assumption].
    rewrite <- Et. rewrite <- !app_assoc. reflexivity. }
  assert (Hlen : (List.length (SerializeJSONProperty indent v) + 4 <=
                  List.length (member_text indent (k, v)))%nat).
  { unfold member_text, QuoteJSONString. cbn [fst snd].
    rewrite !length_app. simpl. lia. }
  destruct l as [|kv2 more].
  - (* the last member *)
    cbn [map join] in *.
    destruct (Hkey (newline ++ stepback ++ js "}" ++ rest)) as [t [Et Hps]].
    rewrite Et. rewrite skip_ws_head by reflexivity.
    cbn [head_is]. change (34 =? 34)%N with true. cbv iota.
    rewrite Hps. rewrite skip_ws_head by reflexivity.
    cbn [head_is]. change (58 =? 58)%N with true. cbv iota.
    rewrite parse_value_space.
    rewrite (Hv indent _ f Hwv Hi); [|reflexivity|lia].
    change (js "}" ++ rest) with (125%N :: rest).
    rewrite skip_ws_close by (assumption || reflexivity).
    reflexivity.
  - (* a member and a separator *)
    set (J := join (separator indent) (map (member_text indent) (kv2 :: more)))
      in *.
    assert (EJ : join (separator indent)
                   (map (member_text indent) ((k, v) :: kv2 :: more)) =
                 member_text indent (k, v) ++ separator indent ++ J)
      by reflexivity.
    rewrite EJ in *. clear EJ.
    rewrite !length_app in Hf.
    assert (Hsep : (2 <= List.length (separator indent))%nat).
    { unfold separator. rewrite !length_app. simpl. lia. }
    rewrite <- !app_assoc.
    destruct (Hkey (separator indent ++
                    J ++ newline ++ stepback ++ js "}" ++ rest))
      as [t [Et Hps]].
    rewrite Et. rewrite skip_ws_head by reflexivity.
    cbn [head_is]. change (34 =? 34)%N with true. cbv iota.
    rewrite Hps. rewrite skip_ws_head by reflexivity.
    cbn [head_is]. change (58 =? 58)%N with true. cbv iota.
    rewrite parse_value_space.
    rewrite (Hv indent _ f Hwv Hi); [|reflexivity|lia].
    change (separator indent ++
            J ++ newline ++ stepback ++ js "}" ++ rest)
      with (44%N :: (newline ++ indent) ++
            J ++ newline ++ stepback ++ js "}" ++ rest).
    rewrite skip_ws_head by reflexivity.
    cbn [head_is]. change (44 =? 44)%N with true. cbv iota.
    subst J.
    rewrite (IH indent (newline ++ indent) stepback rest f);
      try assumption; try reflexivity.
    + discriminate.
    + lia.
Qed.

Lemma digit_or_minus_not_structural (c : N) :
  isDigit c || (c =? 45)%N = true ->
  isJSONWhiteSpace c = false /\
  (c =? 123)%N = false /\ (c =? 91)%N = false /\ (c =? 34)%N = false /\
  (c =? 116)%N = false /\ (c =? 102)%N = false /\ (c =? 110)%N = false.
Proof.
  unfold isDigit, isJSONWhiteSpace. intros H.
  assert (Hc : (45 <= c <= 57)%N).
  { apply orb_prop in H. destruct H as [H|H].
    - apply andb_prop in H. destruct H as [H1 H2].
      apply N.leb_le in H1, H2. lia.
    - apply N.eqb_eq in H. lia. }
  repeat split; repeat (apply orb_false_intro); apply N.eqb_neq; lia.
Qed.

(** Every value [JSON.stringify] can write back reads back. *)
Lemma serialize_reads_back (v : json) : reads_back v.
Proof.
  induction v as [|b|x|s|l IH|l IH] using json_induction;
    intros indent rest fuel Hwf Hi Hr Hf;
    (destruct fuel as [|f]; [lia|]).
  - reflexivity.
  - destruct b; reflexivity.
  - (* a number *)
    cbn [wf_json] in Hwf. cbn [SerializeJSONProperty] in *.
    assert (Hfin : is_finite x = true) by (now destruct x as [[|]| | |]).
    rewrite Hfin in *.
    pose proof (parse_number_toString x rest Hwf Hr) as Hp.
    destruct (Number_toString_head x Hwf) as [c [t [E Hc]]].
    rewrite E in *. cbn [app] in *.
    destruct (digit_or_minus_not_structural c Hc)
      as [Hw [H1 [H2 [H3 [H4 [H5 H6]]]]]].
    cbn [parse_value]. rewrite skip_ws_head by assumption.
    now rewrite H1, H2, H3, H4, H5, H6, Hp.
  - (* a string *)
    cbn [SerializeJSONProperty].
    destruct (parse_string_QuoteJSONString s rest) as [t [Et Hp]].
    rewrite Et. cbn [parse_value]. rewrite skip_ws_head by reflexivity.
    change (34 =? 123)%N with false. change (34 =? 91)%N with false.
    change (34 =? 34)%N with true. cbv iota. now rewrite Hp.
  - (* an array *)
    destruct l as [|v l]; [reflexivity|].
    cbn [wf_json] in Hwf.
    assert (Hws : forallb isJSONWhiteSpace (indent ++ gap) = true).
    { rewrite forallb_app. now rewrite Hi. }
    set (J := join (separator (indent ++ gap))
                (map (SerializeJSONProperty (indent ++ gap)) (v :: l))) in *.
    assert (E : SerializeJSONProperty indent (JArray (v :: l)) =
                91%N :: (newline ++ indent ++ gap) ++ J ++
                newline ++ indent ++ js "]").
    { cbn [SerializeJSONProperty]. unfold J, separator.
      rewrite <- !app_assoc. reflexivity. }
    rewrite E in *. clear E.
    assert (HJ : exists c t, J = c :: t /\ value_start c = true).
    { assert (Hv : wf_json v = true).
      { cbn [forallb] in Hwf. now apply andb_prop in Hwf. }
      destruct (serialize_head (indent ++ gap) v Hv) as [c [t [E Hc]]].
      unfold J. cbn [map]. destruct l as [|v2 l'].
      - exists c, t. now split.
      - cbn [join]. rewrite E. eexists c, _. split; [reflexivity|assumption]. }
    destruct HJ as [c [t [EJ Hc]]].
    destruct (value_start_facts c Hc) as [Hcw [Hc93 _]].
    cbn [parse_value app]. rewrite skip_ws_head by reflexivity.
    change (91 =? 123)%N with false. change (91 =? 91)%N with true. cbv iota.
    rewrite <- !app_assoc.
    assert (Hskip : skip_ws
                      (newline ++ indent ++ gap ++
                       J ++ newline ++ indent ++ js "]" ++ rest) =
                    c :: t ++ newline ++ indent ++ js "]" ++ rest).
    { rewrite !app_assoc. rewrite <- (app_assoc _ J), <- !app_assoc.
      rewrite (app_assoc newline), (app_assoc (newline ++ indent)).
      rewrite skip_ws_app.
      - rewrite EJ. cbn [app]. now apply skip_ws_head.
      - rewrite <- app_assoc. cbn [app forallb]. exact Hws. }
    rewrite Hskip. cbn [head_is]. rewrite Hc93.
    rewrite (app_assoc newline), (app_assoc (newline ++ indent)).
    rewrite <- (app_assoc newline indent gap). unfold J.
    rewrite (parse_elements_join (v :: l) IH (indent ++ gap)
               (newline ++ indent ++ gap) indent rest f);
      try assumption; try reflexivity.
    + discriminate.
    + fold J. cbn [List.length] in Hf. rewrite !length_app in Hf.
      unfold newline in Hf. simpl in Hf. lia.
  - (* an object *)
    destruct l as [|kv l]; [reflexivity|].
    cbn [wf_json] in Hwf.
    apply andb_prop in Hwf. destruct Hwf as [Hwf Hvals].
    apply andb_prop in Hwf. destruct Hwf as [Hdist Hplain].
    assert (Hws : forallb isJSONWhiteSpace (indent ++ gap) = true).
    { rewrite forallb_app. now rewrite Hi. }
    set (J := join (separator (indent ++ gap))
                (map (member_text (indent ++ gap)) (kv :: l))) in *.
    assert (E : SerializeJSONProperty indent (JObject (kv :: l)) =
                123%N :: (newline ++ indent ++ gap) ++ J ++
                newline ++ indent ++ js "}").
    { cbn [SerializeJSONProperty]. unfold J, separator, member_text.
      rewrite <- !app_assoc. reflexivity. }
    rewrite E in *. clear E.
    assert (HJ : exists t, J = 34%N :: t).
    { unfold J. cbn [map]. destruct l as [|kv2 l'].
      - cbn [join]. unfold member_text, QuoteJSONString. cbn [app].
        eexists. reflexivity.
      - cbn [join]. unfold member_text, QuoteJSONString. cbn [app].
        eexists. reflexivity. }
    destruct HJ as [t EJ].
    cbn [parse_value app]. rewrite skip_ws_head by reflexivity.
    change (123 =? 123)%N with true. cbv iota.
    rewrite <- !app_assoc.
    assert (Hskip : skip_ws
                      (newline ++ indent ++ gap ++
                       J ++ newline ++ indent ++ js "}" ++ rest) =
                    34%N :: t ++ newline ++ indent ++ js "}" ++ rest).
    { rewrite (app_assoc newline), (app_assoc (newline ++ indent)).
      rewrite skip_ws_app.
      - rewrite EJ. cbn [app]. now apply skip_ws_head.
      - rewrite <- app_assoc. cbn [app forallb]. exact Hws. }
    rewrite Hskip. cbn [head_is]. change (34 =? 125)%N with false. cbv iota.
    rewrite (app_assoc newline), (app_assoc (newline ++ indent)).
    rewrite <- (app_assoc newline indent gap). unfold J.
    rewrite (parse_members_join (kv :: l) IH (indent ++ gap)
               (newline ++ indent ++ gap) indent rest f);
      try assumption; try reflexivity.
    + now rewrite object_of_members.
    + discriminate.
    + fold J. cbn [List.length] in Hf. rewrite !length_app in Hf.
      unfold newline in Hf. simpl in Hf. lia.
Qed.

(** [JSON.parse(JSON.stringify(v, null, 2))] is [v] for every value [v]
    that [wf_json] admits. *)
Lemma JSON_round_trip (v : json) :
  wf_json v = true -> JSON_parse (JSON_stringify v) = Some v.
Proof.
  intros Hwf. unfold JSON_parse, JSON_stringify.
  pose proof (serialize_reads_back v [] []
                (S (List.length (SerializeJSONProperty [] v)))
                Hwf eq_refl eq_refl ltac:(lia)) as H.
  rewrite app_nil_r in H. now rewrite H.
Qed.

(* ===================================================================== *)
(** * The exported document *)
(* ===================================================================== *)

Lemma decimal_to_number_valid (s : bool) (M : N) (E : Z) :
  valid_binary prec emax (decimal_to_number s M E) = true.
Proof.
  unfold decimal_to_number. destruct M as [|p]; [reflexivity|].
  destruct (0 <=? E); apply round_ratio_valid.
Qed.

(** [Number(s)] is a binary64 value. *)
Lemma Number_valid (r : jsstring) : valid_binary prec emax (Number r) = true.
Proof.
  unfold Number. destruct (trim r) as [|c t]; [reflexivity|].
  destruct (parse_non_decimal (c :: t)); [apply decimal_to_number_valid|].
  destruct (c =? 45)%N; [|destruct (c =? 43)%N];
    match goal with
    | |- context [parse_unsigned_decimal ?b] =>
        destruct (parse_unsigned_decimal b) as [[|m e]|]
    end; try reflexivity; apply decimal_to_number_valid.
Qed.

Lemma retentionDays_ok (r : jsstring) :
  is_finite (retentionDays r) = true ->
  json_number_ok (retentionDays r) = true.
Proof.
  unfold retentionDays. rewrite Math_max_or_zero.
  pose proof (Number_valid r) as Hv.
  destruct (Number r) as [[|]|[|]| |[|] m e]; simpl; auto; discriminate.
Qed.

Lemma wf_strings_json (l : list jsstring) : wf_json (strings_json l) = true.
Proof.
  unfold strings_json. cbn [wf_json].
  induction l as [|x l IH]; [reflexivity|exact IH].
Qed.

Lemma wf_object (l : list (jsstring * json)) :
  distinct_keys (map fst l) = true ->
  forallb plain_key (map fst l) = true ->
  Forall (fun kv => wf_json (snd kv) = true) l ->
  wf_json (JObject l) = true.
Proof.
  intros Hd Hp Hv. cbn [wf_json]. rewrite Hd, Hp. simpl.
  apply forallb_forall. intros kv Hin.
  rewrite Forall_forall in Hv. now apply Hv.
Qed.

Lemma wf_CustomAction_json (a : CustomAction.t) :
  action_ok a = true -> wf_json (CustomAction_json a) = true.
Proof.
  destruct a as [n d t sp au rl ad]. unfold action_ok, CustomAction_json.
  cbn [CustomAction.name CustomAction.description CustomAction.type
       CustomAction.specUrlOrInline CustomAction.auth
       CustomAction.rateLimitPerMinute CustomAction.allowedDomains].
  intros Hrl.
  apply wf_object.
  - destruct d, sp, au, rl, ad; reflexivity.
  - destruct d, sp, au, rl, ad; reflexivity.
  - assert (Hau : forall x, wf_json (Auth_json x) = true).
    { intros [ty [i|]]; reflexivity. }
    destruct d, sp, au, rl, ad; cbn [optional app];
      repeat constructor; cbn [snd]; auto using wf_strings_json.
Qed.

Lemma wf_actions_json (l : list CustomAction.t) :
  forallb action_ok l = true ->
  wf_json (JArray (map CustomAction_json l)) = true.
Proof.
  cbn [wf_json]. induction l as [|a l IH]; [reflexivity|].
  cbn [forallb map]. intros H. apply andb_prop in H. destruct H as [Ha Hl].
  now rewrite wf_CustomAction_json, IH.
Qed.

Lemma wf_starters_json (l : list ConversationStarter.t) :
  wf_json (JArray (map ConversationStarter_json l)) = true.
Proof.
  cbn [wf_json]. induction l as [|a l IH]; [reflexivity|].
  cbn [forallb map]. rewrite IH. reflexivity.
Qed.

Lemma wf_CustomGPTConfig_json (d : CustomGPTConfig.t) :
  json_number_ok
    (MemoryPolicy.dataRetentionDays (CustomGPTConfig.memory d)) = true ->
  forallb action_ok (CustomGPTConfig.customActions d) = true ->
  wf_json (CustomGPTConfig_json d) = true.
Proof.
  intros Hn Ha. unfold CustomGPTConfig_json.
  apply wf_object; [reflexivity|reflexivity|].
  repeat constructor; cbn [snd];
    auto using wf_strings_json, wf_actions_json, wf_starters_json.
  - apply wf_object; [reflexivity|reflexivity|].
    repeat constructor; cbn [snd]; auto using wf_strings_json.
  - apply wf_object; [reflexivity|reflexivity|].
    repeat constructor; cbn [snd]; auto.
  - apply wf_object; [reflexivity|reflexivity|].
    repeat constructor; cbn [snd]; auto using wf_strings_json.
Qed.


Lemma forallb_filter_from {A : Type} (f : A -> bool) (p : A -> nat -> bool)
  (k : nat) (l : list A) :
  forallb f l = true -> forallb f (filter_from p k l) = true.
Proof.
  revert k. induction l as [|x l IH]; intros k H; [reflexivity|].
  cbn [forallb] in H. apply andb_prop in H. destruct H as [Hx Hl].
  cbn [filter_from]. destruct (p x k); cbn [forallb];
    rewrite ?Hx; now apply IH.
Qed.

Lemma step_actions_ok (s : State) (ev : event) :
  actions_ok s = true -> actions_ok (step s ev) = true.
Proof.
  unfold actions_ok. intros H.
  pose proof H as H'. apply andb_prop in H'. destruct H' as [Hl Hd].
  destruct ev; try exact H;
    try (cbn [step]; unfold removeAction, removeAt, Array_filter;
         cbn [actions actionDraft setActions];
         rewrite forallb_filter_from by assumption; exact Hd).
  - cbn [step]. unfold addAction.
    destruct (negb (truthy_string (trim (CustomAction.name (actionDraft s)))));
      [exact H|].
    cbn [actions actionDraft setActions setActionDraft].
    rewrite forallb_app, Hl. cbn [forallb]. now rewrite Hd.
  - cbn [step]. unfold addDoc. destruct (negb _); exact H.
  - cbn [step]. unfold addPhrase. destruct (negb _); exact H.
  - cbn [step]. unfold addStarter. destruct (_ || _); exact H.
  - cbn [step]. unfold addSample. destruct (negb _); exact H.
  - cbn [step]. unfold addTag. destruct (negb _); exact H.
Qed.

Lemma fold_step_actions_ok (events : list event) (s : State) :
  actions_ok s = true -> actions_ok (fold_left step events s) = true.
Proof.
  revert s. induction events as [|ev events IH]; intros s H; [exact H|].
  cbn [fold_left]. apply IH. now apply step_actions_ok.
Qed.

(** In every session the actions stored are ones the editor built: none
    carries a [rateLimitPerMinute]. *)
Lemma session_actions_ok (events : list event) :
  forallb action_ok (actions (session events)) = true.
Proof.
  pose proof (fold_step_actions_ok events initialState eq_refl) as H.
  unfold actions_ok in H. now apply andb_prop in H.
Qed.

(** Whenever the retention days of the document are finite, and any
    [rateLimitPerMinute] a stored action carries is a finite number other
    than [-0], parsing the JSON text of the derived document gives back
    the document. *)
Lemma export_round_trip_state (s : State) (now : Z) :
  is_finite (retentionDays (retention s)) = true ->
  forallb action_ok (actions s) = true ->
  JSON_parse (exportText s now) = Some (CustomGPTConfig_json (output s now)).
Proof.
  intros Hfin Hact.
  unfold exportText. apply JSON_round_trip, wf_CustomGPTConfig_json.
  - now apply retentionDays_ok.
  - exact Hact.
Qed.


